(** * Validation metrics of the extraction pipeline

    A shallow embedding of
    [extract_from_pdfs/templates/08_calculate_validation_metrics.py]:
    the type-dispatched comparator ([compare_field], [compare_nested],
    [compare_list], ...), the per-paper evaluator ([evaluate_paper]), the
    corpus aggregator ([aggregate_metrics]) and the two "common issues"
    lists of [generate_report].

    Python values are the JSON values that [json.load] produces.  Python
    exceptions are explicit: every function that can raise returns a
    [result].  Python [float]s are IEEE binary64 numbers, modelled by the
    reference semantics of [SpecFloat] at precision 53.

    A Python [str] is modelled by a [string]: ASCII text by its
    characters, any other text by an encoding that tells texts apart and
    marks each with a character beyond 127, as UTF-8 does.  Equality,
    concatenation and emptiness are those of [string].  What the builtins
    [lower], [split], [float] and the iteration over characters do on
    ASCII text is defined here; what they do on other text follows the
    Unicode tables and is a parameter of the development, as is [str] on
    a value that is no string.  Every property holds whatever these
    parameters are. *)

From Stdlib Require Import ZArith Lia Ascii String SpecFloat.
From stdpp Require Import base option list strings gmap sorting.

Local Open Scope Z_scope.

(** ** Exceptions and results *)

Inductive exn :=
  | TypeError
  | ValueError
  | AttributeError
  | OverflowError.

#[global] Instance exn_eq_dec : EqDecision exn.
Proof. solve_decision. Defined.

Inductive result (A : Type) :=
  | Ok (a : A)
  | Raise (e : exn).
Arguments Ok {A} a.
Arguments Raise {A} e.

#[global] Instance result_ret : MRet result := fun A a => Ok a.
#[global] Instance result_bind : MBind result := fun A B f m =>
  match m with
  | Ok a => f a
  | Raise e => Raise e
  end.
#[global] Instance result_fmap : FMap result := fun A B f m =>
  match m with
  | Ok a => Ok (f a)
  | Raise e => Raise e
  end.

(** ** Binary64 floating point *)

Module Float64.

Definition prec : Z := 53.
Definition emax : Z := 1024.

Abbreviation float := spec_float.

Definition zero : float := S754_zero false.
Definition add : float -> float -> float := SFadd prec emax.
Definition sub : float -> float -> float := SFsub prec emax.
Definition mul : float -> float -> float := SFmul prec emax.
Definition div : float -> float -> float := SFdiv prec emax.
Definition abs : float -> float := SFabs.
Definition ltb : float -> float -> bool := SFltb.
Definition leb : float -> float -> bool := SFleb.

Definition is_nan (x : float) : bool :=
  match x with S754_nan => true | _ => false end.

(** [n / d] for integers with [0 < d], rounded once to the nearest
    binary64 number (ties to even), as Python's [int.__truediv__] does.
    Python raises an [OverflowError] where the rounded quotient is beyond
    the range of the floats and the result here is an infinity; that takes
    a quotient above [2^1023], which the counts of the comparator, never
    negative, do not give: there [0 <= n <= d]. *)
Definition ratio (n d : Z) : float :=
  match n with
  | Z0 => zero
  | _ =>
      let '(q, e, l) := SFdiv_core_binary prec emax (Z.abs n) 0 d 0 in
      binary_round_aux prec emax (Z.ltb n 0) q e l
  end.

(** The integer [z] rounded to the nearest binary64 number; the result
    is an infinity when [z] is out of range. *)
Definition round_Z (z : Z) : float := binary_normalize prec emax z 0 false.

(** [mant * 10 ^ e10], rounded once, with the sign [neg]. *)
Definition of_decimal (neg : bool) (mant : Z) (e10 : Z) : float :=
  match mant with
  | Z0 => S754_zero neg
  | _ =>
      if 0 <=? e10
      then binary_normalize prec emax
             ((if neg then - mant else mant) * 10 ^ e10) 0 false
      else
        let '(q, e, l) :=
          SFdiv_core_binary prec emax mant 0 (10 ^ (- e10)) 0 in
        binary_round_aux prec emax neg q e l
  end.

(** The exact value of a number, in the normal form [m * 2 ^ e] with [m]
    odd (or [m = 0] and [e = 0]).  Python compares numbers of different
    types ([bool], [int], [float]) by their exact values. *)
Inductive exact :=
  | Infinite (neg : bool)
  | Dyadic (m : Z) (e : Z).

#[global] Instance exact_eq_dec : EqDecision exact.
Proof. solve_decision. Defined.

Fixpoint strip_zeros (p : positive) (e : Z) : positive * Z :=
  match p with
  | xO p' => strip_zeros p' (e + 1)
  | _ => (p, e)
  end.

Definition dyadic (m e : Z) : exact :=
  match m with
  | Z0 => Dyadic 0 0
  | Zpos p => let '(p', e') := strip_zeros p e in Dyadic (Zpos p') e'
  | Zneg p => let '(p', e') := strip_zeros p e in Dyadic (Zneg p') e'
  end.

Definition exact_of_Z (z : Z) : exact := dyadic z 0.

Definition exact_of_float (x : float) : option exact :=
  match x with
  | S754_nan => None
  | S754_zero _ => Some (Dyadic 0 0)
  | S754_infinity s => Some (Infinite s)
  | S754_finite s m e => Some (dyadic (cond_Zopp s (Zpos m)) e)
  end.

(** [x == y] on floats: equal values, a NaN equals nothing. *)
Definition eqb (x y : float) : bool :=
  match exact_of_float x, exact_of_float y with
  | Some a, Some b => bool_decide (a = b)
  | _, _ => false
  end.

End Float64.

Abbreviation float := spec_float.

(** ** Strings *)

Module Str.

Definition code (c : ascii) : Z := Z.of_N (N_of_ascii c).

(** ASCII text: every character is below 128. *)
Fixpoint is_ascii (s : string) : bool :=
  match s with
  | EmptyString => true
  | String c s' => (code c <? 128) && is_ascii s'
  end.

Definition is_digit (c : ascii) : bool := (48 <=? code c) && (code c <=? 57).

Definition digit_val (c : ascii) : Z := code c - 48.

(** The ASCII characters that [str.split] and [str.isspace] treat as
    white space: tab, line feed, vertical tab, form feed, carriage return,
    the four separators 28 to 31, and the space. *)
Definition is_space (c : ascii) : bool :=
  ((9 <=? code c) && (code c <=? 13))
  || ((28 <=? code c) && (code c <=? 31))
  || (code c =? 32).

(** The white space of C's [isspace], which [float] strips. *)
Definition is_c_space (c : ascii) : bool :=
  ((9 <=? code c) && (code c <=? 13)) || (code c =? 32).

Definition lower_char (c : ascii) : ascii :=
  if (65 <=? code c) && (code c <=? 90)
  then ascii_of_N (N_of_ascii c + 32)
  else c.

(** [s.lower()] for ASCII text: the letters A to Z alone change. *)
Fixpoint lower (s : string) : string :=
  match s with
  | EmptyString => EmptyString
  | String c s' => String (lower_char c) (lower s')
  end.

(** [s.split()] for ASCII text: the maximal runs of characters that are
    not white space.  [cur] is the run being read, if any. *)
Fixpoint split_go (cur : option string) (s : string) : list string :=
  match s with
  | EmptyString =>
      match cur with Some w => [String.rev w] | None => [] end
  | String c s' =>
      if is_space c
      then match cur with
           | Some w => String.rev w :: split_go None s'
           | None => split_go None s'
           end
      else split_go (Some (String c (default EmptyString cur))) s'
  end.

Definition split (s : string) : list string := split_go None s.

(** [sep.join(l)] *)
Fixpoint join (sep : string) (l : list string) : string :=
  match l with
  | [] => EmptyString
  | [w] => w
  | w :: l' => String.app w (String.app sep (join sep l'))
  end.

(** The one-character strings of an ASCII text [s], which iterating
    over [s] yields. *)
Fixpoint chars (s : string) : list string :=
  match s with
  | EmptyString => []
  | String c s' => String c EmptyString :: chars s'
  end.

End Str.

(** ** Parsing a float, as [float(s)] does for an ASCII text [s] *)

Module FloatParse.

Import Str.

Fixpoint take_while (p : ascii -> bool) (l : list ascii) : list ascii :=
  match l with
  | c :: l' => if p c then c :: take_while p l' else []
  | [] => []
  end.

Fixpoint drop_while (p : ascii -> bool) (l : list ascii) : list ascii :=
  match l with
  | c :: l' => if p c then drop_while p l' else l
  | [] => []
  end.

Definition strip (l : list ascii) : list ascii :=
  let drop := drop_while is_c_space in
  reverse (drop (reverse (drop l))).

(** An underscore may stand between two digits and nowhere else; the
    accepted ones are removed.  [prev] is the previous character. *)
Fixpoint underscores (prev : option ascii) (l : list ascii)
  : option (list ascii) :=
  match l with
  | [] =>
      if bool_decide (prev = Some "_"%char) then None else Some []
  | c :: l' =>
      if bool_decide (c = "_"%char)
      then match prev with
           | Some p => if is_digit p then underscores (Some c) l' else None
           | None => None
           end
      else
        if bool_decide (prev = Some "_"%char) && negb (is_digit c)
        then None
        else cons c <$> underscores (Some c) l'
  end.

Definition sign (l : list ascii) : bool * list ascii :=
  match l with
  | c :: l' =>
      if bool_decide (c = "-"%char) then (true, l')
      else if bool_decide (c = "+"%char) then (false, l')
      else (false, l)
  | [] => (false, l)
  end.

(** The digits at the head of [l], and the rest. *)
Definition digits (l : list ascii) : list ascii * list ascii :=
  (take_while is_digit l, drop_while is_digit l).

Definition number (ds : list ascii) : Z :=
  foldl (fun acc c => 10 * acc + digit_val c) 0 ds.

(** The exponent part, which is empty or [e], an optional sign and at
    least one digit, and must end the text. *)
Definition exponent (l : list ascii) : option Z :=
  match l with
  | [] => Some 0
  | c :: l' =>
      if bool_decide (lower_char c = "e"%char)
      then
        let '(neg, l'') := sign l' in
        let '(ds, rest) := digits l'' in
        match ds, rest with
        | _ :: _, [] => Some (if neg then - number ds else number ds)
        | _, _ => None
        end
      else None
  end.

(** The decimal mantissa and exponent of an unsigned numeral. *)
Definition decimal (l : list ascii) : option (Z * Z) :=
  let '(ip, rest) := digits l in
  let '(fp, rest') :=
    match rest with
    | c :: r => if bool_decide (c = "."%char) then digits r else ([], rest)
    | [] => ([], rest)
    end in
  match ip ++ fp with
  | [] => None
  | ds => e ← exponent rest'; Some (number ds, e - Z.of_nat (length fp))
  end.

Definition special (neg : bool) (l : list ascii) : option float :=
  let name := lower (string_of_list_ascii l) in
  if bool_decide (name = "inf"%string) || bool_decide (name = "infinity"%string)
  then Some (S754_infinity neg)
  else if bool_decide (name = "nan"%string) then Some S754_nan
  else None.

Definition parse (s : string) : option float :=
  l ← underscores None (strip (list_ascii_of_string s));
  let '(neg, body) := sign l in
  match special neg body with
  | Some x => Some x
  | None => '(m, e) ← decimal body; Some (Float64.of_decimal neg m e)
  end.

End FloatParse.

(** ** Values *)

(** The values that [json.load] yields.  A [dict] is the list of its
    items in insertion order; its keys are distinct. *)
#[local] Unset Elimination Schemes.
Inductive value :=
  | VNone
  | VBool (b : bool)
  | VInt (z : Z)
  | VFloat (x : float)
  | VStr (s : string)
  | VList (l : list value)
  | VDict (d : list (string * value)).
#[local] Set Elimination Schemes.

(** ** The builtins

    What Python computes beyond this development: [str(v)] for a value
    that is no string, and [s.lower()], [s.split()], [float(s)] and the
    characters of [s] for a text [s] that is not ASCII.  [float] gives
    [None] where Python raises a [ValueError]. *)
Record Builtins := {
  str_of : value -> string;
  unicode_lower : string -> string;
  unicode_split : string -> list string;
  unicode_float : string -> option float;
  unicode_chars : string -> list string
}.

(** [s.lower()] *)
Definition str_lower (py : Builtins) (s : string) : string :=
  if Str.is_ascii s then Str.lower s else unicode_lower py s.

(** [s.split()] *)
Definition str_split (py : Builtins) (s : string) : list string :=
  if Str.is_ascii s then Str.split s else unicode_split py s.

(** [float(s)] *)
Definition str_float (py : Builtins) (s : string) : option float :=
  if Str.is_ascii s then FloatParse.parse s else unicode_float py s.

(** The characters of [s], each a string. *)
Definition str_chars (py : Builtins) (s : string) : list string :=
  if Str.is_ascii s then Str.chars s else unicode_chars py s.

(** [d.get(k)] on the items of a dict, [None] of Python being [None]. *)
Fixpoint assoc {A} (k : string) (d : list (string * A)) : option A :=
  match d with
  | [] => None
  | (k', v) :: d' => if bool_decide (k' = k) then Some v else assoc k d'
  end.

Definition keys {A} (d : list (string * A)) : list string := d.*1.

(** [d.get(k)] and [d.get(k, dflt)] *)
Definition dict_get (d : list (string * value)) (k : string) : value :=
  default VNone (assoc k d).

Definition dict_get_default (d : list (string * value)) (k : string)
    (dflt : value) : value :=
  default dflt (assoc k d).

(** The exact value of a [bool], [int] or [float]; a NaN has none. *)
Definition numeric (v : value) : option (option Float64.exact) :=
  match v with
  | VBool b => Some (Some (Float64.exact_of_Z (if b then 1 else 0)))
  | VInt z => Some (Some (Float64.exact_of_Z z))
  | VFloat x => Some (Float64.exact_of_float x)
  | _ => None
  end.

(** [v is w] for two values that are one object whenever [json.load]
    has read them: the decoder has one NaN, the module constant that it
    returns for every [NaN] of the text.  (Any other object that occurs
    twice equals itself.) *)
Definition same_nan (v w : value) : bool :=
  match v, w with
  | VFloat S754_nan, VFloat S754_nan => true
  | _, _ => false
  end.

(** [v == w].  A list or a dict compares its elements as a container
    does, by identity first: [x is y or x == y]. *)
Fixpoint py_eq (v w : value) {struct v} : bool :=
  match v, w with
  | VNone, VNone => true
  | VStr s, VStr s' => bool_decide (s = s')
  | VList l, VList l' =>
      (fix all2 (l l' : list value) : bool :=
         match l, l' with
         | [], [] => true
         | x :: l, y :: l' => (same_nan x y || py_eq x y) && all2 l l'
         | _, _ => false
         end) l l'
  | VDict d, VDict d' =>
      bool_decide (length d = length d')
      && (fix items (d : list (string * value)) : bool :=
            match d with
            | [] => true
            | (k, x) :: d =>
                match assoc k d' with
                | Some y => (same_nan x y || py_eq x y) && items d
                | None => false
                end
            end) d
  | (VBool _ | VInt _ | VFloat _), (VBool _ | VInt _ | VFloat _) =>
      match numeric v, numeric w with
      | Some (Some a), Some (Some b) => bool_decide (a = b)
      | _, _ => false
      end
  | _, _ => false
  end.

(** [bool(v)] *)
Definition truthy (v : value) : bool :=
  match v with
  | VNone => false
  | VBool b => b
  | VInt z => negb (z =? 0)
  | VFloat x => match x with S754_zero _ => false | _ => true end
  | VStr s => negb (bool_decide (s = EmptyString))
  | VList l => match l with [] => false | _ => true end
  | VDict d => match d with [] => false | _ => true end
  end.

(** A list and a dict cannot be hashed. *)
Definition hashable (v : value) : bool :=
  match v with
  | VList _ | VDict _ => false
  | _ => true
  end.

(** [x is y or x == y], the test of a lookup in a set. *)
Definition same_or_eq (x y : value) : bool := same_nan x y || py_eq x y.

(** [x in s] for a set [s], given by its elements. *)
Definition py_in (x : value) (s : list value) : bool :=
  existsb (same_or_eq x) s.

(** [set(l)]: the elements are hashed and added one by one; an element
    that is, or equals, one already there is dropped. *)
Fixpoint set_add_all (l : list value) (acc : list value)
  : result (list value) :=
  match l with
  | [] => Ok acc
  | x :: l' =>
      if hashable x
      then set_add_all l' (if py_in x acc then acc else acc ++ [x])
      else Raise TypeError
  end.

Definition py_set (l : list value) : result (list value) :=
  set_add_all l [].

(** [s & t] and [s - t] *)
Definition set_inter (s t : list value) : list value :=
  filter (fun x => py_in x t = true) s.

Definition set_diff (s t : list value) : list value :=
  filter (fun x => py_in x t = false) s.

(** [len(l)] *)
Definition len {A} (l : list A) : Z := Z.of_nat (length l).

(** [iter(v)], as [zip] takes it: the elements of a list, the characters
    of a string, the keys of a dict. *)
Definition py_iter (py : Builtins) (v : value) : result (list value) :=
  match v with
  | VList l => Ok l
  | VStr s => Ok (VStr <$> str_chars py s)
  | VDict d => Ok (VStr <$> keys d)
  | _ => Raise TypeError
  end.

(** [float(v)] *)
Definition py_float (py : Builtins) (v : value) : result float :=
  match v with
  | VBool b => Ok (Float64.round_Z (if b then 1 else 0))
  | VInt z =>
      match Float64.round_Z z with
      | S754_infinity _ => Raise OverflowError
      | x => Ok x
      end
  | VFloat x => Ok x
  | VStr s =>
      match str_float py s with
      | Some x => Ok x
      | None => Raise ValueError
      end
  | VNone | VList _ | VDict _ => Raise TypeError
  end.

(** ** Configuration, counts and metrics *)

Record Config := {
  numeric_tolerance : float;
  fuzzy_strings : bool;
  list_order_matters : bool
}.

(** The dict of counts that a comparison returns.  The keys [tp], [fp]
    and [fn] are always there; [compare_boolean] alone adds [tn]. *)
Record Counts := {
  tp : Z;
  fp : Z;
  fn : Z;
  tn : option Z
}.

#[global] Instance Counts_eq_dec : EqDecision Counts.
Proof. solve_decision. Defined.

Record Metrics := {
  precision : float;
  recall : float;
  f1 : float;
  m_tp : Z;
  m_fp : Z;
  m_fn : Z
}.

(** [{'tp': 1 if match else 0, 'fp': 0 if match else 1,
      'fn': 0 if match else 1}] *)
Definition counts_of_match (matched : bool) : Counts :=
  {| tp := if matched then 1 else 0;
     fp := if matched then 0 else 1;
     fn := if matched then 0 else 1;
     tn := None |}.

(** ** The value comparator *)

Section Comparator.

Variable py : Builtins.

(** [normalize_string(s, fuzzy)] *)
Definition normalize_string (s : value) (fuzzy : bool) : string :=
  match s with
  | VStr s =>
      if fuzzy then Str.join " " (str_split py (str_lower py s)) else s
  | _ => str_of py s
  end.

(** [compare_boolean(automated, truth)] *)
Definition compare_boolean (automated truth : value) : Counts :=
  if py_eq automated truth
  then {| tp := 1; fp := 0; fn := 0; tn := Some 0 |}
  else if truthy automated && negb (truthy truth)
  then {| tp := 0; fp := 1; fn := 0; tn := Some 0 |}
  else if negb (truthy automated) && truthy truth
  then {| tp := 0; fp := 0; fn := 1; tn := Some 0 |}
  else {| tp := 0; fp := 0; fn := 0; tn := Some 1 |}.

(** [float(v) if v is not None else None] *)
Definition float_or_none (v : value) : result (option float) :=
  match v with
  | VNone => Ok None
  | _ => Some <$> py_float py v
  end.

(** The test of [compare_numeric] on two floats. *)
Definition within_tolerance (a t tolerance : float) : bool :=
  if Float64.ltb Float64.zero tolerance
  then Float64.leb (Float64.abs (Float64.sub a t)) tolerance
  else Float64.eqb a t.

(** [compare_numeric(automated, truth, tolerance)].  A [ValueError] or
    a [TypeError] of the conversions is caught; an [OverflowError] is
    not. *)
Definition compare_numeric (automated truth : value) (tolerance : float)
  : result bool :=
  let body : result bool :=
    a ← float_or_none automated;
    t ← float_or_none truth;
    match a, t with
    | None, None => Ok true
    | None, Some _ | Some _, None => Ok false
    | Some a, Some t => Ok (within_tolerance a t tolerance)
    end in
  match body with
  | Raise ValueError | Raise TypeError => Ok (py_eq automated truth)
  | r => r
  end.

(** [compare_string(automated, truth, fuzzy)] *)
Definition compare_string (automated truth : value) (fuzzy : bool) : bool :=
  match automated, truth with
  | VNone, VNone => true
  | VNone, _ | _, VNone => false
  | _, _ =>
      bool_decide
        (normalize_string automated fuzzy = normalize_string truth fuzzy)
  end.

(** [v] if it is a list, the empty list for [None], else [[v]]. *)
Definition as_list (v : value) : list value :=
  match v with
  | VNone => []
  | VList l => l
  | _ => [v]
  end.

(** [compare_list(automated, truth, order_matters, fuzzy)] *)
Definition compare_list (automated truth : value)
    (order_matters fuzzy : bool) : result Counts :=
  let automated := as_list automated in
  let truth := as_list truth in
  if order_matters
  then
    Ok {| tp := len (filter (fun p => compare_string p.1 p.2 fuzzy = true)
                       (zip automated truth));
          fp := Z.max 0 (len automated - len truth);
          fn := Z.max 0 (len truth - len automated);
          tn := None |}
  else
    auto_set ←
      (if fuzzy
       then py_set ((fun x => VStr (normalize_string x fuzzy)) <$> automated)
       else py_set automated);
    truth_set ←
      (if fuzzy
       then py_set ((fun x => VStr (normalize_string x fuzzy)) <$> truth)
       else py_set truth);
    Ok {| tp := len (set_inter auto_set truth_set);
          fp := len (set_diff auto_set truth_set);
          fn := len (set_diff truth_set auto_set);
          tn := None |}.

(** [a + b] on the keys [tp], [fp] and [fn], as the loops that sum
    counts do: the running total has these three keys only, and a key
    [tn] of what is added is not read. *)
Definition add_counts (a b : Counts) : Counts :=
  {| tp := tp a + tp b; fp := fp a + fp b; fn := fn a + fn b; tn := None |}.

Definition zero_counts : Counts := {| tp := 0; fp := 0; fn := 0; tn := None |}.

(** [set(a.keys()) | set(t.keys())], in some order of iteration. *)
Definition union_keys {A B} (a : list (string * A)) (t : list (string * B))
  : list string :=
  remove_dups (keys a ++ keys t).

(** The loop of [compare_nested] over [fields], where
    [cmp field auto_val tv] compares the value [auto_val] with what the
    truth holds at [field]: [tv] is [None] when the key is missing. *)
Fixpoint nested_loop {A}
    (cmp : string -> value -> option A -> result Counts)
    (automated : list (string * value)) (truth : list (string * A))
    (fields : list string) (total : Counts) : result Counts :=
  match fields with
  | [] => Ok total
  | field :: fields' =>
      field_counts ←
        cmp field (dict_get automated field) (assoc field truth);
      nested_loop cmp automated truth fields' (add_counts total field_counts)
  end.

(** The branch of [compare_field] for a truth that is [None]. *)
Definition compare_none (automated : value) : Counts :=
  if match automated with VNone => true | _ => false end
     || py_eq automated (VStr EmptyString)
     || py_eq automated (VList [])
  then {| tp := 1; fp := 0; fn := 0; tn := None |}
  else {| tp := 0; fp := 1; fn := 0; tn := None |}.

(** [compare_field(automated, truth, field_name, config)].  The call
    [compare_nested(automated or {}, truth, config)] is unfolded here, so
    that the recursion is on the structure of [truth];
    [compare_field_dict] below states it as the source has it.  The last
    branch of the source, the fallback to [automated == truth], is not
    reached by a JSON value and has no counterpart. *)
Fixpoint compare_field (automated truth : value) (field_name : string)
    (config : Config) {struct truth} : result Counts :=
  match truth with
  | VBool _ => Ok (compare_boolean automated truth)
  | VInt _ | VFloat _ =>
      matched ← compare_numeric automated truth (numeric_tolerance config);
      Ok (counts_of_match matched)
  | VStr _ =>
      Ok (counts_of_match
            (compare_string automated truth (fuzzy_strings config)))
  | VList _ =>
      compare_list automated truth
        (list_order_matters config) (fuzzy_strings config)
  | VDict td =>
      match (if truthy automated then automated else VDict []) with
      | VDict ad =>
          nested_loop
            (fun field auto_val tv =>
               match tv with
               | Some cmp => cmp field auto_val
               | None => Ok (compare_none auto_val)
               end)
            ad
            (map (fun kv => (kv.1, fun field auto_val =>
                                     compare_field auto_val kv.2 field config))
               td)
            (union_keys ad td) zero_counts
      | _ => Raise AttributeError
      end
  | VNone => Ok (compare_none automated)
  end.

(** [compare_nested(automated, truth, config)] *)
Definition compare_nested (automated truth : value) (config : Config)
  : result Counts :=
  match automated, truth with
  | VDict ad, VDict td =>
      nested_loop
        (fun field auto_val tv =>
           compare_field auto_val (default VNone tv) field config)
        ad td (union_keys ad td) zero_counts
  | _, _ => Raise AttributeError
  end.

(** ** The record evaluator *)

(** [calculate_metrics(tp, fp, fn)] *)
Definition calculate_metrics (tp fp fn : Z) : Metrics :=
  let precision :=
    if 0 <? tp + fp then Float64.ratio tp (tp + fp) else Float64.zero in
  let recall :=
    if 0 <? tp + fn then Float64.ratio tp (tp + fn) else Float64.zero in
  let f1 :=
    if Float64.ltb Float64.zero (Float64.add precision recall)
    then Float64.div
           (Float64.mul (Float64.mul (Float64.round_Z 2) precision) recall)
           (Float64.add precision recall)
    else Float64.zero in
  {| precision := precision; recall := recall; f1 := f1;
     m_tp := tp; m_fp := fp; m_fn := fn |}.

(** [calculate_metrics] called with the items of [counts] as keyword
    arguments: a key that is no parameter of the function is a
    [TypeError]. *)
Definition calculate_metrics_kw (counts : Counts) : result Metrics :=
  match tn counts with
  | Some _ => Raise TypeError
  | None => Ok (calculate_metrics (tp counts) (fp counts) (fn counts))
  end.

(** An entry of [field_metrics]: the metrics of a field, or for
    [records] the dict of [count_metrics] and [record_details]. *)
Inductive FieldEntry :=
  | Simple (metrics : Metrics)
  | Records (count_metrics : Metrics) (record_details : list (Z * Metrics)).

Inductive Evaluation :=
  | NotAnnotated
  | Evaluated (field_metrics : list (string * FieldEntry)) (overall : Metrics).

(** The loop over [enumerate(zip(auto_records, truth_records))]. *)
Fixpoint record_details_loop (pairs : list (value * value)) (i : Z)
    (config : Config) : result (list (Z * Metrics)) :=
  match pairs with
  | [] => Ok []
  | (auto_rec, truth_rec) :: pairs' =>
      rec_comparison ← compare_nested auto_rec truth_rec config;
      metrics ← calculate_metrics_kw rec_comparison;
      details ← record_details_loop pairs' (i + 1) config;
      Ok ((i, metrics) :: details)
  end.

(** The body of the loop of [evaluate_paper] for one field. *)
Definition evaluate_field (automated truth : list (string * value))
    (field : string) (config : Config) : result FieldEntry :=
  if bool_decide (field = "records"%string)
  then
    let auto_records := dict_get_default automated "records" (VList []) in
    let truth_records := dict_get_default truth "records" (VList []) in
    record_counts ← compare_list auto_records truth_records false false;
    auto_iter ← py_iter py auto_records;
    truth_iter ← py_iter py truth_records;
    record_details ← record_details_loop (zip auto_iter truth_iter) 0 config;
    count_metrics ← calculate_metrics_kw record_counts;
    Ok (Records count_metrics record_details)
  else
    counts ←
      compare_field (dict_get automated field) (dict_get truth field)
        field config;
    Simple <$> calculate_metrics_kw counts.

Fixpoint evaluate_loop (automated truth : list (string * value))
    (fields : list string) (config : Config)
    (field_metrics : list (string * FieldEntry))
  : result (list (string * FieldEntry)) :=
  match fields with
  | [] => Ok field_metrics
  | field :: fields' =>
      entry ← evaluate_field automated truth field config;
      evaluate_loop automated truth fields' config
        (field_metrics ++ [(field, entry)])
  end.

(** The metrics that count for a field: its own, or [count_metrics]. *)
Definition entry_metrics (entry : FieldEntry) : Metrics :=
  match entry with
  | Simple metrics => metrics
  | Records count_metrics _ => count_metrics
  end.

Definition sum_Z {A} (f : A -> Z) (l : list A) : Z :=
  foldr (fun x acc => f x + acc) 0 l.

(** [evaluate_paper(paper_id, automated, truth, config)] *)
Definition evaluate_paper (paper_id : string) (automated truth : value)
    (config : Config) : result Evaluation :=
  match truth with
  | VNone => Ok NotAnnotated
  | _ =>
      match automated, truth with
      | VDict ad, VDict td =>
          field_metrics ← evaluate_loop ad td (union_keys ad td) config [];
          let total_tp := sum_Z (fun e => m_tp (entry_metrics e.2)) field_metrics in
          let total_fp := sum_Z (fun e => m_fp (entry_metrics e.2)) field_metrics in
          let total_fn := sum_Z (fun e => m_fn (entry_metrics e.2)) field_metrics in
          Ok (Evaluated field_metrics
                (calculate_metrics total_tp total_fp total_fn))
      | _, _ => Raise AttributeError
      end
  end.

End Comparator.

(** ** The corpus aggregator *)

Record Aggregated := {
  overall : Metrics;
  by_field : list (string * Metrics);
  num_papers_evaluated : Z
}.

(** The [field_metrics] of the papers whose status is [evaluated]. *)
Definition evaluated_papers (paper_evaluations : list (string * Evaluation))
  : list (list (string * FieldEntry)) :=
  omap (fun p => match p.2 with
                 | Evaluated field_metrics _ => Some field_metrics
                 | NotAnnotated => None
                 end) paper_evaluations.

Definition counts_of_metrics (m : Metrics) : Counts :=
  {| tp := m_tp m; fp := m_fp m; fn := m_fn m; tn := None |}.

(** [field_aggregates[field][k] += metrics[k]] for the three keys; a
    field that is not there yet starts from zero, after the others. *)
Fixpoint accumulate (field : string) (metrics : Metrics)
    (field_aggregates : list (string * Counts)) : list (string * Counts) :=
  match field_aggregates with
  | [] => [(field, add_counts zero_counts (counts_of_metrics metrics))]
  | (k, counts) :: rest =>
      if bool_decide (k = field)
      then (k, add_counts counts (counts_of_metrics metrics)) :: rest
      else (k, counts) :: accumulate field metrics rest
  end.

(** The two loops of [aggregate_metrics], over the papers and over the
    fields of a paper. *)
Definition accumulate_paper (field_aggregates : list (string * Counts))
    (field_metrics : list (string * FieldEntry)) : list (string * Counts) :=
  foldl (fun agg e => accumulate e.1 (entry_metrics e.2) agg)
    field_aggregates field_metrics.

Definition accumulate_papers (papers : list (list (string * FieldEntry)))
  : list (string * Counts) :=
  foldl accumulate_paper [] papers.

(** [aggregate_metrics(paper_evaluations)] *)
Definition aggregate_metrics (paper_evaluations : list (string * Evaluation))
  : Aggregated :=
  let papers := evaluated_papers paper_evaluations in
  let field_aggregates := accumulate_papers papers in
  let field_metrics :=
    (fun e => (e.1, calculate_metrics (tp e.2) (fp e.2) (fn e.2)))
      <$> field_aggregates in
  let total_tp := sum_Z (fun e => tp e.2) field_aggregates in
  let total_fp := sum_Z (fun e => fp e.2) field_aggregates in
  let total_fn := sum_Z (fun e => fn e.2) field_aggregates in
  {| overall := calculate_metrics total_tp total_fp total_fn;
     by_field := field_metrics;
     num_papers_evaluated := len papers |}.

(** ** The common issues of the report *)

(** The literal [0.7]. *)
Definition threshold : float :=
  Eval vm_compute in Float64.of_decimal false 7 (-1).

(** [sorted(l, key=key)]: an insertion sort that compares keys with [<]
    only and keeps the order of items with equal keys. *)
Fixpoint insert_by {A} (key : A -> float) (x : A) (l : list A) : list A :=
  match l with
  | [] => [x]
  | y :: l' =>
      if Float64.ltb (key y) (key x)
      then y :: insert_by key x l'
      else x :: l
  end.

Fixpoint sorted_by {A} (key : A -> float) (l : list A) : list A :=
  match l with
  | [] => []
  | x :: l' => insert_by key x (sorted_by key l')
  end.

(** The fields that [generate_report] lists under "low recall" and under
    "low precision", in the order of their lines. *)
Definition low_recall (by_field : list (string * Metrics))
  : list (string * Metrics) :=
  sorted_by (fun e => recall e.2)
    (filter (fun e => Float64.ltb (recall e.2) threshold = true
                      /\ 0 < m_fn e.2)
       by_field).

Definition low_precision (by_field : list (string * Metrics))
  : list (string * Metrics) :=
  sorted_by (fun e => precision e.2)
    (filter (fun e => Float64.ltb (precision e.2) threshold = true
                      /\ 0 < m_fp e.2)
       by_field).

(** ** The driver *)

(** [v.get(k, dflt)]: only a dict has the method. *)
Definition value_get (v : value) (k : string) (dflt : value) : result value :=
  match v with
  | VDict d => Ok (dict_get_default d k dflt)
  | _ => Raise AttributeError
  end.

(** [len(v)] *)
Definition py_len (py : Builtins) (v : value) : result Z :=
  match v with
  | VStr s => Ok (len (str_chars py s))
  | VList l => Ok (len l)
  | VDict d => Ok (len d)
  | _ => Raise TypeError
  end.

(** [sum(1 for p in validation_papers.values()
         if p.get('ground_truth') is not None)] *)
Fixpoint count_annotated (papers : list (string * value)) : result Z :=
  match papers with
  | [] => Ok 0
  | (_, p) :: papers' =>
      truth ← value_get p "ground_truth" VNone;
      n ← count_annotated papers';
      Ok ((match truth with VNone => 0 | _ => 1 end) + n)
  end.

Section Driver.

Variable py : Builtins.

(** The loop of [main] over [validation_papers.items()]. *)
Fixpoint evaluate_all (papers : list (string * value)) (config : Config)
    (paper_evaluations : list (string * Evaluation))
  : result (list (string * Evaluation)) :=
  match papers with
  | [] => Ok paper_evaluations
  | (paper_id, paper_data) :: papers' =>
      automated ← value_get paper_data "automated_extraction" (VDict []);
      truth ← value_get paper_data "ground_truth" VNone;
      evaluation ← evaluate_paper py paper_id automated truth config;
      evaluate_all papers' config (paper_evaluations ++ [(paper_id, evaluation)])
  end.

(** What [main] writes to the output file. *)
Record Output := {
  summary : Aggregated;
  by_paper : list (string * Evaluation);
  used_config : Config
}.

(** How [main] ends when it does not raise: with [sys.exit(1)], or with
    the output written and the report generated. *)
Inductive Outcome :=
  | Exited (status : Z)
  | Finished (output : Output).

(** [main()], from the loaded annotations and the configuration of the
    command line to the outcome; reading and writing files and printing
    are left out. *)
Definition main (annotations : value) (config : Config) : result Outcome :=
  validation_papers ← value_get annotations "validation_papers" (VDict []);
  _ ← py_len py validation_papers;
  match validation_papers with
  | VDict papers =>
      annotated ← count_annotated papers;
      if annotated =? 0
      then Ok (Exited 1)
      else
        paper_evaluations ← evaluate_all papers config [];
        Ok (Finished {| summary := aggregate_metrics paper_evaluations;
                        by_paper := paper_evaluations;
                        used_config := config |})
  | _ => Raise AttributeError
  end.

End Driver.

(** ** The annotation template (07_prepare_validation_set.py)

    The file of annotations that [main] loads is written by the script
    that prepares the validation set. *)

Module Prepare.

(** What [create_annotation_template] can raise: the [KeyError] of
    [results[paper_id]], or an exception of the comparator's kind. *)
Inductive error :=
  | KeyError (key : string)
  | Other (e : exn).

(** [d[k] = v]: a key that is present keeps its place. *)
Fixpoint dict_set (d : list (string * value)) (k : string) (v : value)
  : list (string * value) :=
  match d with
  | [] => [(k, v)]
  | (k', v') :: d' =>
      if bool_decide (k' = k) then (k, v) :: d'
      else (k', v') :: dict_set d' k v
  end.

(** [results[paper_id]] *)
Definition getitem (results : value) (paper_id : string) : error + value :=
  match results with
  | VDict d =>
      match assoc paper_id d with
      | Some v => inr v
      | None => inl (KeyError paper_id)
      end
  | _ => inl (Other TypeError)
  end.

(** The entry of one paper in the template. *)
Definition paper_entry (result : value) : error + value :=
  match result with
  | VDict r =>
      inr (VDict
             [("automated_extraction"%string,
               dict_get_default r "extracted_data" (VDict []));
              ("ground_truth"%string, VNone);
              ("notes"%string, VStr EmptyString);
              ("annotator"%string, VStr EmptyString);
              ("annotation_date"%string, VStr EmptyString);
              ("_pdf_path"%string, VNone);
              ("_extraction_metadata"%string,
               VDict
                 [("extraction_status"%string, dict_get r "status");
                  ("validation_status"%string,
                   dict_get r "validation_status");
                  ("has_analysis"%string,
                   VBool (truthy (dict_get r "analysis")))])])
  | _ => inl (Other AttributeError)
  end.

(** The loop over [sampled_ids]. *)
Fixpoint fill (sampled_ids : list string) (results : value)
    (papers : list (string * value)) : error + list (string * value) :=
  match sampled_ids with
  | [] => inr papers
  | paper_id :: sampled_ids' =>
      match getitem results paper_id with
      | inl e => inl e
      | inr result =>
          match paper_entry result with
          | inl e => inl e
          | inr entry =>
              fill sampled_ids' results (dict_set papers paper_id entry)
          end
      end
  end.

Definition instructions (schema : list (string * value)) : value :=
  VDict
    [("overview"%string,
      VStr "This is a validation annotation file. For each paper, review the PDF and fill in the ground_truth field with the correct extraction.");
     ("steps"%string,
      VList
        [VStr "1. Read the PDF for each paper_id";
         VStr "2. Extract data according to the schema, filling the 'ground_truth' field";
         VStr "3. The 'ground_truth' should have the same structure as 'automated_extraction'";
         VStr "4. Add your name in 'annotator' and date in 'annotation_date'";
         VStr "5. Use 'notes' field for any comments or ambiguities";
         VStr "6. Once complete, use 08_calculate_validation_metrics.py to compare"]);
     ("schema_reference"%string,
      dict_get_default schema "output_schema" (VDict []));
     ("tips"%string,
      VList
        [VStr "Be thorough: extract ALL relevant information, even if automated extraction missed it";
         VStr "Be precise: use exact values as they appear in the paper";
         VStr "Be consistent: follow the same schema structure";
         VStr "Mark ambiguous cases in notes field"])].

(** [create_annotation_template(sampled_ids, results, schema)] *)
Definition create_annotation_template (sampled_ids : list string)
    (results schema : value) : error + value :=
  match schema with
  | VDict schema =>
      match fill sampled_ids results [] with
      | inl e => inl e
      | inr papers =>
          inr (VDict [("_instructions"%string, instructions schema);
                      ("validation_papers"%string, VDict papers)])
      end
  | _ => inl (Other AttributeError)
  end.

End Prepare.

(** ** Vocabulary of the properties *)

(** The builtins of the closed examples: none of them converts a value
    to a string or holds a text that is not ASCII, so what these do is
    never read. *)
Definition ascii_builtins : Builtins :=
  {| str_of := fun _ => EmptyString;
     unicode_lower := fun s => s;
     unicode_split := fun s => [s];
     unicode_float := fun _ => None;
     unicode_chars := fun s => [s] |}.

(** The configuration of a run without options: tolerance [0.0], exact
    strings, lists as sets. *)
Definition default_config : Config :=
  {| numeric_tolerance := Float64.zero;
     fuzzy_strings := false;
     list_order_matters := false |}.

(** What the papers contribute to a count: the sum, over the papers and
    over their fields, of that count in the field's metrics. *)
Definition paper_total (pm : Metrics -> Z)
    (field_metrics : list (string * FieldEntry)) : Z :=
  sum_Z (fun e => pm (entry_metrics e.2)) field_metrics.

Definition papers_total (pm : Metrics -> Z)
    (papers : list (list (string * FieldEntry))) : Z :=
  sum_Z (paper_total pm) papers.

(** An [int] or a [float]; a [bool] is dispatched before. *)
Definition is_number (v : value) : bool :=
  match v with
  | VInt _ | VFloat _ => true
  | _ => false
  end.

(** The float that a decimal literal denotes. *)
Definition float_lit (s : string) : float :=
  default S754_nan (FloatParse.parse s).

Definition matched_counts : Counts := {| tp := 1; fp := 0; fn := 0; tn := None |}.

Definition missed_counts : Counts := {| tp := 0; fp := 1; fn := 1; tn := None |}.

(** [set_add_all] on strings. *)
Fixpoint add_strings (l acc : list string) : list string :=
  match l with
  | [] => acc
  | x :: l' => add_strings l' (if bool_decide (x ∈ acc) then acc else acc ++ [x])
  end.

(** The counts of two sets of strings. *)
Definition set_counts (SA ST : gset string) : Counts :=
  {| tp := Z.of_nat (size (SA ∩ ST));
     fp := Z.of_nat (size (SA ∖ ST));
     fn := Z.of_nat (size (ST ∖ SA));
     tn := None |}.

(** String normalization as the specification words it: with [fuzzy],
    lower-casing and collapsing white space, which leaves the words of the
    text in lower case with one space between them; without, the text as
    it is. *)
Definition normal_form (py : Builtins) (fuzzy : bool) (s : string) : string :=
  if fuzzy then Str.join " " (str_split py (str_lower py s)) else s.

(** The set of the normal forms of a list of strings. *)
Definition string_set (py : Builtins) (fuzzy : bool)
    (l : list string) : gset string :=
  list_to_set (normal_form py fuzzy <$> l).


(** What [==] compares on values that can be hashed: nothing for
    [None], the exact value of a number, the text of a string.  A NaN has
    no key, it equals nothing; in a set it is found all the same, being
    the one NaN object. *)
Inductive hkey :=
  | HNone
  | HNum (e : Float64.exact)
  | HStr (s : string).

Definition hash_key (v : value) : option hkey :=
  match v with
  | VNone => Some HNone
  | VStr s => Some (HStr s)
  | VBool _ | VInt _ | VFloat _ =>
      match numeric v with
      | Some (Some e) => Some (HNum e)
      | _ => None
      end
  | VList _ | VDict _ => None
  end.

(** No element equals a later one. *)
Fixpoint pairwise_distinct (l : list value) : Prop :=
  match l with
  | [] => True
  | x :: l' => py_in x l' = false /\ pairwise_distinct l'
  end.

(** A rank that orders the floats that are no NaN as [<] and [<=] do:
    by class first (negative infinity, negative, zero, positive, positive
    infinity), then by exponent and mantissa. *)
Definition rank (x : float) : Z * Z * Z :=
  match x with
  | S754_nan | S754_zero _ => (0, 0, 0)
  | S754_infinity s => (if s then -2 else 2, 0, 0)
  | S754_finite s m e => if s then (-1, - e, Zneg m) else (1, e, Zpos m)
  end.

Definition lex_le (a b : Z * Z * Z) : Prop :=
  a.1.1 < b.1.1
  \/ (a.1.1 = b.1.1 /\ (a.1.2 < b.1.2 \/ (a.1.2 = b.1.2 /\ a.2 <= b.2))).

Definition lex_lt (a b : Z * Z * Z) : Prop :=
  a.1.1 < b.1.1
  \/ (a.1.1 = b.1.1 /\ (a.1.2 < b.1.2 \/ (a.1.2 = b.1.2 /\ a.2 < b.2))).

(** A value that compares with itself without a mismatch: its integers
    are in the range of the floats, its floats are finite, and the elements
    of its lists can be told apart when the lists are compared as sets of
    values. *)
Fixpoint well_behaved (config : Config) (v : value) : Prop :=
  match v with
  | VInt z =>
      match Float64.round_Z z with S754_infinity _ => False | _ => True end
  | VFloat x =>
      match x with S754_zero _ | S754_finite _ _ _ => True | _ => False end
  | VList l =>
      list_order_matters config = true \/ fuzzy_strings config = true
      \/ Forall (fun x => is_Some (hash_key x)) l
  | VDict d =>
      (fix all (d : list (string * value)) : Prop :=
         match d with
         | [] => True
         | kv :: d' => well_behaved config kv.2 /\ all d'
         end) d
  | VNone | VBool _ | VStr _ => True
  end.

(** What the evaluated papers hold for one field and one count. *)
Definition field_total (pm : Metrics -> Z) (field : string)
    (papers : list (list (string * FieldEntry))) : Z :=
  sum_Z (fun paper =>
           sum_Z (fun e => if bool_decide (e.1 = field)
                           then pm (entry_metrics e.2) else 0) paper)
    papers.

(** How a paper of the annotations and its entry in [by_paper] relate:
    the same identifier, and the evaluation of what the paper holds under
    [automated_extraction] and [ground_truth]. *)
Definition evaluated_from (py : Builtins) (config : Config)
    (p : string * value) (e : string * Evaluation) : Prop :=
  p.1 = e.1
  /\ exists pd, p.2 = VDict pd
       /\ evaluate_paper py p.1
            (dict_get_default pd "automated_extraction" (VDict []))
            (dict_get pd "ground_truth") config
          = Ok e.2.

(** An entry of the template as the preparation leaves it for a result
    [r]: the extracted data of [r] as automated extraction, and no ground
    truth. *)
Definition fresh_entry (r : list (string * value)) (entry : value) : Prop :=
  exists pd,
    entry = VDict pd
    /\ dict_get_default pd "automated_extraction" (VDict [])
       = dict_get_default r "extracted_data" (VDict [])
    /\ dict_get pd "ground_truth" = VNone.

(** Results of an extraction with one paper, and the template of this
    paper sampled twice. *)
Definition example_results : value :=
  VDict [("p1"%string,
          VDict [("status"%string, VStr "success");
                 ("extracted_data"%string,
                  VDict [("species"%string, VStr "Apis")])])].

Definition example_template : value :=
  Eval vm_compute in
    match Prepare.create_annotation_template ["p1"%string; "p1"%string]
            example_results (VDict [])
    with
    | inr template => template
    | inl _ => VNone
    end.

(** Every character of a string passes a test. *)
Fixpoint all_chars (P : ascii -> bool) (s : string) : bool :=
  match s with
  | EmptyString => true
  | String c s' => P c && all_chars P s'
  end.

(** A word: not empty, and without white space. *)
Definition is_word (w : string) : Prop :=
  w <> EmptyString /\ all_chars (fun c => negb (Str.is_space c)) w = true.

(** A character that [lower] leaves as it is. *)
Definition is_lowered (c : ascii) : bool :=
  bool_decide (Str.lower_char c = c).

(** * Properties *)

(** ** Counts *)

Lemma add_counts_assoc (a b c : Counts) :
  add_counts (add_counts a b) c = add_counts a (add_counts b c).
Proof. unfold add_counts; simpl; f_equal; lia. Qed.

Lemma add_counts_comm (a b : Counts) : add_counts a b = add_counts b a.
Proof. unfold add_counts; f_equal; lia. Qed.

(** ** The comparator as the source states it *)

Lemma assoc_map {A B} (g : A -> B) (field : string) (td : list (string * A)) :
  assoc field (map (fun kv => (kv.1, g kv.2)) td) = g <$> assoc field td.
Proof.
  induction td as [|[k x] td IH]; [done|].
  simpl. case_bool_decide; [done | apply IH].
Qed.

(** The loop of [compare_nested] reads the truth only through [assoc], so
    mapping the truth's values first and looking up afterwards is the
    same as looking up first. *)
Lemma nested_loop_map {A B} (g : A -> B)
    (cmp : string -> value -> option B -> result Counts)
    (cmp' : string -> value -> option A -> result Counts)
    (ad : list (string * value)) (td : list (string * A)) :
  (forall field v o, cmp field v (g <$> o) = cmp' field v o) ->
  forall fields total,
    nested_loop cmp ad (map (fun kv => (kv.1, g kv.2)) td) fields total
    = nested_loop cmp' ad td fields total.
Proof.
  intros Hcmp fields.
  induction fields as [|field fields IH]; intros total; [done|].
  simpl. rewrite assoc_map, Hcmp.
  destruct (cmp' field (dict_get ad field) (assoc field td)); simpl;
    [apply IH | done].
Qed.

(** The dict branch of [compare_field] is the call
    [compare_nested(automated or {}, truth, config)] of the source. *)
Lemma compare_field_dict (py : Builtins) (automated : value)
    (td : list (string * value)) (field_name : string) (config : Config) :
  compare_field py automated (VDict td) field_name config
  = compare_nested py (if truthy automated then automated else VDict [])
      (VDict td) config.
Proof.
  simpl. destruct (if truthy automated then automated else VDict []);
    try reflexivity.
  unfold compare_nested.
  apply (nested_loop_map
           (fun x field auto_val => compare_field py auto_val x field config)).
  intros field v [x|]; reflexivity.
Qed.

(** ** Type mismatches (claim C1) *)

(** C1.  The claim says that [compare] returns counts for every pair of
    values and never raises.  The code does raise: when the truth is a
    mapping and the automated value is a non-empty string or a non-empty
    list, [compare_field] passes it to [compare_nested], whose call of
    [automated.keys()] is an [AttributeError]. *)
Theorem C1_mapping_truth_raises (py : Builtins)
    (td : list (string * value)) (field_name : string) (config : Config) :
  (forall c s,
      compare_field py (VStr (String c s)) (VDict td) field_name config
      = Raise AttributeError)
  /\ (forall x l,
      compare_field py (VList (x :: l)) (VDict td) field_name config
      = Raise AttributeError).
Proof. split; intros; reflexivity. Qed.

(** The sibling branches do turn a mismatch into counts: a string
    against a number, a number against a list. *)
Lemma mismatch_numeric_is_counted (py : Builtins) :
  compare_field py (VStr "abc") (VInt 5) "f" default_config
  = Ok {| tp := 0; fp := 1; fn := 1; tn := None |}
  /\ compare_field py (VInt 5) (VList [VInt 5; VInt 6]) "f" default_config
     = Ok {| tp := 1; fp := 0; fn := 1; tn := None |}.
Proof. split; vm_compute; reflexivity. Qed.

(** Two more ways to raise: a list of lists compared as a set cannot be
    hashed, and the [OverflowError] of an integer beyond the range of the
    floats is not caught. *)
Lemma unhashable_elements_raise (py : Builtins) :
  compare_field py (VList [VList [VInt 1]]) (VList [VList [VInt 1]]) "f"
    default_config
  = Raise TypeError.
Proof. reflexivity. Qed.

Lemma huge_integer_raises (py : Builtins) :
  compare_field py (VInt (2 ^ 1024)) (VInt 5) "f" default_config
  = Raise OverflowError.
Proof. vm_compute; reflexivity. Qed.

(** ** The [records] field (claim C2) *)

(** C2.  The claim says that [evaluate] gives the [records] field a
    count-level metric.  The code raises instead as soon as one of the two
    lists holds a sub-record: [compare_list] builds [set(automated)] and
    [set(truth)], and a dict cannot be hashed. *)
Theorem C2_records_of_mappings_raise (py : Builtins)
    (paper_id : string) (d : list (string * value))
    (rest records : list value) (config : Config) :
  evaluate_paper py paper_id
    (VDict [("records"%string, VList (VDict d :: rest))])
    (VDict [("records"%string, VList records)]) config
  = Raise TypeError
  /\ evaluate_paper py paper_id
       (VDict [("records"%string, VList [])])
       (VDict [("records"%string, VList (VDict d :: rest))]) config
     = Raise TypeError.
Proof. split; reflexivity. Qed.

(** Only without any sub-record is the field evaluated. *)
Lemma records_empty_is_evaluated (py : Builtins) :
  evaluate_paper py "p"
    (VDict [("records"%string, VList [])])
    (VDict [("records"%string, VList [])]) default_config
  = Ok (Evaluated
          [("records"%string, Records (calculate_metrics 0 0 0) [])]
          (calculate_metrics 0 0 0)).
Proof. vm_compute; reflexivity. Qed.

(** ** Booleans (claims C3 and C4) *)

(** C3.  The table of [compare] on two booleans, as the code has it.  The
    first three rows are those of the claim.  The fourth is not: two
    [False] are equal, so the first branch of [compare_boolean] counts them
    as a true positive, and for booleans the branch that records a true
    negative is never taken. *)
Theorem C3_boolean_table (py : Builtins) (field_name : string)
    (config : Config) :
  compare_field py (VBool true) (VBool true) field_name config
  = Ok {| tp := 1; fp := 0; fn := 0; tn := Some 0 |}
  /\ compare_field py (VBool true) (VBool false) field_name config
     = Ok {| tp := 0; fp := 1; fn := 0; tn := Some 0 |}
  /\ compare_field py (VBool false) (VBool true) field_name config
     = Ok {| tp := 0; fp := 0; fn := 1; tn := Some 0 |}
  /\ compare_field py (VBool false) (VBool false) field_name config
     = Ok {| tp := 1; fp := 0; fn := 0; tn := Some 0 |}
  /\ (forall a t, exists c,
        compare_field py (VBool a) (VBool t) field_name config = Ok c
        /\ tn c = Some 0).
Proof.
  repeat split; try reflexivity.
  intros [] []; eexists; split; reflexivity.
Qed.

(** The branch for a true negative is taken for values that differ and
    are both truthy or both falsy. *)
Lemma compare_boolean_true_negative :
  compare_boolean (VStr "yes") (VBool true)
  = {| tp := 0; fp := 0; fn := 0; tn := Some 1 |}
  /\ compare_boolean VNone (VBool false)
     = {| tp := 0; fp := 0; fn := 0; tn := Some 1 |}.
Proof. split; reflexivity. Qed.

Lemma compare_boolean_has_tn (automated truth : value) :
  exists n, tn (compare_boolean automated truth) = Some n.
Proof.
  unfold compare_boolean.
  repeat match goal with |- context [if ?b then _ else _] => destruct b end;
    eexists; reflexivity.
Qed.

Lemma evaluate_field_other (py : Builtins)
    (automated truth : list (string * value)) (field : string)
    (config : Config) :
  field <> "records"%string ->
  evaluate_field py automated truth field config
  = (counts ←
       compare_field py (dict_get automated field) (dict_get truth field)
         field config;
     Simple <$> calculate_metrics_kw counts).
Proof.
  intros Hne. unfold evaluate_field. by rewrite bool_decide_false.
Qed.

(** C4.  The claim says that [evaluate] returns an evaluation for every
    item with a ground truth, also when a top-level field is a boolean.
    The code raises there: the counts of [compare_boolean] have the key
    [tn], which [calculate_metrics] does not accept as a keyword. *)
Theorem C4_boolean_field_raises (py : Builtins)
    (paper_id : string) (automated : value) (b : bool) (config : Config) :
  evaluate_paper py paper_id
    (VDict [("flag"%string, automated)])
    (VDict [("flag"%string, VBool b)]) config
  = Raise TypeError.
Proof.
  unfold evaluate_paper.
  replace (union_keys _ _) with ["flag"%string] by (vm_compute; reflexivity).
  unfold evaluate_loop.
  rewrite evaluate_field_other by discriminate.
  replace (dict_get [("flag"%string, automated)] "flag") with automated
    by reflexivity.
  replace (dict_get [("flag"%string, VBool b)] "flag") with (VBool b)
    by reflexivity.
  cbn -[compare_boolean calculate_metrics].
  unfold calculate_metrics_kw.
  destruct (compare_boolean_has_tn automated (VBool b)) as [n ->].
  reflexivity.
Qed.

(** Below the top level the same counts are accepted: [compare_nested]
    reads the keys [tp], [fp] and [fn] only. *)
Lemma nested_boolean_is_counted (py : Builtins) :
  evaluate_paper py "p"
    (VDict [("info"%string, VDict [("flag"%string, VBool true)])])
    (VDict [("info"%string, VDict [("flag"%string, VBool true)])])
    default_config
  = Ok (Evaluated
          [("info"%string, Simple (calculate_metrics 1 0 0))]
          (calculate_metrics 1 0 0)).
Proof. vm_compute; reflexivity. Qed.

(** ** Aggregation (claim C5) *)

Lemma sum_Z_app {A} (f : A -> Z) (l k : list A) :
  sum_Z f (l ++ k) = sum_Z f l + sum_Z f k.
Proof. induction l as [|x l IH]; simpl; [done | rewrite IH; lia]. Qed.

Section Accumulate.

(** One of the three counts, read from the aggregate and from the metrics
    that are added to it. *)
Variable pc : Counts -> Z.
Variable pm : Metrics -> Z.
Hypothesis pc_add : forall c m,
  pc (add_counts c (counts_of_metrics m)) = pc c + pm m.
Hypothesis pc_zero : pc zero_counts = 0.

Let total (agg : list (string * Counts)) : Z := sum_Z (fun e => pc e.2) agg.

Lemma total_accumulate field m agg :
  total (accumulate field m agg) = total agg + pm m.
Proof using pc_add pc_zero.
  unfold total. induction agg as [|[k c] agg IH]; simpl.
  - rewrite pc_add, pc_zero. lia.
  - case_bool_decide; simpl; [rewrite pc_add | rewrite IH]; lia.
Qed.

Lemma total_accumulate_paper field_metrics agg :
  total (accumulate_paper agg field_metrics)
  = total agg + paper_total pm field_metrics.
Proof using pc_add pc_zero.
  unfold accumulate_paper, paper_total.
  revert agg. induction field_metrics as [|e fm IH]; intros agg; simpl.
  - lia.
  - rewrite IH, total_accumulate. lia.
Qed.

Lemma total_foldl_papers papers agg :
  total (foldl accumulate_paper agg papers)
  = total agg + papers_total pm papers.
Proof using pc_add pc_zero.
  unfold papers_total.
  revert agg. induction papers as [|p papers IH]; intros agg; simpl.
  - lia.
  - rewrite IH, total_accumulate_paper. lia.
Qed.

Lemma total_accumulate_papers papers :
  total (accumulate_papers papers) = papers_total pm papers.
Proof using pc_add pc_zero.
  unfold accumulate_papers. rewrite total_foldl_papers. reflexivity.
Qed.

End Accumulate.

Lemma evaluated_papers_app (A B : list (string * Evaluation)) :
  evaluated_papers (A ++ B) = evaluated_papers A ++ evaluated_papers B.
Proof. unfold evaluated_papers. apply omap_app. Qed.

Lemma papers_total_app pm (P Q : list (list (string * FieldEntry))) :
  papers_total pm (P ++ Q) = papers_total pm P + papers_total pm Q.
Proof. apply sum_Z_app. Qed.

(** The counts of the overall metrics are the contributions of the
    evaluated papers. *)
Lemma aggregate_overall_counts (evals : list (string * Evaluation)) :
  m_tp (overall (aggregate_metrics evals))
  = papers_total m_tp (evaluated_papers evals)
  /\ m_fp (overall (aggregate_metrics evals))
     = papers_total m_fp (evaluated_papers evals)
  /\ m_fn (overall (aggregate_metrics evals))
     = papers_total m_fn (evaluated_papers evals).
Proof.
  unfold aggregate_metrics; simpl.
  repeat split.
  - apply (total_accumulate_papers tp m_tp); done.
  - apply (total_accumulate_papers fp m_fp); done.
  - apply (total_accumulate_papers fn m_fn); done.
Qed.

(** C5.  Aggregation is additive: the counts [tp], [fp] and [fn] of the
    overall metrics of two collections of evaluations taken together (the
    dict of the one followed by the dict of the other) are the sums of
    their counts taken apart, and so is the number of evaluated papers;
    the merge of counts is associative and commutative; and the empty
    collection aggregates to all-zero metrics over zero papers. *)
Theorem C5_aggregate_additive :
  (forall A B : list (string * Evaluation),
      m_tp (overall (aggregate_metrics (A ++ B)))
      = m_tp (overall (aggregate_metrics A))
        + m_tp (overall (aggregate_metrics B))
      /\ m_fp (overall (aggregate_metrics (A ++ B)))
         = m_fp (overall (aggregate_metrics A))
           + m_fp (overall (aggregate_metrics B))
      /\ m_fn (overall (aggregate_metrics (A ++ B)))
         = m_fn (overall (aggregate_metrics A))
           + m_fn (overall (aggregate_metrics B))
      /\ num_papers_evaluated (aggregate_metrics (A ++ B))
         = num_papers_evaluated (aggregate_metrics A)
           + num_papers_evaluated (aggregate_metrics B))
  /\ (forall a b c : Counts,
        add_counts (add_counts a b) c = add_counts a (add_counts b c))
  /\ (forall a b : Counts, add_counts a b = add_counts b a)
  /\ aggregate_metrics []
     = {| overall := {| precision := Float64.zero; recall := Float64.zero;
                        f1 := Float64.zero;
                        m_tp := 0; m_fp := 0; m_fn := 0 |};
          by_field := [];
          num_papers_evaluated := 0 |}.
Proof.
  split; [|split; [|split]].
  - intros A B.
    destruct (aggregate_overall_counts (A ++ B)) as (-> & -> & ->).
    destruct (aggregate_overall_counts A) as (-> & -> & ->).
    destruct (aggregate_overall_counts B) as (-> & -> & ->).
    rewrite evaluated_papers_app, !papers_total_app.
    repeat split.
    unfold aggregate_metrics, len; simpl.
    rewrite evaluated_papers_app, length_app. lia.
  - apply add_counts_assoc.
  - apply add_counts_comm.
  - reflexivity.
Qed.

(** ** Numbers (claims C6 and C9) *)

Lemma counts_of_match_cases (matched : bool) :
  counts_of_match matched = if matched then matched_counts else missed_counts.
Proof. by destruct matched. Qed.

Lemma py_eq_str_number (s : string) (w : value) :
  is_number w = true -> py_eq (VStr s) w = false.
Proof. by destruct w. Qed.

(** [compare_numeric] on two values whose conversions succeed. *)
Lemma compare_numeric_floats (py : Builtins) (automated truth : value)
    (a t tolerance : float) :
  automated <> VNone -> truth <> VNone ->
  py_float py automated = Ok a -> py_float py truth = Ok t ->
  compare_numeric py automated truth tolerance
  = Ok (within_tolerance a t tolerance).
Proof.
  intros Ha Ht Hfa Hft. unfold compare_numeric, float_or_none.
  destruct automated; try done; destruct truth; try done;
    rewrite Hfa, Hft; reflexivity.
Qed.

(** The claim C6 read with exact arithmetic fails on large integers: two
    different ones can round to the same float. *)
Lemma C6_counterexample :
  ~ (compare_field ascii_builtins (VInt 9007199254740993) (VInt 9007199254740992)
       "f" default_config = Ok matched_counts
     <-> Z.abs (9007199254740993 - 9007199254740992) <= 0).
Proof.
  intros [H _].
  assert (Z.abs (9007199254740993 - 9007199254740992) <= 0); [|lia].
  apply H. vm_compute. reflexivity.
Qed.

(** C6, amended.  When automated and truth are numbers, both are
    converted to binary64 floats [a] and [t] (an integer is rounded to the
    nearest float), and if neither conversion overflows, [compare] returns
    [{tp:1, fp:0, fn:0}] when the test on the floats succeeds and
    [{tp:0, fp:1, fn:1}] otherwise.  The test is [abs(a - t) <= tolerance]
    in float arithmetic when the tolerance is positive and [a == t]
    otherwise.  With tolerance 0.5, 5.3 against 5.0 is a true positive and
    6.0 against 5.0 a false positive and a false negative. *)
Theorem C6_numeric_tolerance (py : Builtins) :
  (forall (automated truth : value) (a t : float) (field_name : string)
          (config : Config),
      is_number automated = true -> is_number truth = true ->
      py_float py automated = Ok a -> py_float py truth = Ok t ->
      compare_field py automated truth field_name config
      = Ok (if (if Float64.ltb Float64.zero (numeric_tolerance config)
                then Float64.leb (Float64.abs (Float64.sub a t))
                       (numeric_tolerance config)
                else Float64.eqb a t)
            then matched_counts else missed_counts))
  /\ (forall fuzzy order,
        let config := {| numeric_tolerance := float_lit "0.5";
                         fuzzy_strings := fuzzy;
                         list_order_matters := order |} in
        compare_field py (VFloat (float_lit "5.3")) (VFloat (float_lit "5.0"))
          "f" config = Ok matched_counts
        /\ compare_field py (VFloat (float_lit "6.0")) (VFloat (float_lit "5.0"))
             "f" config = Ok missed_counts).
Proof.
  split.
  - intros automated truth a t field_name config Ha Ht Hfa Hft.
    assert (Hc : compare_numeric py automated truth (numeric_tolerance config)
                 = Ok (within_tolerance a t (numeric_tolerance config))).
    { apply compare_numeric_floats; try done.
      - by destruct automated.
      - by destruct truth. }
    destruct truth; try discriminate; simpl; rewrite Hc; simpl;
      apply f_equal, counts_of_match_cases.
  - intros fuzzy order config. split; vm_compute; reflexivity.
Qed.

Lemma C6_numeric_tolerance_witness :
  compare_field ascii_builtins (VInt 3) (VFloat (float_lit "3.25")) "f"
    {| numeric_tolerance := float_lit "0.5"; fuzzy_strings := false;
       list_order_matters := false |}
  = Ok matched_counts.
Proof.
  exact (proj1 (C6_numeric_tolerance ascii_builtins)
           (VInt 3) (VFloat (float_lit "3.25"))
           (Float64.round_Z 3) (float_lit "3.25") "f"
           {| numeric_tolerance := float_lit "0.5"; fuzzy_strings := false;
              list_order_matters := false |}
           eq_refl eq_refl eq_refl eq_refl).
Defined.

(** The claim C9 read with exact arithmetic fails on large integers,
    as C6 does: the truth is rounded to a float before the test.  The
    string below is the number 9007199254740994, which is a float and
    within the tolerance 1 of the truth 9007199254740995; the truth
    rounds to the float 9007199254740996, the floats are 2 apart, and
    [compare] counts a false positive and a false negative. *)
Lemma C9_counterexample :
  let s := "9007199254740994"%string in
  let a := 9007199254740994 in
  let truth := 9007199254740995 in
  let config := {| numeric_tolerance := Float64.round_Z 1;
                   fuzzy_strings := false; list_order_matters := false |} in
  py_float ascii_builtins (VStr s) = Ok (Float64.round_Z a)
  /\ Float64.exact_of_float (Float64.round_Z a) = Some (Float64.exact_of_Z a)
  /\ Float64.exact_of_float (numeric_tolerance config)
     = Some (Float64.exact_of_Z 1)
  /\ ~ (Z.abs (a - truth) <= 1 ->
        compare_field ascii_builtins (VStr s) (VInt truth) "f" config
        = Ok matched_counts).
Proof.
  intros s a truth config. split_and!; try (vm_compute; reflexivity).
  intros H.
  assert (compare_field ascii_builtins (VStr s) (VInt truth) "f" config
          = Ok missed_counts) as Hmissed by (vm_compute; reflexivity).
  rewrite Hmissed in H.
  assert (Z.abs (a - truth) <= 1) as Hle by (unfold a, truth; lia).
  specialize (H Hle). discriminate H.
Qed.

(** When the truth is an integer beyond the range of the floats, its
    conversion raises an [OverflowError], which is not caught: no string
    that [float] accepts is compared with it. *)
Lemma numeric_string_huge_truth_raises (py : Builtins) (field_name : string)
    (config : Config) :
  compare_field py (VStr "5.0") (VInt (2 ^ 1024)) field_name config
  = Raise OverflowError.
Proof. vm_compute. reflexivity. Qed.

(** C9, amended.  When the truth is a number and automated is a string,
    the string is converted with [float] before the tolerance test.  If
    it converts to [a] and the truth converts to [t] without overflow, the
    result is that of the test on the floats [a] and [t]:
    [abs(a - t) <= tolerance] in float arithmetic when the tolerance is
    positive, [a == t] otherwise.  If [float] rejects the string,
    [compare] falls back to the equality of the string and the number,
    which fails, and returns [{tp:0, fp:1, fn:1}], whatever the truth.
    The string "5.0" against 5 with tolerance 0 is a true positive. *)
Theorem C9_numeric_string (py : Builtins) :
  (forall (s : string) (truth : value) (field_name : string) (config : Config),
      is_number truth = true ->
      (forall a t,
          py_float py (VStr s) = Ok a -> py_float py truth = Ok t ->
          compare_field py (VStr s) truth field_name config
          = Ok (if (if Float64.ltb Float64.zero (numeric_tolerance config)
                    then Float64.leb (Float64.abs (Float64.sub a t))
                           (numeric_tolerance config)
                    else Float64.eqb a t)
                then matched_counts else missed_counts))
      /\ (py_float py (VStr s) = Raise ValueError ->
          compare_field py (VStr s) truth field_name config
          = Ok missed_counts))
  /\ compare_field py (VStr "5.0") (VInt 5) "f" default_config
     = Ok matched_counts
  /\ compare_field py (VStr "abc") (VInt 5) "f" default_config
     = Ok missed_counts.
Proof.
  split; [|split; vm_compute; reflexivity].
  intros s truth field_name config Ht. split.
  - intros a t Hs Hft.
    assert (Hc : compare_numeric py (VStr s) truth (numeric_tolerance config)
                 = Ok (within_tolerance a t (numeric_tolerance config))).
    { apply compare_numeric_floats; try done. by destruct truth. }
    destruct truth; try discriminate; simpl; rewrite Hc; simpl;
      apply f_equal, counts_of_match_cases.
  - intros Hs.
    assert (Hc : compare_numeric py (VStr s) truth (numeric_tolerance config)
                 = Ok false).
    { unfold compare_numeric, float_or_none.
      rewrite Hs. cbn [fmap result_fmap mbind result_bind].
      by rewrite py_eq_str_number. }
    destruct truth; try discriminate; simpl; rewrite Hc; reflexivity.
Qed.

Lemma C9_numeric_string_witness :
  compare_field ascii_builtins (VStr " 2.5e0 ") (VFloat (float_lit "2.5")) "f"
    default_config = Ok matched_counts
  /\ compare_field ascii_builtins (VStr "two") (VInt 2) "f" default_config
     = Ok missed_counts.
Proof.
  split.
  - exact (proj1 (proj1 (C9_numeric_string ascii_builtins)
                    " 2.5e0 "%string (VFloat (float_lit "2.5")) "f"%string
                    default_config eq_refl)
             (float_lit "2.5") (float_lit "2.5") eq_refl eq_refl).
  - exact (proj2 (proj1 (C9_numeric_string ascii_builtins)
                    "two"%string (VInt 2) "f"%string default_config eq_refl)
             eq_refl).
Defined.

(** ** Lists of strings compared as sets (claim C7) *)

Lemma py_in_strs (x : string) (l : list string) :
  py_in (VStr x) (VStr <$> l) = bool_decide (x ∈ l).
Proof.
  induction l as [|y l IH]; [done|].
  change (py_in (VStr x) (VStr <$> y :: l))
    with (bool_decide (x = y) || py_in (VStr x) (VStr <$> l)).
  rewrite IH.
  rewrite (bool_decide_ext (x ∈ y :: l) (x = y ∨ x ∈ l))
    by apply elem_of_cons.
  by rewrite bool_decide_or.
Qed.

Lemma set_add_all_strs (l acc : list string) :
  set_add_all (VStr <$> l) (VStr <$> acc) = Ok (VStr <$> add_strings l acc).
Proof.
  revert acc. induction l as [|x l IH]; intros acc; [done|].
  cbn [fmap list_fmap set_add_all hashable add_strings].
  rewrite py_in_strs. case_bool_decide.
  - apply IH.
  - rewrite <- (IH (acc ++ [x])). by rewrite fmap_app.
Qed.

Lemma py_set_strs (l : list string) :
  py_set (VStr <$> l) = Ok (VStr <$> add_strings l []).
Proof. apply (set_add_all_strs l []). Qed.

Lemma add_strings_NoDup (l acc : list string) :
  NoDup acc -> NoDup (add_strings l acc).
Proof.
  revert acc. induction l as [|x l IH]; intros acc Hacc; [done|].
  simpl. apply IH. case_bool_decide; [done|].
  apply NoDup_app. split_and!; [done| |apply NoDup_singleton].
  intros y Hy ->%list_elem_of_singleton. done.
Qed.

Lemma elem_of_add_strings (x : string) (l acc : list string) :
  x ∈ add_strings l acc <-> x ∈ acc \/ x ∈ l.
Proof.
  revert acc. induction l as [|y l IH]; intros acc; simpl.
  - rewrite elem_of_nil. tauto.
  - rewrite IH, elem_of_cons. case_bool_decide as Hy.
    + split; [tauto|]. intros [?|[->|?]]; tauto.
    + rewrite elem_of_app, list_elem_of_singleton. tauto.
Qed.

Lemma list_to_set_add_strings (l : list string) :
  list_to_set (add_strings l []) =@{gset string} list_to_set l.
Proof.
  apply set_eq. intros x.
  rewrite !elem_of_list_to_set, elem_of_add_strings, elem_of_nil. tauto.
Qed.

Lemma set_inter_strs (a t : list string) :
  set_inter (VStr <$> a) (VStr <$> t) = VStr <$> filter (.∈ t) a.
Proof.
  unfold set_inter. induction a as [|x a IH]; [done|].
  cbn [fmap list_fmap]. rewrite !filter_cons, py_in_strs.
  destruct (decide (x ∈ t)) as [Hx|Hx].
  - rewrite bool_decide_true by done. rewrite decide_True by done.
    cbn [fmap list_fmap]. by rewrite <- IH.
  - rewrite bool_decide_false by done. rewrite decide_False by done.
    apply IH.
Qed.

Lemma set_diff_strs (a t : list string) :
  set_diff (VStr <$> a) (VStr <$> t) = VStr <$> filter (.∉ t) a.
Proof.
  unfold set_diff. induction a as [|x a IH]; [done|].
  cbn [fmap list_fmap]. rewrite !filter_cons, py_in_strs.
  destruct (decide (x ∈ t)) as [Hx|Hx].
  - rewrite bool_decide_true by done. rewrite decide_False by done.
    rewrite decide_False by (intros Hn; by apply Hn). apply IH.
  - rewrite bool_decide_false by done. rewrite decide_True by done.
    rewrite decide_True by done. cbn [fmap list_fmap]. by rewrite <- IH.
Qed.

Lemma size_inter_filter (a t : list string) :
  NoDup a ->
  size (list_to_set a ∩ list_to_set t : gset string) = length (filter (.∈ t) a).
Proof.
  intros Ha. rewrite <- (size_list_to_set (C:=gset string))
    by by apply NoDup_filter.
  f_equal. apply set_eq. intros x.
  rewrite elem_of_intersection, !elem_of_list_to_set, list_elem_of_filter.
  tauto.
Qed.

Lemma size_diff_filter (a t : list string) :
  NoDup a ->
  size (list_to_set a ∖ list_to_set t : gset string) = length (filter (.∉ t) a).
Proof.
  intros Ha. rewrite <- (size_list_to_set (C:=gset string))
    by by apply NoDup_filter.
  f_equal. apply set_eq. intros x.
  rewrite elem_of_difference, !elem_of_list_to_set, list_elem_of_filter.
  tauto.
Qed.

Lemma compare_list_strings (py : Builtins) (fuzzy : bool)
    (A T : list string) :
  compare_list py (VList (VStr <$> A)) (VList (VStr <$> T)) false fuzzy
  = Ok (set_counts (string_set py fuzzy A) (string_set py fuzzy T)).
Proof.
  unfold compare_list, string_set. cbn [as_list].
  change (normal_form py fuzzy)
    with (fun s => normalize_string py (VStr s) fuzzy).
  set (norm := fun s => normalize_string py (VStr s) fuzzy).
  assert (Hsets : forall l,
    (if fuzzy
     then py_set ((fun x => VStr (normalize_string py x fuzzy)) <$> (VStr <$> l))
     else py_set (VStr <$> l))
    = Ok (VStr <$> add_strings (norm <$> l) [])).
  { intros l. destruct fuzzy.
    - rewrite <- list_fmap_compose.
      rewrite <- py_set_strs. by rewrite <- list_fmap_compose.
    - rewrite py_set_strs. do 3 f_equal.
      unfold norm. simpl. by rewrite list_fmap_id. }
  rewrite !Hsets. cbn [mbind result_bind].
  rewrite set_inter_strs, !set_diff_strs.
  unfold len, set_counts. rewrite !length_fmap.
  rewrite <- !(list_to_set_add_strings (norm <$> _)).
  rewrite size_inter_filter, !size_diff_filter
    by (apply add_strings_NoDup, NoDup_nil_2).
  reflexivity.
Qed.

Lemma string_set_same_elements (py : Builtins) (fuzzy : bool)
    (l l' : list string) :
  (forall x, x ∈ l <-> x ∈ l') ->
  string_set py fuzzy l = string_set py fuzzy l'.
Proof.
  intros H. unfold string_set. apply set_eq. intros y.
  rewrite !elem_of_list_to_set, !list_elem_of_fmap.
  split; intros (x & -> & Hx); exists x; split; try done; by apply H.
Qed.

(** C7.  With [list_order_matters] off, two lists of strings compare as
    the sets of their normal forms: [tp] is the size of the intersection,
    [fp] that of automated minus truth, [fn] that of truth minus
    automated.  The normal form of a string is the string itself, and with
    [fuzzy_strings] its words in lower case joined by single spaces.  So
    the result does not change when either list is permuted or when its
    elements are repeated, and ["a","b"] against ["b","a"] gives
    [{tp:2, fp:0, fn:0}].  Strings that differ in case and in white space
    only are one element with [fuzzy_strings] and different elements
    without. *)
Theorem C7_unordered_lists_are_sets (py : Builtins)
    (tolerance : float) (fuzzy : bool) (field_name : string) :
  let config := {| numeric_tolerance := tolerance; fuzzy_strings := fuzzy;
                   list_order_matters := false |} in
  let compare (A T : list string) :=
    compare_field py (VList (VStr <$> A)) (VList (VStr <$> T))
      field_name config in
  let compare_with (fuzzy : bool) (A T : list string) :=
    compare_field py (VList (VStr <$> A)) (VList (VStr <$> T)) field_name
      {| numeric_tolerance := tolerance; fuzzy_strings := fuzzy;
         list_order_matters := false |} in
  (forall A T,
      compare A T
      = Ok {| tp := Z.of_nat
                      (size (list_to_set (normal_form py fuzzy <$> A)
                             ∩ list_to_set (normal_form py fuzzy <$> T)
                             : gset string));
              fp := Z.of_nat
                      (size (list_to_set (normal_form py fuzzy <$> A)
                             ∖ list_to_set (normal_form py fuzzy <$> T)
                             : gset string));
              fn := Z.of_nat
                      (size (list_to_set (normal_form py fuzzy <$> T)
                             ∖ list_to_set (normal_form py fuzzy <$> A)
                             : gset string));
              tn := None |})
  /\ (forall A A' T T', A ≡ₚ A' -> T ≡ₚ T' -> compare A' T' = compare A T)
  /\ (forall A T, compare (A ++ A) (T ++ T) = compare A T)
  /\ compare ["a"; "b"] ["b"; "a"]
     = Ok {| tp := 2; fp := 0; fn := 0; tn := None |}
  /\ normal_form py true "  Apis   MELLIFERA " = "apis mellifera"%string
  /\ normal_form py false "  Apis   MELLIFERA " = "  Apis   MELLIFERA "%string
  /\ compare_with true ["Apis  mellifera"; "BOMBUS"; "bombus "]
       ["apis mellifera"; "Bombus"; "osmia"]
     = Ok {| tp := 2; fp := 0; fn := 1; tn := None |}
  /\ compare_with false ["Apis  mellifera"; "BOMBUS"; "bombus "]
       ["apis mellifera"; "Bombus"; "osmia"]
     = Ok {| tp := 0; fp := 3; fn := 3; tn := None |}.
Proof.
  intros config compare compare_with.
  assert (Hset : forall A T,
             compare A T
             = Ok (set_counts (string_set py fuzzy A)
                     (string_set py fuzzy T))).
  { intros A T. apply compare_list_strings. }
  split_and!.
  - exact Hset.
  - intros A A' T T' HA HT. rewrite !Hset.
    rewrite (string_set_same_elements _ _ A' A),
            (string_set_same_elements _ _ T' T); [done| |];
      intros x; by rewrite ?HA, ?HT.
  - intros A T. rewrite !Hset.
    rewrite (string_set_same_elements _ _ (A ++ A) A),
            (string_set_same_elements _ _ (T ++ T) T); [done| |];
      intros x; rewrite elem_of_app; tauto.
  - unfold compare, config. destruct fuzzy; vm_compute; reflexivity.
  - vm_compute. reflexivity.
  - reflexivity.
  - vm_compute. reflexivity.
  - vm_compute. reflexivity.
Qed.

Lemma C7_unordered_lists_are_sets_witness :
  compare_field ascii_builtins
    (VList (VStr <$> ["B"; "a"; "c  d"])) (VList (VStr <$> ["C d"; "a"])) "f"
    {| numeric_tolerance := Float64.zero; fuzzy_strings := true;
       list_order_matters := false |}
  = compare_field ascii_builtins
      (VList (VStr <$> ["a"; "B"; "c  d"])) (VList (VStr <$> ["a"; "C d"])) "f"
      {| numeric_tolerance := Float64.zero; fuzzy_strings := true;
         list_order_matters := false |}.
Proof.
  apply (proj1 (proj2 (C7_unordered_lists_are_sets ascii_builtins Float64.zero
                         true "f"))
           ["a"; "B"; "c  d"] ["B"; "a"; "c  d"] ["a"; "C d"] ["C d"; "a"]).
  - apply perm_swap.
  - apply perm_swap.
Defined.

(** ** A scalar or nothing against a list (claim C10) *)

Lemma py_eq_hash_key (v w : value) :
  hashable v = true -> hashable w = true ->
  py_eq v w = true <-> exists k, hash_key v = Some k /\ hash_key w = Some k.
Proof.
  intros Hv Hw.
  destruct v, w; try discriminate Hv; try discriminate Hw;
    cbn [py_eq hash_key];
    repeat match goal with
      | |- context [numeric ?u] => destruct (numeric u) as [[?|]|]
      end;
    rewrite ?bool_decide_eq_true;
    (split; [intros; simplify_eq; eauto
            | intros (k & ? & ?); by simplify_eq]).
Qed.

Lemma py_eq_sym (v w : value) :
  hashable v = true -> hashable w = true -> py_eq v w = py_eq w v.
Proof.
  intros Hv Hw. apply eq_true_iff_eq.
  rewrite !py_eq_hash_key by done.
  split; intros (k & ? & ?); exists k; by split.
Qed.

Lemma py_eq_trans (u v w : value) :
  hashable u = true -> hashable v = true -> hashable w = true ->
  py_eq u v = true -> py_eq v w = true -> py_eq u w = true.
Proof.
  intros Hu Hv Hw. rewrite !py_eq_hash_key by done.
  intros (k & ? & ?) (k' & ? & ?). exists k. split; congruence.
Qed.

(** In a set, two values that can be hashed are the same element exactly
    when they have the same key, or both have none: both are the NaN. *)
Lemma same_nan_hash_key (v w : value) :
  hashable v = true -> hashable w = true ->
  same_nan v w = true <-> hash_key v = None /\ hash_key w = None.
Proof.
  intros Hv Hw.
  destruct v as [| | |[]| | |], w as [| | |[]| | |];
    try discriminate Hv; try discriminate Hw; cbn; split;
    first [done | by intros [? ?]].
Qed.

Lemma same_or_eq_hash_key (v w : value) :
  hashable v = true -> hashable w = true ->
  same_or_eq v w = true <-> hash_key v = hash_key w.
Proof.
  intros Hv Hw. unfold same_or_eq.
  rewrite orb_true_iff, (py_eq_hash_key v w Hv Hw),
    (same_nan_hash_key v w Hv Hw).
  destruct (hash_key v) as [k|], (hash_key w) as [k'|]; split;
    try (intros [[? ?]|(? & ? & ?)]; by simplify_eq);
    try (intros ?; simplify_eq; by eauto).
Qed.

Lemma same_or_eq_sym (v w : value) :
  hashable v = true -> hashable w = true -> same_or_eq v w = same_or_eq w v.
Proof.
  intros Hv Hw. apply eq_true_iff_eq.
  rewrite !same_or_eq_hash_key by done. split; congruence.
Qed.

Lemma same_or_eq_trans (u v w : value) :
  hashable u = true -> hashable v = true -> hashable w = true ->
  same_or_eq u v = true -> same_or_eq v w = true -> same_or_eq u w = true.
Proof.
  intros Hu Hv Hw. rewrite !same_or_eq_hash_key by done. congruence.
Qed.

Lemma same_or_eq_refl (v : value) : hashable v = true -> same_or_eq v v = true.
Proof. intros Hv. by apply same_or_eq_hash_key. Qed.

Lemma py_in_app (x : value) (l k : list value) :
  py_in x (l ++ k) = py_in x l || py_in x k.
Proof. apply existsb_app. Qed.

Lemma py_in_true (x : value) (l : list value) :
  py_in x l = true <-> exists y, y ∈ l /\ same_or_eq x y = true.
Proof.
  unfold py_in. rewrite existsb_exists.
  split; intros (y & ? & ?); exists y; by rewrite ?list_elem_of_In in *.
Qed.

Lemma py_in_false (x : value) (l : list value) :
  py_in x l = false <-> forall y, y ∈ l -> same_or_eq x y = false.
Proof.
  rewrite <- not_true_iff_false, py_in_true. split.
  - intros H y Hy. apply not_true_iff_false. intros ?. apply H. eauto.
  - intros H (y & Hy & Heq). rewrite (H y Hy) in Heq. done.
Qed.

Lemma pairwise_distinct_snoc (acc : list value) (x : value) :
  Forall (fun y => hashable y = true) acc -> hashable x = true ->
  pairwise_distinct acc -> py_in x acc = false ->
  pairwise_distinct (acc ++ [x]).
Proof.
  intros Hacc Hx. induction Hacc as [|y acc Hy Hacc IH]; intros Hd Hin.
  - done.
  - destruct Hd as [Hy' Hd]. simpl in Hin.
    apply orb_false_iff in Hin as [Hxy Hin].
    split; [|by apply IH].
    rewrite py_in_app, Hy'. simpl. rewrite same_or_eq_sym, Hxy; done.
Qed.

(** The set built by [set_add_all]: its elements are pairwise different,
    and a value is in it if and only if it is in what it was built from. *)
Lemma set_add_all_spec (l acc S : list value) :
  Forall (fun y => hashable y = true) acc -> pairwise_distinct acc ->
  set_add_all l acc = Ok S ->
  Forall (fun y => hashable y = true) S
  /\ pairwise_distinct S
  /\ (forall x, hashable x = true -> py_in x S = py_in x acc || py_in x l).
Proof.
  revert acc. induction l as [|y l IH]; intros acc Hacc Hd Hset.
  - simpl in Hset. injection Hset as <-. split_and!; [done..|].
    intros x _. by rewrite orb_false_r.
  - simpl in Hset. destruct (hashable y) eqn:Hy; [|discriminate].
    destruct (py_in y acc) eqn:Hin.
    + destruct (IH acc Hacc Hd Hset) as (HS & HdS & Hmem).
      split_and!; [done..|]. intros x Hx. rewrite (Hmem x Hx). simpl.
      destruct (same_or_eq x y) eqn:Hxy; [|done].
      apply py_in_true in Hin as (z & Hz & Hyz).
      assert (py_in x acc = true) as ->; [|done].
      apply py_in_true. exists z. split; [done|].
      apply (same_or_eq_trans x y z); try done.
      by eapply Forall_forall in Hacc.
    + destruct (IH (acc ++ [y])) as (HS & HdS & Hmem); try done.
      * apply Forall_app. split; [done|]. by apply Forall_singleton.
      * by apply pairwise_distinct_snoc.
      * split_and!; [done..|]. intros x Hx.
        rewrite (Hmem x Hx), py_in_app. simpl.
        by rewrite orb_false_r, orb_assoc.
Qed.

Lemma py_set_spec (l S : list value) :
  py_set l = Ok S ->
  Forall (fun y => hashable y = true) S
  /\ pairwise_distinct S
  /\ (forall x, hashable x = true -> py_in x S = py_in x l).
Proof. intros H. by apply (set_add_all_spec l [] S) in H. Qed.


Lemma py_in_singleton (x a : value) : py_in x [a] = same_or_eq x a.
Proof. unfold py_in. simpl. apply orb_false_r. Qed.

Lemma filter_out_none (a : value) (S : list value) :
  (forall s, s ∈ S -> same_or_eq s a = false) ->
  filter (fun s => py_in s [a] = false) S = S.
Proof.
  induction S as [|s S IH]; intros H; [done|].
  rewrite filter_cons, decide_True.
  - f_equal. apply IH. intros s' Hs'. apply H. by right.
  - rewrite py_in_singleton. apply H. by left.
Qed.

(** Removing from a set the one element that equals [a]. *)
Lemma length_filter_out (a : value) (S : list value) :
  hashable a = true -> Forall (fun y => hashable y = true) S ->
  pairwise_distinct S -> py_in a S = true ->
  (length (filter (fun s => py_in s [a] = false) S) + 1 = length S)%nat.
Proof.
  intros Ha HS. induction HS as [|s S Hs HS IH]; intros Hd Hin; [done|].
  destruct Hd as [Hs' Hd]. rewrite filter_cons.
  change (py_in a (s :: S)) with (same_or_eq a s || py_in a S) in Hin.
  destruct (same_or_eq a s) eqn:Has.
  - rewrite decide_False
      by (rewrite py_in_singleton, same_or_eq_sym, Has; done).
    rewrite filter_out_none; [simpl; lia|].
    intros s' Hs'S. apply not_true_iff_false. intros Hs'a.
    assert (hashable s' = true) by by eapply Forall_forall in HS.
    rewrite py_in_false in Hs'. specialize (Hs' s' Hs'S).
    rewrite (same_or_eq_trans s a s') in Hs'; try done.
    + by rewrite same_or_eq_sym.
    + by rewrite same_or_eq_sym.
  - rewrite decide_True
      by (rewrite py_in_singleton, same_or_eq_sym, Has; done).
    simpl in Hin. specialize (IH Hd Hin). cbn [length]. lia.
Qed.









(** ** Equality of floats *)

Lemma strip_zeros_exponent (p : positive) (e : Z) :
  e <= (Float64.strip_zeros p e).2.
Proof.
  revert e. induction p as [p IH|p IH|]; intros e; simpl; try lia.
  specialize (IH (e + 1)). lia.
Qed.

Lemma strip_zeros_digits (p : positive) (e : Z) :
  Zpos (digits2_pos (Float64.strip_zeros p e).1) + (Float64.strip_zeros p e).2
  = Zpos (digits2_pos p) + e.
Proof.
  revert e. induction p as [p IH|p IH|]; intros e; simpl; try lia.
  rewrite IH. lia.
Qed.

Lemma strip_zeros_inj (p q : positive) (e : Z) :
  Float64.strip_zeros p e = Float64.strip_zeros q e -> p = q.
Proof.
  revert q e. induction p as [p IH|p IH|]; intros [q|q|] e H; simpl in H;
    try (by simplify_eq);
    try (pose proof (strip_zeros_exponent q (e + 1)) as Hq;
         rewrite <- H in Hq; simpl in Hq; lia);
    try (pose proof (strip_zeros_exponent p (e + 1)) as Hp;
         rewrite H in Hp; simpl in Hp; lia).
  f_equal. by eapply IH.
Qed.

(** On the floats in canonical form, which are those of IEEE, [eqb] is
    the equality [SFeqb] of the reference semantics. *)
Lemma eqb_SFeqb (x y : float) :
  valid_binary Float64.prec Float64.emax x = true ->
  valid_binary Float64.prec Float64.emax y = true ->
  Float64.eqb x y = SFeqb x y.
Proof.
  intros Hx Hy.
  destruct x as [sx|sx| |sx mx ex], y as [sy|sy| |sy my ey];
    try reflexivity;
    try (by destruct sx, sy);
    try (unfold Float64.eqb, Float64.exact_of_float, Float64.dyadic;
         destruct sx, sy; simpl;
         destruct (Float64.strip_zeros _ _); reflexivity).
  simpl in Hx, Hy. apply andb_true_iff in Hx as [Hx _], Hy as [Hy _].
  unfold canonical_mantissa in Hx, Hy. apply Z.eqb_eq in Hx, Hy.
  apply eq_true_iff_eq. unfold Float64.eqb, SFeqb. simpl.
  rewrite bool_decide_eq_true. split.
  - intros Heq.
    assert (sx = sy /\ Float64.strip_zeros mx ex = Float64.strip_zeros my ey)
      as [-> Hs].
    { unfold Float64.dyadic in Heq.
      destruct sx, sy; simpl in Heq;
        destruct (Float64.strip_zeros mx ex), (Float64.strip_zeros my ey);
        by simplify_eq. }
    assert (ex = ey) as ->.
    { pose proof (strip_zeros_digits mx ex) as Hdx.
      pose proof (strip_zeros_digits my ey) as Hdy.
      rewrite Hs in Hdx. rewrite <- Hx, <- Hy. f_equal. lia. }
    apply strip_zeros_inj in Hs as ->.
    rewrite Z.compare_refl.
    change (Pos.compare_cont Eq my my) with (my ?= my)%positive.
    rewrite Pos.compare_refl. by destruct sy.
  - intros Hc.
    assert (sx = sy /\ ex = ey /\ mx = my) as (-> & -> & ->); [|done].
    change (Pos.compare_cont Eq mx my) with (mx ?= my)%positive in Hc.
    destruct sx, sy; try done;
      destruct (Z.compare_spec ex ey); try done;
      destruct (Pos.compare_spec mx my); try done; by subst.
Qed.

(** ** The order of floats *)

#[local] Ltac rank_case :=
  eexists; split; [reflexivity|];
  split; (split; intros; first [done | lia]).

Lemma SFcompare_rank (x y : float) :
  Float64.is_nan x = false -> Float64.is_nan y = false ->
  exists c, SFcompare x y = Some c
            /\ (c = Lt <-> lex_lt (rank x) (rank y))
            /\ (c = Gt <-> lex_lt (rank y) (rank x)).
Proof.
  intros Hx Hy. unfold lex_lt.
  destruct x as [sx|sx| |sx mx ex], y as [sy|sy| |sy my ey];
    try discriminate Hx; try discriminate Hy;
    try (destruct sx); try (destruct sy); cbn [SFcompare rank fst snd];
    try rank_case;
    change (Pos.compare_cont Eq mx my) with (mx ?= my)%positive;
    (destruct (Z.compare_spec ex ey); [destruct (Pos.compare_spec mx my)|..]);
    cbn [CompOpp]; rank_case.
Qed.

Lemma ltb_rank (x y : float) :
  Float64.is_nan x = false -> Float64.is_nan y = false ->
  Float64.ltb x y = true <-> lex_lt (rank x) (rank y).
Proof.
  intros Hx Hy. unfold Float64.ltb, SFltb.
  destruct (SFcompare_rank x y Hx Hy) as (c & -> & Hlt & _).
  rewrite <- Hlt. destruct c; split; congruence.
Qed.

Lemma leb_rank (x y : float) :
  Float64.is_nan x = false -> Float64.is_nan y = false ->
  Float64.leb x y = true <-> lex_le (rank x) (rank y).
Proof.
  intros Hx Hy. unfold Float64.leb, SFleb.
  destruct (SFcompare_rank x y Hx Hy) as (c & -> & Hlt & Hgt).
  assert (lex_le (rank x) (rank y) <-> ~ lex_lt (rank y) (rank x)) as ->.
  { unfold lex_le, lex_lt. lia. }
  rewrite <- Hgt. destruct c; split; congruence.
Qed.

Lemma leb_not_nan (x y : float) :
  Float64.leb x y = true ->
  Float64.is_nan x = false /\ Float64.is_nan y = false.
Proof. by destruct x, y. Qed.

Lemma ltb_leb (x y : float) :
  Float64.ltb x y = true -> Float64.leb x y = true.
Proof.
  unfold Float64.ltb, Float64.leb, SFltb, SFleb.
  by destruct (SFcompare x y) as [[]|].
Qed.

Lemma not_ltb_leb (x y : float) :
  Float64.is_nan x = false -> Float64.is_nan y = false ->
  Float64.ltb y x = false -> Float64.leb x y = true.
Proof.
  intros Hx Hy Hlt. apply leb_rank; try done.
  apply not_true_iff_false in Hlt. rewrite ltb_rank in Hlt by done.
  unfold lex_le, lex_lt in *. lia.
Qed.

Lemma leb_trans (x y z : float) :
  Float64.leb x y = true -> Float64.leb y z = true -> Float64.leb x z = true.
Proof.
  intros Hxy Hyz.
  destruct (leb_not_nan x y Hxy) as [Hx Hy].
  destruct (leb_not_nan y z Hyz) as [_ Hz].
  rewrite leb_rank in * by done. unfold lex_le in *. lia.
Qed.

(** ** Rounding never yields a NaN *)

Lemma iter_pos_invariant {A} (P : A -> Prop) (f : A -> A) :
  (forall x, P x -> P (f x)) -> forall p x, P x -> P (SpecFloat.iter_pos f p x).
Proof.
  intros Hf. induction p as [p IH|p IH|]; intros x Hx; simpl; auto.
Qed.

Lemma shr_1_nonneg (mrs : shr_record) :
  0 <= shr_m mrs -> 0 <= shr_m (shr_1 mrs).
Proof. destruct mrs as [[|[p|p|]|p] r s]; simpl; lia. Qed.

Lemma shr_nonneg (mrs : shr_record) (e n : Z) :
  0 <= shr_m mrs -> 0 <= shr_m (shr mrs e n).1.
Proof.
  intros H. destruct n as [|p|p]; simpl; try done.
  by apply (iter_pos_invariant (fun r => 0 <= shr_m r)), H; apply shr_1_nonneg.
Qed.

Lemma shr_record_of_loc_m (m : Z) (l : location) :
  shr_m (shr_record_of_loc m l) = m.
Proof. by destruct l as [|[]]. Qed.

Lemma shr_fexp_nonneg (prec emax m e : Z) (l : location) :
  0 <= m -> 0 <= shr_m (shr_fexp prec emax m e l).1.
Proof.
  intros H. unfold shr_fexp. apply shr_nonneg.
  by rewrite shr_record_of_loc_m.
Qed.

Lemma round_nearest_even_nonneg (m : Z) (l : location) :
  0 <= m -> 0 <= round_nearest_even m l.
Proof.
  intros H. destruct l as [|[]]; simpl; try lia.
  destruct (Z.even m); lia.
Qed.

Lemma binary_round_aux_not_nan (prec emax : Z) (sx : bool) (mx ex : Z)
    (lx : location) :
  0 <= mx -> Float64.is_nan (binary_round_aux prec emax sx mx ex lx) = false.
Proof.
  intros H. unfold binary_round_aux.
  pose proof (shr_fexp_nonneg prec emax mx ex lx H) as H1.
  destruct (shr_fexp prec emax mx ex lx) as [mrs' e']. simpl in H1.
  pose proof (shr_fexp_nonneg prec emax _ e' loc_Exact
                (round_nearest_even_nonneg _ (loc_of_shr_record mrs') H1)) as H2.
  destruct (shr_fexp prec emax _ e' loc_Exact) as [mrs'' e'']. simpl in H2.
  destruct (shr_m mrs'') as [|m|m]; [done| |lia].
  by destruct (e'' <=? emax - prec).
Qed.

Lemma SFdiv_core_binary_nonneg (prec emax m1 e1 m2 e2 : Z) :
  0 <= m1 -> 0 < m2 ->
  0 <= (SFdiv_core_binary prec emax m1 e1 m2 e2).1.1.
Proof.
  intros H1 H2. unfold SFdiv_core_binary.
  set (s := e1 - e2 - _).
  set (m' := match s with Z0 => m1 | Zpos _ => Z.shiftl m1 s | Zneg _ => 0 end).
  assert (0 <= m').
  { unfold m'. destruct s; try lia. by apply Z.shiftl_nonneg. }
  pose proof (Z_div_mod m' m2 ltac:(lia)) as Hdiv.
  destruct (Z.div_eucl m' m2) as [q r]. simpl. nia.
Qed.

Lemma ratio_not_nan (n d : Z) :
  0 < d -> Float64.is_nan (Float64.ratio n d) = false.
Proof.
  intros Hd. unfold Float64.ratio.
  destruct (Z.eq_dec n 0) as [->|Hn]; [done|].
  pose proof (SFdiv_core_binary_nonneg Float64.prec Float64.emax
                (Z.abs n) 0 d 0 ltac:(lia) Hd) as Hq.
  destruct (SFdiv_core_binary _ _ (Z.abs n) 0 d 0) as [[q e] l].
  simpl in Hq.
  destruct n; [done | by apply binary_round_aux_not_nan..].
Qed.

(** The precision and the recall of [calculate_metrics] are no NaN. *)
Lemma calculate_metrics_not_nan (tp fp fn : Z) :
  Float64.is_nan (precision (calculate_metrics tp fp fn)) = false
  /\ Float64.is_nan (recall (calculate_metrics tp fp fn)) = false.
Proof.
  unfold calculate_metrics. cbn [precision recall].
  split; case_match; try done; apply ratio_not_nan; lia.
Qed.

(** ** Sorting *)

Section Sorting.

Context {A : Type}.
Variable key : A -> float.

Let le_key (x y : A) : Prop := Float64.leb (key x) (key y) = true.

Lemma insert_by_perm (x : A) (l : list A) : insert_by key x l ≡ₚ x :: l.
Proof.
  induction l as [|y l IH]; simpl; [done|].
  case_match; [|done]. rewrite IH. apply perm_swap.
Qed.

Lemma sorted_by_perm (l : list A) : sorted_by key l ≡ₚ l.
Proof.
  induction l as [|x l IH]; simpl; [done|].
  by rewrite insert_by_perm, IH.
Qed.

Lemma insert_by_sorted (x : A) (l : list A) :
  Float64.is_nan (key x) = false ->
  Forall (fun y => Float64.is_nan (key y) = false) l ->
  StronglySorted le_key l -> StronglySorted le_key (insert_by key x l).
Proof.
  intros Hx Hl Hs. induction Hs as [|y l Hs IH Hy]; simpl.
  - repeat constructor.
  - apply Forall_cons in Hl as [Hny Hl].
    destruct (Float64.ltb (key y) (key x)) eqn:Hlt.
    + constructor; [by apply IH|].
      rewrite insert_by_perm. constructor; [|done].
      by apply ltb_leb.
    + assert (le_key x y) as Hxy by by apply not_ltb_leb.
      constructor; [by constructor|].
      constructor; [done|].
      eapply Forall_impl; [exact Hy|]. intros z Hyz.
      by eapply leb_trans.
Qed.

Lemma sorted_by_sorted (l : list A) :
  Forall (fun y => Float64.is_nan (key y) = false) l ->
  StronglySorted le_key (sorted_by key l).
Proof.
  induction 1 as [|x l Hx Hl IH]; simpl; [constructor|].
  apply insert_by_sorted; try done.
  by rewrite sorted_by_perm.
Qed.

End Sorting.

(** ** The common issues of the report (claim C8) *)

Lemma ltb_not_nan (x y : float) :
  Float64.ltb x y = true -> Float64.is_nan x = false.
Proof. by destruct x. Qed.

(** A list filtered on [key < threshold] and a count, then sorted by the
    key: what it holds and how it is ordered. *)
Lemma issues_spec (key : string * Metrics -> float)
    (count : string * Metrics -> Z) (by_field : list (string * Metrics)) :
  let issues :=
    sorted_by key
      (filter (fun e => Float64.ltb (key e) threshold = true /\ 0 < count e)
         by_field) in
  (forall e, e ∈ issues
             <-> e ∈ by_field
                 /\ Float64.ltb (key e) threshold = true /\ 1 <= count e)
  /\ StronglySorted (fun x y => Float64.leb (key x) (key y) = true) issues.
Proof.
  intros issues. split.
  - intros e. unfold issues.
    rewrite sorted_by_perm, list_elem_of_filter.
    split.
    + intros [[Hlt Hc] He]. split_and!; [done..|lia].
    + intros (He & Hlt & Hc). split_and!; [done|lia|done].
  - apply sorted_by_sorted. apply Forall_forall. intros e He.
    apply list_elem_of_filter in He as [[Hlt _] _].
    by eapply ltb_not_nan.
Qed.

(** C8.  The low-recall list of the report holds exactly the fields of
    [by_field] whose recall is below the threshold and that have a false
    negative, in ascending order of recall; the low-precision list holds
    exactly those whose precision is below the threshold and that have a
    false positive, in ascending order of precision.  The threshold is the
    float 0.7 in both, and neither list reads the configuration. *)
Theorem C8_common_issues (by_field : list (string * Metrics)) :
  (forall e, e ∈ low_recall by_field
             <-> e ∈ by_field
                 /\ Float64.ltb (recall e.2) threshold = true
                 /\ 1 <= m_fn e.2)
  /\ StronglySorted
       (fun x y => Float64.leb (recall x.2) (recall y.2) = true)
       (low_recall by_field)
  /\ (forall e, e ∈ low_precision by_field
                <-> e ∈ by_field
                    /\ Float64.ltb (precision e.2) threshold = true
                    /\ 1 <= m_fp e.2)
  /\ StronglySorted
       (fun x y => Float64.leb (precision x.2) (precision y.2) = true)
       (low_precision by_field)
  /\ threshold = float_lit "0.7".
Proof.
  destruct (issues_spec (fun e => recall e.2) (fun e => m_fn e.2) by_field)
    as [Hr1 Hr2].
  destruct (issues_spec (fun e => precision e.2) (fun e => m_fp e.2) by_field)
    as [Hp1 Hp2].
  split_and!; done.
Qed.

(** The lists on the metrics of three fields: recall 0.25, 0.7 and 0. *)
Lemma low_recall_example :
  (low_recall [("a"%string, calculate_metrics 1 0 3);
               ("b"%string, calculate_metrics 7 0 3);
               ("c"%string, calculate_metrics 0 0 3)]).*1
  = ["c"%string; "a"%string].
Proof. vm_compute. reflexivity. Qed.

(** * Further properties of the comparator *)

(** ** Lists compared by position *)

Lemma len_filter_le {A} (P : A -> Prop) `{forall x, Decision (P x)}
    (l : list A) :
  0 <= len (filter P l) <= len l.
Proof. unfold len. pose proof (length_filter P l). lia. Qed.

Lemma len_zip {A B} (l : list A) (k : list B) :
  len (zip l k) = Z.min (len l) (len k).
Proof. unfold len. rewrite length_zip_with. lia. Qed.

(** With [order_matters], [compare_list] never raises, whatever the two
    values are.  The surplus of the longer side is all that counts as
    false positives or false negatives, so at most one of the two is not
    zero, and two lists of the same length have neither, however much they
    differ; the true positives are at most the common length. *)
Theorem compare_list_ordered_counts (py : Builtins)
    (automated truth : value) (fuzzy : bool) :
  exists c,
    compare_list py automated truth true fuzzy = Ok c
    /\ 0 <= tp c <= Z.min (len (as_list automated)) (len (as_list truth))
    /\ fp c = Z.max 0 (len (as_list automated) - len (as_list truth))
    /\ fn c = Z.max 0 (len (as_list truth) - len (as_list automated))
    /\ (fp c = 0 \/ fn c = 0)
    /\ tn c = None.
Proof.
  eexists. split; [reflexivity|]. cbn [tp fp fn tn].
  pose proof (len_filter_le
                (fun p => compare_string py p.1 p.2 fuzzy = true)
                (zip (as_list automated) (as_list truth))) as Hle.
  rewrite len_zip in Hle. split_and!; try done; lia.
Qed.

Lemma compare_string_refl (py : Builtins) (x : value)
    (fuzzy : bool) :
  compare_string py x x fuzzy = true.
Proof. destruct x; simpl; by rewrite ?bool_decide_true. Qed.

Lemma zip_diag_filter {A} (P : A * A -> Prop) `{forall p, Decision (P p)}
    (l : list A) :
  (forall x, P (x, x)) -> filter P (zip l l) = zip l l.
Proof.
  intros HP. induction l as [|x l IH]; [done|].
  simpl. rewrite filter_cons, decide_True by apply HP. by rewrite IH.
Qed.

(** A list compared by position with itself is all true positives. *)
Lemma compare_list_ordered_refl (py : Builtins)
    (l : list value) (fuzzy : bool) :
  compare_list py (VList l) (VList l) true fuzzy
  = Ok {| tp := len l; fp := 0; fn := 0; tn := None |}.
Proof.
  unfold compare_list. cbn [as_list].
  rewrite zip_diag_filter by (intros x; apply compare_string_refl).
  rewrite len_zip. do 2 f_equal; lia.
Qed.

(** ** Lists compared as sets *)

Lemma set_add_all_ok (l acc : list value) :
  Forall (fun y => hashable y = true) l -> exists S, set_add_all l acc = Ok S.
Proof.
  intros Hl. revert acc. induction Hl as [|x l Hx Hl IH]; intros acc; simpl.
  - eauto.
  - rewrite Hx. apply IH.
Qed.

Lemma set_add_all_raise (l acc : list value) :
  ~ Forall (fun y => hashable y = true) l ->
  set_add_all l acc = Raise TypeError.
Proof.
  revert acc. induction l as [|x l IH]; intros acc Hl; simpl.
  - destruct Hl. constructor.
  - destruct (hashable x) eqn:Hx; [|done].
    apply IH. intros Hl'. apply Hl. by constructor.
Qed.

Lemma set_add_all_length (l acc S : list value) :
  set_add_all l acc = Ok S -> (length S <= length acc + length l)%nat.
Proof.
  revert acc. induction l as [|x l IH]; intros acc H; simpl in H.
  - injection H as <-. lia.
  - destruct (hashable x); [|discriminate].
    apply IH in H. destruct (py_in x acc); simpl;
      rewrite ?length_app in H; simpl in H; lia.
Qed.

Lemma len_filter_partition {A} (p : A -> bool) (l : list A) :
  len (filter (fun x => p x = true) l) + len (filter (fun x => p x = false) l)
  = len l.
Proof.
  unfold len. induction l as [|x l IH]; [done|].
  rewrite !filter_cons. cbn beta. destruct (p x) eqn:Hp.
  - rewrite decide_True, decide_False by done. simpl length. lia.
  - rewrite decide_False, decide_True by done. simpl length. lia.
Qed.

Lemma len_filter_orb {A} (p q : A -> bool) (l : list A) :
  (forall x, x ∈ l -> p x = true -> q x = false) ->
  len (filter (fun x => p x || q x = true) l)
  = len (filter (fun x => p x = true) l) + len (filter (fun x => q x = true) l).
Proof.
  unfold len. induction l as [|x l IH]; intros Hpq; [done|].
  rewrite !filter_cons. cbn beta.
  assert (IH' := IH (fun y Hy => Hpq y (list_elem_of_further _ _ _ Hy))).
  destruct (p x) eqn:Hp.
  - rewrite (Hpq x) by (done || by left). cbn [orb].
    rewrite !decide_True, decide_False by done. simpl length. lia.
  - destruct (q x) eqn:Hq; cbn [orb].
    + rewrite decide_True, decide_False, decide_True by done. simpl length. lia.
    + rewrite !decide_False by done. lia.
Qed.

Lemma set_inter_nil_r (T : list value) : set_inter T [] = [].
Proof.
  unfold set_inter. induction T as [|t T IH]; [done|].
  by rewrite filter_cons, decide_False.
Qed.

(** The intersection of two sets has the same size from either side. *)
Lemma set_inter_length_comm (S T : list value) :
  Forall (fun y => hashable y = true) S ->
  Forall (fun y => hashable y = true) T ->
  pairwise_distinct S -> pairwise_distinct T ->
  len (set_inter S T) = len (set_inter T S).
Proof.
  intros HS HT HdS HdT.
  induction HS as [|s S Hs HS IH].
  - by rewrite set_inter_nil_r.
  - destruct HdS as [HsS HdS]. specialize (IH HdS).
    unfold set_inter in *.
    rewrite (list_filter_iff (fun x => py_in x (s :: S) = true)
               (fun x => same_or_eq x s || py_in x S = true)) by done.
    rewrite (len_filter_orb (fun x => same_or_eq x s) (fun x => py_in x S)).
    2:{ intros t Ht Hts. apply py_in_false. intros s' Hs'.
        apply not_true_iff_false. intros Hts'.
        assert (hashable t = true) by by eapply Forall_forall in HT.
        assert (hashable s' = true) by by eapply Forall_forall in HS.
        rewrite py_in_false in HsS. specialize (HsS s' Hs').
        rewrite (same_or_eq_trans s t s') in HsS; try done.
        by rewrite same_or_eq_sym. }
    rewrite <- IH. rewrite filter_cons.
    pose proof (len_filter_partition (fun x => py_in x [s]) T) as Hpart.
    rewrite (list_filter_iff (fun x => py_in x [s] = true)
               (fun x => same_or_eq x s = true)) in Hpart
      by (intros x; by rewrite py_in_singleton).
    destruct (py_in s T) eqn:HsT.
    + rewrite decide_True by done.
      pose proof (length_filter_out s T Hs HT HdT HsT) as Hout.
      unfold len in *. simpl length. lia.
    + rewrite decide_False by done.
      rewrite (filter_out_none s T) in Hpart.
      * unfold len in *. lia.
      * intros t Ht. rewrite py_in_false in HsT.
        rewrite same_or_eq_sym; [by apply HsT|by eapply Forall_forall in HT|done].
Qed.

(** The counts of two sets: the true and the false positives make up
    the automated set, the true positives and the false negatives the
    truth set. *)
Lemma set_counts_partition (SA ST : list value) :
  Forall (fun y => hashable y = true) SA ->
  Forall (fun y => hashable y = true) ST ->
  pairwise_distinct SA -> pairwise_distinct ST ->
  len (set_inter SA ST) + len (set_diff SA ST) = len SA
  /\ len (set_inter SA ST) + len (set_diff ST SA) = len ST.
Proof.
  intros HA HT HdA HdT. split.
  - apply (len_filter_partition (fun x => py_in x ST)).
  - rewrite set_inter_length_comm by done.
    apply (len_filter_partition (fun x => py_in x SA)).
Qed.

(** Without [order_matters] and without [fuzzy], [compare_list] returns
    counts if and only if every element of both lists can be hashed, and
    raises a [TypeError] otherwise.  The counts then split the two sets:
    [tp + fp] is the size of the set of the automated elements and
    [tp + fn] the size of the set of the truth elements, and neither is
    more than the length of its list. *)
Theorem compare_list_unordered_counts (py : Builtins)
    (automated truth : value) :
  (Forall (fun y => hashable y = true) (as_list automated ++ as_list truth) ->
   exists c SA ST,
     compare_list py automated truth false false = Ok c
     /\ py_set (as_list automated) = Ok SA
     /\ py_set (as_list truth) = Ok ST
     /\ tp c + fp c = len SA /\ tp c + fn c = len ST
     /\ 0 <= tp c /\ 0 <= fp c /\ 0 <= fn c
     /\ len SA <= len (as_list automated) /\ len ST <= len (as_list truth))
  /\ (~ Forall (fun y => hashable y = true)
          (as_list automated ++ as_list truth) ->
      compare_list py automated truth false false = Raise TypeError).
Proof.
  split.
  - intros [Ha Ht]%Forall_app.
    destruct (set_add_all_ok _ [] Ha) as [SA HSA].
    destruct (set_add_all_ok _ [] Ht) as [ST HST].
    destruct (py_set_spec _ _ HSA) as (HhA & HdA & _).
    destruct (py_set_spec _ _ HST) as (HhT & HdT & _).
    destruct (set_counts_partition SA ST HhA HhT HdA HdT) as [H1 H2].
    pose proof (set_add_all_length _ _ _ HSA) as HlA.
    pose proof (set_add_all_length _ _ _ HST) as HlT.
    exists {| tp := len (set_inter SA ST); fp := len (set_diff SA ST);
              fn := len (set_diff ST SA); tn := None |}, SA, ST.
    unfold compare_list, py_set. rewrite HSA, HST. cbn [tp fp fn].
    split_and!; try done; unfold len in *; simpl in *; lia.
  - intros Hn. unfold compare_list, py_set.
    destruct (decide (Forall (fun y => hashable y = true) (as_list automated)))
      as [Ha|Ha].
    + destruct (set_add_all_ok _ [] Ha) as [SA ->]. cbn [mbind result_bind].
      rewrite set_add_all_raise; [done|].
      intros Ht. apply Hn. by apply Forall_app.
    + rewrite (set_add_all_raise _ [] Ha). reflexivity.
Qed.

Lemma compare_list_unordered_counts_witness :
  (exists c SA ST,
      compare_list ascii_builtins (VStr "a") (VList [VStr "a"; VInt 1; VBool true])
        false false = Ok c
      /\ py_set (as_list (VStr "a")) = Ok SA
      /\ py_set (as_list (VList [VStr "a"; VInt 1; VBool true])) = Ok ST
      /\ tp c + fp c = len SA /\ tp c + fn c = len ST
      /\ 0 <= tp c /\ 0 <= fp c /\ 0 <= fn c
      /\ len SA <= len (as_list (VStr "a"))
      /\ len ST <= len (as_list (VList [VStr "a"; VInt 1; VBool true])))
  /\ compare_list ascii_builtins (VList [VList []]) VNone false false
     = Raise TypeError.
Proof.
  split.
  - apply (proj1 (compare_list_unordered_counts ascii_builtins (VStr "a")
                    (VList [VStr "a"; VInt 1; VBool true]))).
    repeat constructor.
  - apply (proj2 (compare_list_unordered_counts ascii_builtins
                    (VList [VList []]) VNone)).
    intros H. by apply Forall_cons in H as [? _].
Defined.

(** A set of normalized strings can always be built. *)
Lemma py_set_strings_ok (py : Builtins) (fuzzy : bool)
    (l : list value) :
  exists S,
    py_set ((fun x => VStr (normalize_string py x fuzzy)) <$> l) = Ok S.
Proof.
  apply set_add_all_ok, Forall_fmap, Forall_true. done.
Qed.

(** With [fuzzy], every element is turned into a string first, so
    [compare_list] never raises. *)
Theorem compare_list_fuzzy_total (py : Builtins)
    (automated truth : value) (order_matters : bool) :
  exists c, compare_list py automated truth order_matters true = Ok c.
Proof.
  destruct order_matters; [eexists; reflexivity|].
  unfold compare_list.
  destruct (py_set_strings_ok py true (as_list automated)) as [SA HSA].
  destruct (py_set_strings_ok py true (as_list truth)) as [ST HST].
  rewrite HSA, HST. eexists. reflexivity.
Qed.

(** ** Induction on values *)

Lemma value_induction (P : value -> Prop) :
  P VNone ->
  (forall b, P (VBool b)) ->
  (forall z, P (VInt z)) ->
  (forall x, P (VFloat x)) ->
  (forall s, P (VStr s)) ->
  (forall l, Forall P l -> P (VList l)) ->
  (forall d, Forall (fun kv => P kv.2) d -> P (VDict d)) ->
  forall v, P v.
Proof.
  intros HNone HBool HInt HFloat HStr HList HDict.
  fix IH 1.
  intros [|b|z|x|s|l|d];
    [exact HNone | apply HBool | apply HInt | apply HFloat | apply HStr | |].
  - apply HList. induction l as [|v l IHl]; constructor; [apply IH | exact IHl].
  - apply HDict. induction d as [|[k v] d IHd]; constructor;
      [apply IH | exact IHd].
Qed.

Lemma assoc_elem_of {A} (k : string) (d : list (string * A)) (x : A) :
  assoc k d = Some x -> (k, x) ∈ d.
Proof.
  induction d as [|[k' y] d IH]; simpl; [done|].
  case_bool_decide as Hk; intros Hx.
  - simplify_eq. by left.
  - right. by apply IH.
Qed.

(** ** The loop over the fields of a mapping *)

(** What the loop returns keeps what every step keeps. *)
Lemma nested_loop_invariant {A} (I : Counts -> Prop)
    (cmp : string -> value -> option A -> result Counts)
    (ad : list (string * value)) (td : list (string * A))
    (fields : list string) (total c : Counts) :
  (forall field tot fc,
      field ∈ fields ->
      cmp field (dict_get ad field) (assoc field td) = Ok fc ->
      I tot -> I (add_counts tot fc)) ->
  I total ->
  nested_loop cmp ad td fields total = Ok c -> I c.
Proof.
  revert total. induction fields as [|field fields IH]; intros total Hstep HI H.
  - simpl in H. by simplify_eq.
  - simpl in H.
    destruct (cmp field (dict_get ad field) (assoc field td)) as [fc|e] eqn:Hc;
      [|discriminate].
    simpl in H. eapply IH; [|by eapply Hstep; [left|..]|done].
    intros f tot fc' Hf. apply Hstep. by right.
Qed.

(** The loop returns when every step does. *)
Lemma nested_loop_ok {A} (I J : Counts -> Prop)
    (cmp : string -> value -> option A -> result Counts)
    (ad : list (string * value)) (td : list (string * A))
    (fields : list string) (total : Counts) :
  (forall field, field ∈ fields ->
     exists fc, cmp field (dict_get ad field) (assoc field td) = Ok fc /\ J fc) ->
  (forall tot fc, I tot -> J fc -> I (add_counts tot fc)) ->
  I total ->
  exists c, nested_loop cmp ad td fields total = Ok c /\ I c.
Proof.
  revert total. induction fields as [|field fields IH]; intros total Hc Hstep HI.
  - simpl. eauto.
  - simpl. destruct (Hc field) as (fc & -> & HJ); [by left|]. simpl.
    apply IH; [|done|by apply Hstep].
    intros f Hf. apply Hc. by right.
Qed.

(** An exception of the loop is the exception of a step. *)
Lemma nested_loop_raise {A}
    (cmp : string -> value -> option A -> result Counts)
    (ad : list (string * value)) (td : list (string * A))
    (fields : list string) (total : Counts) (e : exn) :
  nested_loop cmp ad td fields total = Raise e ->
  exists field, field ∈ fields
    /\ cmp field (dict_get ad field) (assoc field td) = Raise e.
Proof.
  revert total. induction fields as [|field fields IH]; intros total H.
  - discriminate.
  - simpl in H.
    destruct (cmp field (dict_get ad field) (assoc field td)) as [fc|e'] eqn:Hc.
    + simpl in H. destruct (IH _ H) as (f & Hf & Hr).
      exists f. split; [by right | done].
    + simpl in H. simplify_eq. exists field. split; [by left | done].
Qed.

(** ** What the comparator raises and what it returns *)

Lemma py_float_raise (py : Builtins) (v : value) (e : exn) :
  py_float py v = Raise e ->
  (e = OverflowError /\ exists z, v = VInt z) \/ e = ValueError \/ e = TypeError.
Proof.
  destruct v as [|b|z|x|s|l|d]; simpl; intros H; try (simplify_eq; by auto).
  - destruct (Float64.round_Z z); simplify_eq. left. eauto.
  - destruct (str_float py s); simplify_eq. auto.
Qed.

Lemma float_or_none_raise (py : Builtins) (v : value) (e : exn) :
  float_or_none py v = Raise e -> py_float py v = Raise e.
Proof.
  destruct v as [|b|z|x|s|l|d]; cbn; try discriminate; try done.
  - destruct (Float64.round_Z z); cbn; intros; by simplify_eq.
  - destruct (str_float py s); cbn; intros; by simplify_eq.
  - intros; by simplify_eq.
  - intros; by simplify_eq.
Qed.

Lemma compare_numeric_raise (py : Builtins) (automated truth : value)
    (tolerance : float) (e : exn) :
  compare_numeric py automated truth tolerance = Raise e ->
  e = OverflowError
  /\ (py_float py automated = Raise OverflowError
      \/ py_float py truth = Raise OverflowError).
Proof.
  unfold compare_numeric.
  destruct (float_or_none py automated) as [a|ea] eqn:Ha; cbn [mbind result_bind].
  - destruct (float_or_none py truth) as [t|et] eqn:Ht; cbn [mbind result_bind].
    + destruct a, t; discriminate.
    + apply float_or_none_raise in Ht.
      destruct (py_float_raise _ _ _ Ht) as [[-> _]|[->| ->]];
        intros; simplify_eq. auto.
  - apply float_or_none_raise in Ha.
    destruct (py_float_raise _ _ _ Ha) as [[-> _]|[->| ->]];
      intros; simplify_eq. auto.
Qed.

(** [compare_numeric] lets one exception through: the [OverflowError] of
    an integer, on either side, that is too large for a float.  When the
    first conversion that fails raises a [ValueError] or a [TypeError],
    the exception is caught and the result is [automated == truth]. *)
Theorem compare_numeric_raises_overflow_only (py : Builtins)
    (automated truth : value) (tolerance : float) :
  (forall e,
      compare_numeric py automated truth tolerance = Raise e ->
      e = OverflowError
      /\ exists z, (automated = VInt z \/ truth = VInt z)
                   /\ py_float py (VInt z) = Raise OverflowError)
  /\ (forall e,
        e = ValueError \/ e = TypeError ->
        float_or_none py automated = Raise e
        \/ ((exists a, float_or_none py automated = Ok a)
            /\ float_or_none py truth = Raise e) ->
        compare_numeric py automated truth tolerance
        = Ok (py_eq automated truth)).
Proof.
  split.
  - intros e [-> [H|H]]%compare_numeric_raise; (split; [done|]);
      destruct (py_float_raise _ _ _ H) as [[_ [z ->]]|[?|?]];
      try discriminate; exists z; auto.
  - intros e He [Ha|[[a Ha] Ht]]; unfold compare_numeric;
      rewrite Ha; cbn [mbind result_bind]; [|rewrite Ht];
      by destruct He as [-> | ->].
Qed.

Lemma compare_numeric_raises_overflow_only_witness :
  (OverflowError = OverflowError
   /\ exists z, (VInt (2 ^ 1024) = VInt z \/ VFloat Float64.zero = VInt z)
                /\ py_float ascii_builtins (VInt z) = Raise OverflowError)
  /\ compare_numeric ascii_builtins (VInt 3) (VStr "n/a") Float64.zero
     = Ok (py_eq (VInt 3) (VStr "n/a")).
Proof.
  split.
  - apply (proj1 (compare_numeric_raises_overflow_only ascii_builtins
                    (VInt (2 ^ 1024)) (VFloat Float64.zero) Float64.zero)
             OverflowError).
    vm_compute. reflexivity.
  - apply (proj2 (compare_numeric_raises_overflow_only ascii_builtins
                    (VInt 3) (VStr "n/a") Float64.zero)
             ValueError (or_introl eq_refl)).
    right. split; [eexists|]; vm_compute; reflexivity.
Defined.

Lemma set_add_all_raise_type (l acc : list value) (e : exn) :
  set_add_all l acc = Raise e -> e = TypeError.
Proof.
  revert acc. induction l as [|x l IH]; intros acc; simpl; [discriminate|].
  destruct (hashable x); [apply IH | by intros [=]].
Qed.

Lemma compare_list_raise (py : Builtins) (automated truth : value)
    (order_matters fuzzy : bool) (e : exn) :
  compare_list py automated truth order_matters fuzzy = Raise e ->
  e = TypeError.
Proof.
  unfold compare_list, py_set. destruct order_matters; [discriminate|].
  destruct fuzzy;
    repeat match goal with
      | |- context [set_add_all ?l ?acc] =>
          let H := fresh "H" in
          destruct (set_add_all l acc) eqn:H; cbn [mbind result_bind];
          [|apply set_add_all_raise_type in H; intros; by simplify_eq]
      end; discriminate.
Qed.

Lemma compare_list_nonneg (py : Builtins) (automated truth : value)
    (order_matters fuzzy : bool) (c : Counts) :
  compare_list py automated truth order_matters fuzzy = Ok c ->
  0 <= tp c /\ 0 <= fp c /\ 0 <= fn c /\ tn c = None.
Proof.
  unfold compare_list. destruct order_matters.
  - intros [= <-]. cbn [tp fp fn tn]. unfold len.
    split_and!; try lia; done.
  - destruct fuzzy;
      repeat match goal with
        | |- context [py_set ?l] =>
            destruct (py_set l); cbn [mbind result_bind]; [|discriminate]
        end;
      intros [= <-]; cbn [tp fp fn tn]; unfold len;
      (split_and!; try lia; done).
Qed.

Lemma compare_boolean_cells (automated truth : value) :
  exists n, tn (compare_boolean automated truth) = Some n
            /\ 0 <= tp (compare_boolean automated truth)
            /\ 0 <= fp (compare_boolean automated truth)
            /\ 0 <= fn (compare_boolean automated truth)
            /\ 0 <= n
            /\ tp (compare_boolean automated truth)
               + fp (compare_boolean automated truth)
               + fn (compare_boolean automated truth) + n = 1.
Proof.
  unfold compare_boolean.
  repeat match goal with |- context [if ?b then _ else _] => destruct b end;
    eexists; cbn [tp fp fn tn]; (split; [reflexivity|lia]).
Qed.

(** The counts of [compare_field] are never negative, and they hold the
    key [tn] exactly when the truth is a boolean. *)
Theorem compare_field_counts (py : Builtins) (truth : value) :
  forall (automated : value) (field_name : string) (config : Config)
         (c : Counts),
    compare_field py automated truth field_name config = Ok c ->
    0 <= tp c /\ 0 <= fp c /\ 0 <= fn c
    /\ (is_Some (tn c) <-> exists b, truth = VBool b).
Proof.
  induction truth as [|b|z|x|s|l IH|d IH] using value_induction;
    intros automated field_name config c H.
  - simpl in H. simplify_eq. unfold compare_none.
    destruct (_ || _); cbn; split_and!; try lia.
    all: split; [by intros [? ?] | by intros [? ?]].
  - simpl in H. simplify_eq.
    destruct (compare_boolean_cells automated (VBool b))
      as (n & Hn & ? & ? & ? & _).
    split_and!; try done. rewrite Hn. split; eauto.
  - simpl in H. destruct (compare_numeric _ _ _ _) as [m|]; [|discriminate].
    simpl in H. simplify_eq. destruct m; cbn; split_and!; try lia.
    all: split; [by intros [? ?] | by intros [? ?]].
  - simpl in H. destruct (compare_numeric _ _ _ _) as [m|]; [|discriminate].
    simpl in H. simplify_eq. destruct m; cbn; split_and!; try lia.
    all: split; [by intros [? ?] | by intros [? ?]].
  - simpl in H. simplify_eq. destruct (compare_string _ _ _ _); cbn;
      split_and!; try lia.
    all: split; [by intros [? ?] | by intros [? ?]].
  - simpl in H. apply compare_list_nonneg in H as (? & ? & ? & ->).
    split_and!; try done. split; [by intros [? ?] | by intros [? ?]].
  - rewrite compare_field_dict in H. unfold compare_nested in H.
    destruct (if truthy automated then automated else VDict [])
      as [| | | | | |ad]; try discriminate.
    apply (nested_loop_invariant
             (fun c => 0 <= tp c /\ 0 <= fp c /\ 0 <= fn c /\ tn c = None))
      in H.
    + destruct H as (? & ? & ? & ->). split_and!; try done.
      split; [by intros [? ?] | by intros [? ?]].
    + intros field tot fc Hf Hc (? & ? & ? & _).
      assert (0 <= tp fc /\ 0 <= fp fc /\ 0 <= fn fc) as (? & ? & ?).
      { destruct (assoc field d) as [x|] eqn:Hx.
        - apply assoc_elem_of in Hx.
          eapply Forall_forall in IH; [|exact Hx].
          destruct (IH _ _ _ _ Hc) as (? & ? & ? & _). done.
        - simpl in Hc. simplify_eq. unfold compare_none.
          destruct (_ || _); cbn; lia. }
      cbn. split_and!; try lia. done.
    + cbn. split_and!; try lia. done.
Qed.

Lemma compare_field_counts_witness :
  0 <= tp matched_counts /\ 0 <= fp matched_counts /\ 0 <= fn matched_counts
  /\ (is_Some (tn matched_counts) <-> exists b, VStr "x" = VBool b).
Proof.
  apply (compare_field_counts ascii_builtins (VStr "x") (VStr "x") "f"
           default_config matched_counts).
  reflexivity.
Defined.

Lemma compare_field_number_raise (py : Builtins)
    (automated truth : value) (field_name : string) (config : Config)
    (e : exn) :
  is_number truth = true ->
  compare_field py automated truth field_name config = Raise e ->
  e = OverflowError.
Proof.
  intros Hnum H.
  assert (compare_numeric py automated truth (numeric_tolerance config)
          = Raise e) as Hc.
  { destruct truth; try discriminate; simpl in H;
      destruct (compare_numeric _ _ _ _); simpl in H; by simplify_eq. }
  by apply compare_numeric_raise in Hc as [-> _].
Qed.

Lemma compare_field_list_raise (py : Builtins)
    (automated : value) (l : list value) (field_name : string)
    (config : Config) (e : exn) :
  compare_field py automated (VList l) field_name config = Raise e ->
  e = TypeError
  /\ list_order_matters config = false /\ fuzzy_strings config = false.
Proof.
  intros H. cbn [compare_field] in H.
  pose proof (compare_list_raise _ _ _ _ _ _ H) as ->.
  split; [done|].
  destruct (list_order_matters config) eqn:Ho.
  { unfold compare_list in H. discriminate. }
  destruct (fuzzy_strings config) eqn:Hf; [|done].
  unfold compare_list in H.
  destruct (py_set_strings_ok py true (as_list automated)) as [SA HSA].
  destruct (py_set_strings_ok py true (as_list (VList l))) as [ST HST].
  rewrite HSA, HST in H. discriminate.
Qed.

(** On a truth that is null, a boolean or a string, [compare_field]
    returns counts whatever the automated value is: for a null truth one
    true positive or one false positive and never a false negative, for a
    string one true positive or a false positive with a false negative,
    for a boolean one unit in one of the four cells.  On a number it can
    only raise an [OverflowError], on a list only a [TypeError], and that
    only when the list is compared as a set of values. *)
Theorem compare_field_leaf_errors (py : Builtins)
    (automated : value) (field_name : string) (config : Config) :
  (exists c, compare_field py automated VNone field_name config = Ok c
             /\ tp c + fp c = 1 /\ fn c = 0 /\ 0 <= tp c /\ 0 <= fp c)
  /\ (forall s,
        compare_field py automated (VStr s) field_name config
        = Ok matched_counts
        \/ compare_field py automated (VStr s) field_name config
           = Ok missed_counts)
  /\ (forall b, exists c n,
        compare_field py automated (VBool b) field_name config = Ok c
        /\ tn c = Some n /\ tp c + fp c + fn c + n = 1)
  /\ (forall truth e,
        is_number truth = true ->
        compare_field py automated truth field_name config = Raise e ->
        e = OverflowError)
  /\ (forall l e,
        compare_field py automated (VList l) field_name config = Raise e ->
        e = TypeError
        /\ list_order_matters config = false /\ fuzzy_strings config = false).
Proof.
  split_and!.
  - eexists. split; [reflexivity|]. unfold compare_none.
    destruct (_ || _); cbn; lia.
  - intros s. cbn [compare_field]. rewrite counts_of_match_cases.
    destruct (compare_string _ _ _ _); auto.
  - intros b. destruct (compare_boolean_cells automated (VBool b))
      as (n & Hn & _ & _ & _ & _ & Hsum).
    eexists _, n. split; [reflexivity|]. done.
  - intros truth e. apply compare_field_number_raise.
  - intros l e. apply compare_field_list_raise.
Qed.

Lemma compare_field_leaf_errors_witness :
  OverflowError = OverflowError.
Proof.
  apply (proj1 (proj2 (proj2 (proj2
           (compare_field_leaf_errors ascii_builtins (VInt (2 ^ 1024)) "f"
              default_config))))
           (VFloat Float64.zero) OverflowError eq_refl).
  vm_compute. reflexivity.
Defined.

(** [compare_field] never raises a [ValueError]: a string that is no
    number is caught by [compare_numeric], at every depth of a mapping. *)
Theorem compare_field_never_value_error (py : Builtins)
    (truth : value) :
  forall (automated : value) (field_name : string) (config : Config),
    compare_field py automated truth field_name config <> Raise ValueError.
Proof.
  induction truth as [|b|z|x|s|l IH|d IH] using value_induction;
    intros automated field_name config H; try discriminate H.
  - by apply compare_field_number_raise in H.
  - by apply compare_field_number_raise in H.
  - by apply compare_field_list_raise in H as [? _].
  - rewrite compare_field_dict in H. unfold compare_nested in H.
    destruct (if truthy automated then automated else VDict [])
      as [| | | | | |ad]; try discriminate.
    apply nested_loop_raise in H as (field & _ & H).
    destruct (assoc field d) as [x|] eqn:Hx; [|discriminate].
    apply assoc_elem_of in Hx. eapply Forall_forall in IH; [|exact Hx].
    by eapply IH.
Qed.

Lemma compare_field_never_value_error_witness :
  compare_field ascii_builtins (VStr "n/a") (VDict [("n"%string, VInt 3)]) "f"
    default_config
  <> Raise ValueError.
Proof. apply compare_field_never_value_error. Defined.

(** ** A value compared with itself *)

Lemma round_Z_not_nan (z : Z) : Float64.is_nan (Float64.round_Z z) = false.
Proof.
  unfold Float64.round_Z, binary_normalize, binary_round.
  destruct z as [|m|m]; [done|..];
    destruct (shl_align _ _ _) as [mz ez];
    by apply binary_round_aux_not_nan.
Qed.

Lemma within_tolerance_refl (x tolerance : float) :
  match x with S754_zero _ | S754_finite _ _ _ => True | _ => False end ->
  within_tolerance x x tolerance = true.
Proof.
  intros Hx. unfold within_tolerance.
  destruct (Float64.ltb Float64.zero tolerance) eqn:Htol.
  - assert (Float64.sub x x = Float64.zero) as ->.
    { destruct x as [[]| | |s m e]; try done.
      unfold Float64.sub, SFsub. by rewrite Z.sub_diag. }
    by apply ltb_leb.
  - unfold Float64.eqb. destruct x; try done; simpl;
      by rewrite bool_decide_true.
Qed.

Lemma hash_key_refl (x : value) :
  is_Some (hash_key x) -> hashable x = true /\ py_eq x x = true.
Proof.
  intros [k Hk].
  assert (hashable x = true) by by destruct x.
  split; [done|]. apply py_eq_hash_key; eauto.
Qed.

Lemma set_add_all_elements (l acc S : list value) :
  set_add_all l acc = Ok S -> forall x, x ∈ S -> x ∈ acc \/ x ∈ l.
Proof.
  revert acc. induction l as [|y l IH]; intros acc H x Hx; simpl in H.
  - simplify_eq. by left.
  - destruct (hashable y); [|discriminate].
    destruct (IH _ H x Hx) as [Hacc|Hl]; [|right; by right].
    destruct (py_in y acc); [by left|].
    apply elem_of_app in Hacc as [?|Hy]; [by left|].
    apply list_elem_of_singleton in Hy as ->. right; by left.
Qed.

Lemma set_diff_all_in (U T : list value) :
  Forall (fun x => py_in x T = true) U -> set_diff U T = [].
Proof.
  unfold set_diff. induction 1 as [|u U Hu HU IH]; [done|].
  rewrite filter_cons, decide_False by (rewrite Hu; done). exact IH.
Qed.

(** A set of values that equal themselves, taken from itself, leaves
    nothing. *)
Lemma py_set_self (l : list value) :
  Forall (fun x => is_Some (hash_key x)) l ->
  exists S, py_set l = Ok S /\ set_diff S S = [].
Proof.
  intros Hl.
  destruct (set_add_all_ok l []) as [S HS].
  { eapply Forall_impl; [exact Hl|]. intros x Hx. by apply hash_key_refl. }
  exists S. split; [done|].
  assert (Forall (fun x => py_in x S = true) S) as Hin.
  { apply Forall_forall. intros x Hx. apply py_in_true. exists x.
    split; [done|]. apply same_or_eq_refl, hash_key_refl.
    destruct (set_add_all_elements _ _ _ HS x Hx) as [Hnil|Hxl].
    - by apply elem_of_nil in Hnil.
    - by eapply Forall_forall in Hl. }
  by apply set_diff_all_in.
Qed.

Lemma well_behaved_dict (config : Config) (d : list (string * value)) :
  well_behaved config (VDict d) ->
  Forall (fun kv => well_behaved config kv.2) d.
Proof.
  induction d as [|kv d IH]; [constructor|].
  intros [Hkv Hd]. constructor; [done | by apply IH].
Qed.

(** A well-behaved value compared with itself gives no false positive
    and no false negative, at any depth. *)
Theorem compare_field_self (py : Builtins) (config : Config)
    (v : value) :
  forall field_name : string,
    well_behaved config v ->
    exists c, compare_field py v v field_name config = Ok c
              /\ fp c = 0 /\ fn c = 0.
Proof.
  induction v as [|b|z|x|s|l IH|d IH] using value_induction;
    intros field_name Hv.
  - eexists. split; [reflexivity|]. done.
  - eexists. split; [reflexivity|]. unfold compare_boolean.
    assert (py_eq (VBool b) (VBool b) = true) as -> by by destruct b.
    done.
  - simpl in Hv. cbn [compare_field].
    assert (exists x, py_float py (VInt z) = Ok x
                      /\ match x with
                         | S754_zero _ | S754_finite _ _ _ => True
                         | _ => False
                         end) as (x & Hx & Hfin).
    { simpl. pose proof (round_Z_not_nan z) as Hnan.
      destruct (Float64.round_Z z); try done; eauto. }
    rewrite (compare_numeric_floats _ _ _ x x) by done.
    cbn [mbind result_bind]. rewrite within_tolerance_refl by done.
    eexists. split; [reflexivity|]. done.
  - simpl in Hv. cbn [compare_field].
    rewrite (compare_numeric_floats _ _ _ x x) by done.
    cbn [mbind result_bind]. rewrite within_tolerance_refl by done.
    eexists. split; [reflexivity|]. done.
  - cbn [compare_field]. rewrite compare_string_refl.
    eexists. split; [reflexivity|]. done.
  - cbn [compare_field]. simpl in Hv.
    destruct (list_order_matters config) eqn:Ho.
    { rewrite compare_list_ordered_refl. eexists. split; [reflexivity|]. done. }
    unfold compare_list. cbn [as_list].
    assert (exists S,
               (if fuzzy_strings config
                then py_set ((fun x => VStr (normalize_string py x
                                               (fuzzy_strings config))) <$> l)
                else py_set l) = Ok S
               /\ set_diff S S = []) as (S & -> & HS).
    { destruct (fuzzy_strings config) eqn:Hf.
      - apply py_set_self, Forall_fmap, Forall_true. intros x. by eexists.
      - apply py_set_self. by destruct Hv as [?|[?|?]]. }
    cbn [mbind result_bind]. rewrite HS.
    eexists. split; [reflexivity|]. done.
  - apply well_behaved_dict in Hv.
    rewrite compare_field_dict.
    assert ((if truthy (VDict d) then VDict d else VDict []) = VDict d) as ->.
    { by destruct d. }
    unfold compare_nested.
    destruct (nested_loop_ok
                (fun c => fp c = 0 /\ fn c = 0) (fun c => fp c = 0 /\ fn c = 0)
                (fun field auto_val tv =>
                   compare_field py auto_val (default VNone tv) field config)
                d d (union_keys d d) zero_counts) as (c & Hc & Hfp & Hfn).
    + intros field _. unfold dict_get.
      destruct (assoc field d) as [x|] eqn:Hx; simpl.
      * apply assoc_elem_of in Hx.
        pose proof (proj1 (Forall_forall _ _) IH _ Hx) as IHx.
        pose proof (proj1 (Forall_forall _ _) Hv _ Hx) as Hvx.
        destruct (IHx field Hvx) as (c & Hc & ? & ?). eauto.
      * eexists. split; [reflexivity|]. done.
    + intros tot fc [? ?] [? ?]. cbn. lia.
    + done.
    + eauto.
Qed.

Lemma compare_field_self_witness :
  exists c,
    compare_field ascii_builtins
      (VDict [("name"%string, VStr "Apis"); ("count"%string, VInt 3);
              ("tags"%string, VList [VStr "a"; VStr "b"])])
      (VDict [("name"%string, VStr "Apis"); ("count"%string, VInt 3);
              ("tags"%string, VList [VStr "a"; VStr "b"])])
      "f" default_config = Ok c
    /\ fp c = 0 /\ fn c = 0.
Proof.
  apply (compare_field_self ascii_builtins default_config
           (VDict [("name"%string, VStr "Apis"); ("count"%string, VInt 3);
                   ("tags"%string, VList [VStr "a"; VStr "b"])]) "f").
  simpl. split_and!; try done.
  right. right. repeat constructor; by eexists.
Defined.

(** * Further properties of the evaluator *)

Lemma evaluate_loop_spec (py : Builtins)
    (ad td : list (string * value)) (config : Config) (fields : list string) :
  forall acc fm,
    evaluate_loop py ad td fields config acc = Ok fm ->
    exists entries,
      fm = acc ++ entries
      /\ entries.*1 = fields
      /\ Forall (fun e => evaluate_field py ad td e.1 config = Ok e.2)
           entries.
Proof.
  induction fields as [|field fields IH]; intros acc fm H; simpl in H.
  - simplify_eq. exists []. by rewrite app_nil_r.
  - destruct (evaluate_field py ad td field config) as [entry|] eqn:He;
      [|discriminate].
    simpl in H. destruct (IH _ _ H) as (entries & -> & Hk & Hall).
    exists ((field, entry) :: entries). rewrite <- app_assoc.
    split_and!; [done | by rewrite fmap_cons, Hk | by constructor].
Qed.

Lemma evaluate_loop_ok (py : Builtins)
    (ad td : list (string * value)) (config : Config) (fields : list string) :
  (forall field, field ∈ fields ->
     exists entry, evaluate_field py ad td field config = Ok entry) ->
  forall acc, exists fm, evaluate_loop py ad td fields config acc = Ok fm.
Proof.
  induction fields as [|field fields IH]; intros Hok acc; simpl; [eauto|].
  destruct (Hok field) as [entry ->]; [by left|]. simpl.
  apply IH. intros f Hf. apply Hok. by right.
Qed.

Lemma elem_of_union_keys {A B} (k : string) (a : list (string * A))
    (t : list (string * B)) :
  k ∈ union_keys a t <-> k ∈ keys a \/ k ∈ keys t.
Proof. unfold union_keys. by rewrite elem_of_remove_dups, elem_of_app. Qed.

Lemma evaluate_paper_not_annotated (py : Builtins)
    (paper_id : string) (automated truth : value) (config : Config)
    (ev : Evaluation) :
  evaluate_paper py paper_id automated truth config = Ok ev ->
  ev = NotAnnotated <-> truth = VNone.
Proof.
  intros H. unfold evaluate_paper in H.
  destruct truth as [| | | | | |td]; try (by destruct automated);
    [by simplify_eq |].
  destruct automated as [| | | | | |ad]; try discriminate.
  destruct (evaluate_loop py ad td (union_keys ad td) config [])
    as [fm|]; [|discriminate].
  simpl in H. simplify_eq. split; discriminate.
Qed.

(** What [evaluate_paper] returns when it returns.  The evaluation is
    [not_annotated] exactly when the truth is null.  Otherwise both sides
    are mappings, [field_metrics] has one entry for every key of either
    side and no other, each entry is what the loop body computes for its
    field, and the overall counts are the sums of the counts of the
    entries. *)
Theorem evaluate_paper_spec (py : Builtins) (paper_id : string)
    (automated truth : value) (config : Config) (ev : Evaluation) :
  evaluate_paper py paper_id automated truth config = Ok ev ->
  (ev = NotAnnotated <-> truth = VNone)
  /\ (forall fm ov,
        ev = Evaluated fm ov ->
        exists ad td,
          automated = VDict ad /\ truth = VDict td
          /\ NoDup fm.*1
          /\ (forall k, k ∈ fm.*1 <-> k ∈ keys ad \/ k ∈ keys td)
          /\ Forall (fun e => evaluate_field py ad td e.1 config = Ok e.2) fm
          /\ m_tp ov = sum_Z (fun e => m_tp (entry_metrics e.2)) fm
          /\ m_fp ov = sum_Z (fun e => m_fp (entry_metrics e.2)) fm
          /\ m_fn ov = sum_Z (fun e => m_fn (entry_metrics e.2)) fm).
Proof.
  intros H. unfold evaluate_paper in H.
  destruct truth as [| | | | | |td]; try (by destruct automated);
    [simplify_eq; split; [done | discriminate] |].
  destruct automated as [| | | | | |ad]; try discriminate.
  destruct (evaluate_loop py ad td (union_keys ad td) config [])
    as [fm|] eqn:Hloop; [|discriminate].
  simpl in H. simplify_eq. split; [split; discriminate|].
  intros fm' ov [= <- <-].
  destruct (evaluate_loop_spec _ _ _ _ _ _ _ Hloop) as (entries & -> & Hk & Hall).
  exists ad, td. simpl. rewrite Hk. split_and!; try done.
  - apply NoDup_remove_dups.
  - intros k. apply elem_of_union_keys.
Qed.

Lemma evaluate_paper_spec_witness :
  exists ad td,
    VDict [("a"%string, VStr "x")] = VDict ad
    /\ VDict [("a"%string, VStr "x"); ("b"%string, VNone)] = VDict td
    /\ NoDup ["a"%string; "b"%string]
    /\ (forall k, k ∈ ["a"%string; "b"%string] <-> k ∈ keys ad \/ k ∈ keys td)
    /\ Forall (fun e => evaluate_field ascii_builtins ad td e.1 default_config
                        = Ok e.2)
         [("a"%string, Simple (calculate_metrics 1 0 0));
          ("b"%string, Simple (calculate_metrics 1 0 0))]
    /\ 2 = sum_Z (fun e => m_tp (entry_metrics e.2))
             [("a"%string, Simple (calculate_metrics 1 0 0));
              ("b"%string, Simple (calculate_metrics 1 0 0))]
    /\ 0 = sum_Z (fun e => m_fp (entry_metrics e.2))
             [("a"%string, Simple (calculate_metrics 1 0 0));
              ("b"%string, Simple (calculate_metrics 1 0 0))]
    /\ 0 = sum_Z (fun e => m_fn (entry_metrics e.2))
             [("a"%string, Simple (calculate_metrics 1 0 0));
              ("b"%string, Simple (calculate_metrics 1 0 0))].
Proof.
  apply (proj2 (evaluate_paper_spec ascii_builtins "p"
                  (VDict [("a"%string, VStr "x")])
                  (VDict [("a"%string, VStr "x"); ("b"%string, VNone)])
                  default_config
                  (Evaluated
                     [("a"%string, Simple (calculate_metrics 1 0 0));
                      ("b"%string, Simple (calculate_metrics 1 0 0))]
                     (calculate_metrics 2 0 0))
                  ltac:(vm_compute; reflexivity))
           _ (calculate_metrics 2 0 0) eq_refl).
Defined.

(** A paper whose ground truth holds only strings and nulls, and no field
    named [records] on either side, is always evaluated, whatever the
    automated mapping holds. *)
Theorem evaluate_paper_flat_truth (py : Builtins)
    (paper_id : string) (ad td : list (string * value)) (config : Config) :
  (forall k v, (k, v) ∈ td -> v = VNone \/ exists s, v = VStr s) ->
  "records"%string ∉ keys ad -> "records"%string ∉ keys td ->
  exists fm ov,
    evaluate_paper py paper_id (VDict ad) (VDict td) config
    = Ok (Evaluated fm ov).
Proof.
  intros Hflat Ha Ht. unfold evaluate_paper.
  destruct (evaluate_loop_ok py ad td config (union_keys ad td)) with (acc := @nil (string * FieldEntry))
    as [fm ->]; [|simpl; eauto].
  intros field Hf.
  assert (field <> "records"%string) as Hne.
  { intros ->. apply elem_of_union_keys in Hf as [?|?]; done. }
  rewrite evaluate_field_other by done.
  assert (exists c, compare_field py (dict_get ad field) (dict_get td field)
                      field config = Ok c /\ tn c = None) as (c & -> & Hc).
  { unfold dict_get at 2. destruct (assoc field td) as [v|] eqn:Hv; simpl.
    - apply assoc_elem_of in Hv. destruct (Hflat _ _ Hv) as [->|[s ->]];
        eexists; (split; [reflexivity|]); [|done].
      unfold compare_none. by destruct (_ || _).
    - eexists. split; [reflexivity|]. unfold compare_none.
      by destruct (_ || _). }
  simpl. unfold calculate_metrics_kw. rewrite Hc. simpl. eauto.
Qed.

Lemma evaluate_paper_flat_truth_witness :
  exists fm ov,
    evaluate_paper ascii_builtins "p"
      (VDict [("species"%string, VInt 3); ("extra"%string, VList [VDict []])])
      (VDict [("species"%string, VStr "Apis"); ("site"%string, VNone)])
      default_config
    = Ok (Evaluated fm ov).
Proof.
  apply evaluate_paper_flat_truth.
  - intros k v Hin. repeat (apply elem_of_cons in Hin as [Hin|Hin]);
      [simplify_eq; right; eauto | simplify_eq; left; done
      | by apply elem_of_nil in Hin].
  - intros Hin. repeat (apply elem_of_cons in Hin as [Hin|Hin]);
      try discriminate. by apply elem_of_nil in Hin.
  - intros Hin. repeat (apply elem_of_cons in Hin as [Hin|Hin]);
      try discriminate. by apply elem_of_nil in Hin.
Defined.

(** * Further properties of the aggregator *)

Lemma assoc_is_Some {A} (k : string) (d : list (string * A)) :
  is_Some (assoc k d) <-> k ∈ keys d.
Proof.
  unfold keys. induction d as [|[k' x] d IH]; simpl.
  - split; [by intros [? ?] | by intros ?%elem_of_nil].
  - rewrite elem_of_cons. case_bool_decide as Hk.
    + split; [intros _; left; done | eauto].
    + rewrite IH. split; [auto | intros [?|?]; [by subst | done]].
Qed.

(** Reading a field after [accumulate]: the field that was added holds
    its former counts, or zero, plus the metrics; the others are as
    before. *)
Lemma accumulate_lookup (field f : string) (m : Metrics)
    (agg : list (string * Counts)) :
  assoc field (accumulate f m agg)
  = if bool_decide (f = field)
    then Some (add_counts (default zero_counts (assoc field agg))
                 (counts_of_metrics m))
    else assoc field agg.
Proof.
  induction agg as [|[k c] agg IH]; simpl.
  - by case_bool_decide.
  - destruct (decide (k = f)) as [->|Hkf].
    + rewrite (bool_decide_true (f = f)) by done. simpl.
      by case_bool_decide.
    + rewrite (bool_decide_false (k = f)) by done. simpl.
      rewrite IH. destruct (decide (k = field)) as [->|Hk].
      * rewrite (bool_decide_true (field = field)) by done.
        by rewrite bool_decide_false.
      * by rewrite (bool_decide_false (k = field)).
Qed.

Lemma accumulate_keys (f : string) (m : Metrics) (agg : list (string * Counts)) :
  keys (accumulate f m agg)
  = if bool_decide (f ∈ keys agg) then keys agg else keys agg ++ [f].
Proof.
  unfold keys. induction agg as [|[k c] agg IH]; [done|].
  cbn [accumulate]. rewrite (fmap_cons fst (k, c) agg). cbn [fst].
  destruct (decide (k = f)) as [->|Hkf].
  - rewrite (bool_decide_true (f = f)) by done.
    rewrite bool_decide_true by by left. by rewrite fmap_cons.
  - rewrite (bool_decide_false (k = f)) by done.
    rewrite fmap_cons. cbn [fst]. rewrite IH.
    destruct (decide (f ∈ agg.*1)) as [Hin|Hin].
    + rewrite !bool_decide_true; [done | by right | done].
    + rewrite !bool_decide_false; [done | | done].
      intros [?|?]%elem_of_cons; [by subst | done].
Qed.

Section FieldTotals.

Variable pc : Counts -> Z.
Variable pm : Metrics -> Z.
Hypothesis pc_add : forall c m,
  pc (add_counts c (counts_of_metrics m)) = pc c + pm m.
Hypothesis pc_zero : pc zero_counts = 0.
Variable field : string.

Let at_field (agg : list (string * Counts)) : Z :=
  pc (default zero_counts (assoc field agg)).

Lemma at_field_accumulate f m agg :
  at_field (accumulate f m agg)
  = at_field agg + (if bool_decide (f = field) then pm m else 0).
Proof using pc_add.
  unfold at_field. rewrite accumulate_lookup.
  case_bool_decide; simpl; [by rewrite pc_add | lia].
Qed.

Lemma at_field_accumulate_paper paper agg :
  at_field (accumulate_paper agg paper)
  = at_field agg
    + sum_Z (fun e => if bool_decide (e.1 = field)
                      then pm (entry_metrics e.2) else 0) paper.
Proof using pc_add.
  unfold accumulate_paper. revert agg.
  induction paper as [|e paper IH]; intros agg; simpl; [lia|].
  rewrite IH, at_field_accumulate. lia.
Qed.

Lemma at_field_accumulate_papers papers :
  at_field (accumulate_papers papers) = field_total pm field papers.
Proof using pc_add pc_zero.
  unfold accumulate_papers, field_total.
  assert (forall agg,
             at_field (foldl accumulate_paper agg papers)
             = at_field agg
               + sum_Z (fun paper =>
                          sum_Z (fun e => if bool_decide (e.1 = field)
                                          then pm (entry_metrics e.2) else 0)
                            paper) papers) as H.
  { induction papers as [|p papers IH]; intros agg; simpl; [lia|].
    rewrite IH, at_field_accumulate_paper. lia. }
  rewrite H. unfold at_field. simpl. rewrite pc_zero. lia.
Qed.

End FieldTotals.

Lemma accumulate_papers_keys (papers : list (list (string * FieldEntry))) :
  NoDup (keys (accumulate_papers papers))
  /\ forall k, k ∈ keys (accumulate_papers papers)
               <-> exists paper, paper ∈ papers /\ k ∈ keys paper.
Proof.
  unfold accumulate_papers.
  assert (forall agg,
             NoDup (keys agg) ->
             NoDup (keys (foldl accumulate_paper agg papers))
             /\ forall k, k ∈ keys (foldl accumulate_paper agg papers)
                          <-> k ∈ keys agg
                              \/ exists paper, paper ∈ papers /\ k ∈ keys paper)
    as H.
  { induction papers as [|p papers IH]; intros agg Hagg; simpl.
    - split; [done|]. intros k. split; [auto|].
      intros [?|(? & ?%elem_of_nil & _)]; done.
    - assert (NoDup (keys (accumulate_paper agg p))
              /\ forall k, k ∈ keys (accumulate_paper agg p)
                           <-> k ∈ keys agg \/ k ∈ keys p) as [Hnd Hk].
      { unfold accumulate_paper. clear IH. revert agg Hagg.
        induction p as [|e p IHp]; intros agg Hagg; simpl.
        - split; [done|]. intros k. split; [auto|].
          intros [?|?%elem_of_nil]; done.
        - destruct (IHp (accumulate e.1 (entry_metrics e.2) agg))
            as [Hnd Hk].
          + rewrite accumulate_keys. case_bool_decide as Hin; [done|].
            apply NoDup_app. split_and!; [done| |apply NoDup_singleton].
            intros x Hx ->%list_elem_of_singleton. done.
          + split; [done|]. intros k. rewrite Hk, accumulate_keys.
            rewrite (elem_of_cons (keys p)).
            case_bool_decide as Hin.
            * split; [tauto|]. intros [?|[->|?]]; auto.
            * rewrite elem_of_app, list_elem_of_singleton. tauto. }
      destruct (IH _ Hnd) as [Hnd' Hk']. split; [done|].
      intros k. rewrite Hk', Hk. split.
      + intros [[?|?]|(paper & ? & ?)]; [by left| |].
        * right. exists p. split; [by left | done].
        * right. exists paper. split; [by right | done].
      + intros [?|(paper & [->|?]%elem_of_cons & ?)]; [by left; left| |].
        * left. by right.
        * right. eauto. }
  destruct (H [] (NoDup_nil_2)) as [Hnd Hk]. split; [done|].
  intros k. rewrite Hk. split; [|auto].
  intros [?%elem_of_nil|?]; done.
Qed.

Lemma by_field_lookup (evals : list (string * Evaluation)) (field : string) :
  assoc field (by_field (aggregate_metrics evals))
  = (fun c => calculate_metrics (tp c) (fp c) (fn c))
      <$> assoc field (accumulate_papers (evaluated_papers evals)).
Proof.
  unfold aggregate_metrics. cbn [by_field].
  induction (accumulate_papers (evaluated_papers evals)) as [|[k c] agg IH];
    [done|].
  rewrite fmap_cons. simpl. case_bool_decide; [done | apply IH].
Qed.

Lemma by_field_keys (evals : list (string * Evaluation)) :
  keys (by_field (aggregate_metrics evals))
  = keys (accumulate_papers (evaluated_papers evals)).
Proof.
  unfold aggregate_metrics, keys. simpl.
  rewrite <- list_fmap_compose. done.
Qed.

(** The table [by_field] of the aggregate is a mapping: no field occurs
    twice.  It holds the fields that occur in an evaluated paper and no
    other, and the metrics of a field are those of the counts that the
    evaluated papers hold for this field, summed. *)
Theorem aggregate_by_field (evals : list (string * Evaluation))
    (field : string) :
  let aggregated := aggregate_metrics evals in
  let papers := evaluated_papers evals in
  NoDup (keys (by_field aggregated))
  /\ (is_Some (assoc field (by_field aggregated))
      <-> exists paper, paper ∈ papers /\ field ∈ keys paper)
  /\ (forall m,
        assoc field (by_field aggregated) = Some m ->
        m = calculate_metrics (field_total m_tp field papers)
              (field_total m_fp field papers)
              (field_total m_fn field papers)).
Proof.
  intros aggregated papers.
  destruct (accumulate_papers_keys papers) as [Hnd Hk].
  split_and!.
  - unfold aggregated. by rewrite by_field_keys.
  - rewrite assoc_is_Some. unfold aggregated. rewrite by_field_keys. apply Hk.
  - intros m. unfold aggregated. rewrite by_field_lookup.
    pose proof (at_field_accumulate_papers tp m_tp ltac:(done) ltac:(done)
                  field papers) as Htp.
    pose proof (at_field_accumulate_papers fp m_fp ltac:(done) ltac:(done)
                  field papers) as Hfp.
    pose proof (at_field_accumulate_papers fn m_fn ltac:(done) ltac:(done)
                  field papers) as Hfn.
    subst papers. cbv beta in Htp, Hfp, Hfn.
    destruct (assoc field (accumulate_papers (evaluated_papers evals)))
      as [c|]; [|done].
    simpl in Htp, Hfp, Hfn. intros [= <-]. by rewrite Htp, Hfp, Hfn.
Qed.

Lemma aggregate_by_field_witness :
  calculate_metrics 3 1 0
  = calculate_metrics
      (field_total m_tp "a"
         (evaluated_papers
            [("p1"%string,
              Evaluated [("a"%string, Simple (calculate_metrics 1 1 0))]
                (calculate_metrics 1 1 0));
             ("p2"%string, NotAnnotated);
             ("p3"%string,
              Evaluated [("a"%string, Simple (calculate_metrics 2 0 0))]
                (calculate_metrics 2 0 0))]))
      (field_total m_fp "a"
         (evaluated_papers
            [("p1"%string,
              Evaluated [("a"%string, Simple (calculate_metrics 1 1 0))]
                (calculate_metrics 1 1 0));
             ("p2"%string, NotAnnotated);
             ("p3"%string,
              Evaluated [("a"%string, Simple (calculate_metrics 2 0 0))]
                (calculate_metrics 2 0 0))]))
      (field_total m_fn "a"
         (evaluated_papers
            [("p1"%string,
              Evaluated [("a"%string, Simple (calculate_metrics 1 1 0))]
                (calculate_metrics 1 1 0));
             ("p2"%string, NotAnnotated);
             ("p3"%string,
              Evaluated [("a"%string, Simple (calculate_metrics 2 0 0))]
                (calculate_metrics 2 0 0))])).
Proof.
  apply (proj2 (proj2 (aggregate_by_field
           [("p1"%string,
             Evaluated [("a"%string, Simple (calculate_metrics 1 1 0))]
               (calculate_metrics 1 1 0));
            ("p2"%string, NotAnnotated);
            ("p3"%string,
             Evaluated [("a"%string, Simple (calculate_metrics 2 0 0))]
               (calculate_metrics 2 0 0))] "a"))).
  vm_compute. reflexivity.
Defined.

Lemma sum_Z_perm {A} (f : A -> Z) (l l' : list A) :
  l ≡ₚ l' -> sum_Z f l = sum_Z f l'.
Proof. induction 1; simpl; lia. Qed.

Lemma overall_of_totals (evals : list (string * Evaluation)) :
  overall (aggregate_metrics evals)
  = calculate_metrics (papers_total m_tp (evaluated_papers evals))
      (papers_total m_fp (evaluated_papers evals))
      (papers_total m_fn (evaluated_papers evals)).
Proof.
  unfold aggregate_metrics. cbn [overall]. f_equal.
  - apply (total_accumulate_papers tp m_tp); done.
  - apply (total_accumulate_papers fp m_fp); done.
  - apply (total_accumulate_papers fn m_fn); done.
Qed.

Lemma accumulate_papers_perm (papers papers' : list (list (string * FieldEntry)))
    (field : string) :
  papers ≡ₚ papers' ->
  (fun c => calculate_metrics (tp c) (fp c) (fn c))
    <$> assoc field (accumulate_papers papers)
  = (fun c => calculate_metrics (tp c) (fp c) (fn c))
      <$> assoc field (accumulate_papers papers').
Proof.
  intros HP.
  pose proof (fun pc pm H1 H2 ps =>
                at_field_accumulate_papers pc pm H1 H2 field ps) as Hat.
  pose proof (Hat tp m_tp ltac:(done) ltac:(done)) as Htp.
  pose proof (Hat fp m_fp ltac:(done) ltac:(done)) as Hfp.
  pose proof (Hat fn m_fn ltac:(done) ltac:(done)) as Hfn.
  clear Hat. cbv beta in Htp, Hfp, Hfn.
  assert (forall pm, field_total pm field papers
                     = field_total pm field papers') as Htot.
  { intros pm. unfold field_total. by rewrite (sum_Z_perm _ _ _ HP). }
  pose proof (Htp papers) as Htp1. pose proof (Htp papers') as Htp2.
  pose proof (Hfp papers) as Hfp1. pose proof (Hfp papers') as Hfp2.
  pose proof (Hfn papers) as Hfn1. pose proof (Hfn papers') as Hfn2.
  destruct (accumulate_papers_keys papers) as [_ Hk].
  destruct (accumulate_papers_keys papers') as [_ Hk'].
  specialize (Hk field). specialize (Hk' field).
  rewrite <- assoc_is_Some in Hk, Hk'.
  destruct (assoc field (accumulate_papers papers)) as [c|];
    destruct (assoc field (accumulate_papers papers')) as [c'|]; simpl in *.
  - f_equal. rewrite Htp1, Hfp1, Hfn1, Htp2, Hfp2, Hfn2. by rewrite !Htot.
  - destruct (proj1 Hk) as (paper & Hp & Hin); [by eexists|].
    rewrite HP in Hp. destruct (proj2 Hk') as [? ?]; [by eauto | done].
  - destruct (proj1 Hk') as (paper & Hp & Hin); [by eexists|].
    rewrite <- HP in Hp. destruct (proj2 Hk) as [? ?]; [by eauto | done].
  - done.
Qed.

(** The aggregate does not depend on the order of the papers: two
    collections that hold the same evaluations in any order have the same
    overall metrics, the same number of evaluated papers and the same
    metrics for every field.  A paper that is not annotated changes
    nothing. *)
Theorem aggregate_order_independent (evals evals' : list (string * Evaluation)) :
  (evals ≡ₚ evals' ->
   overall (aggregate_metrics evals) = overall (aggregate_metrics evals')
   /\ num_papers_evaluated (aggregate_metrics evals)
      = num_papers_evaluated (aggregate_metrics evals')
   /\ forall field,
        assoc field (by_field (aggregate_metrics evals))
        = assoc field (by_field (aggregate_metrics evals')))
  /\ (forall paper_id,
        aggregate_metrics ((paper_id, NotAnnotated) :: evals)
        = aggregate_metrics evals).
Proof.
  split; [|reflexivity].
  intros Hperm.
  assert (evaluated_papers evals ≡ₚ evaluated_papers evals') as HP.
  { unfold evaluated_papers. by rewrite Hperm. }
  split_and!.
  - rewrite !overall_of_totals. unfold papers_total.
    by rewrite !(sum_Z_perm _ _ _ HP).
  - unfold aggregate_metrics, len. cbn [num_papers_evaluated].
    by rewrite HP.
  - intros field. rewrite !by_field_lookup.
    by apply accumulate_papers_perm.
Qed.

Lemma aggregate_order_independent_witness :
  overall (aggregate_metrics
             [("p1"%string,
               Evaluated [("a"%string, Simple (calculate_metrics 1 1 0))]
                 (calculate_metrics 1 1 0));
              ("p2"%string,
               Evaluated [("b"%string, Simple (calculate_metrics 2 0 1))]
                 (calculate_metrics 2 0 1))])
  = overall (aggregate_metrics
               [("p2"%string,
                 Evaluated [("b"%string, Simple (calculate_metrics 2 0 1))]
                   (calculate_metrics 2 0 1));
                ("p1"%string,
                 Evaluated [("a"%string, Simple (calculate_metrics 1 1 0))]
                   (calculate_metrics 1 1 0))]).
Proof.
  apply (proj1 (aggregate_order_independent _ _)).
  apply perm_swap.
Defined.

(** The overall counts of the aggregate are the sums of the counts in its
    table [by_field]. *)
Theorem aggregate_overall_sums_by_field (evals : list (string * Evaluation)) :
  let aggregated := aggregate_metrics evals in
  m_tp (overall aggregated) = sum_Z (fun e => m_tp e.2) (by_field aggregated)
  /\ m_fp (overall aggregated) = sum_Z (fun e => m_fp e.2) (by_field aggregated)
  /\ m_fn (overall aggregated) = sum_Z (fun e => m_fn e.2) (by_field aggregated).
Proof.
  unfold aggregate_metrics. cbn [overall by_field m_tp m_fp m_fn calculate_metrics].
  generalize (accumulate_papers (evaluated_papers evals)). intros agg.
  split_and!; induction agg as [|e agg IH]; try done;
    rewrite fmap_cons; simpl in *; by rewrite IH.
Qed.

(** * Properties of the driver *)

Lemma evaluate_all_spec (py : Builtins) (config : Config)
    (papers : list (string * value)) :
  forall acc evs,
    evaluate_all py papers config acc = Ok evs ->
    exists new, evs = acc ++ new
                /\ Forall2 (evaluated_from py config) papers new.
Proof.
  induction papers as [|[paper_id paper_data] papers IH]; intros acc evs H;
    simpl in H.
  - simplify_eq. exists []. by rewrite app_nil_r.
  - destruct paper_data as [| | | | | |pd]; try discriminate.
    cbn [value_get mbind result_bind] in H.
    destruct (evaluate_paper _ _ _ _ _) as [ev|] eqn:Hev; [|discriminate].
    cbn [mbind result_bind] in H.
    destruct (IH _ _ H) as (new & -> & Hall).
    exists ((paper_id, ev) :: new). rewrite <- app_assoc. split; [done|].
    constructor; [|done]. split; [done|]. exists pd. split; [done|].
    exact Hev.
Qed.

Lemma evaluated_papers_cons (paper_id : string) (ev : Evaluation)
    (evs : list (string * Evaluation)) :
  evaluated_papers ((paper_id, ev) :: evs)
  = match ev with
    | NotAnnotated => evaluated_papers evs
    | Evaluated field_metrics _ => field_metrics :: evaluated_papers evs
    end.
Proof. by destruct ev. Qed.

Lemma count_annotated_evaluated (py : Builtins) (config : Config)
    (papers : list (string * value)) (evs : list (string * Evaluation))
    (n : Z) :
  Forall2 (evaluated_from py config) papers evs ->
  count_annotated papers = Ok n ->
  len (evaluated_papers evs) = n.
Proof.
  intros Hall. revert n.
  induction Hall as [|[pid pdata] [eid ev] papers evs Hp Hall IH]; intros n H.
  - simpl in H. by simplify_eq.
  - destruct Hp as (_ & pd & Hpd & Hev). simpl in Hpd, Hev. subst pdata.
    simpl in H. cbn [value_get mbind result_bind] in H.
    destruct (count_annotated papers) as [n'|]; [|discriminate].
    cbn [mbind result_bind] in H. simplify_eq.
    specialize (IH _ eq_refl).
    pose proof (evaluate_paper_not_annotated _ _ _ _ _ _ Hev) as Hna.
    change (dict_get_default pd "ground_truth" VNone)
      with (dict_get pd "ground_truth").
    rewrite evaluated_papers_cons.
    destruct ev as [|fm ov].
    + rewrite (proj1 Hna eq_refl). lia.
    + unfold len in *. cbn [length].
      destruct (dict_get pd "ground_truth") eqn:Ht;
        [by destruct (proj2 Hna)|..]; lia.
Qed.

(** What [main] has done when it finishes.  The annotations are a
    mapping whose [validation_papers] is a mapping of papers; [by_paper]
    holds, in the order of the papers, the evaluation of every paper, none
    skipped and none raised; the summary is the aggregate of these; and
    the number of evaluated papers is the number of papers with a ground
    truth, which is at least one. *)
Theorem main_finished (py : Builtins) (annotations : value)
    (config : Config) (output : Output) :
  main py annotations config = Ok (Finished output) ->
  exists ad papers annotated,
    annotations = VDict ad
    /\ dict_get_default ad "validation_papers" (VDict []) = VDict papers
    /\ Forall2 (evaluated_from py config) papers (by_paper output)
    /\ summary output = aggregate_metrics (by_paper output)
    /\ used_config output = config
    /\ count_annotated papers = Ok annotated
    /\ num_papers_evaluated (summary output) = annotated
    /\ 1 <= annotated.
Proof.
  intros H. unfold main in H.
  destruct annotations as [| | | | | |ad]; try discriminate.
  cbn [value_get mbind result_bind] in H.
  destruct (dict_get_default ad "validation_papers" (VDict []))
    as [| | | | | |papers] eqn:Hvp; try discriminate.
  cbn [py_len mbind result_bind] in H.
  destruct (count_annotated papers) as [annotated|] eqn:Hn; [|discriminate].
  cbn [mbind result_bind] in H.
  destruct (annotated =? 0) eqn:Hz; [discriminate|].
  destruct (evaluate_all py papers config []) as [evs|] eqn:Hevs;
    [|discriminate].
  cbn [mbind result_bind] in H. simplify_eq.
  destruct (evaluate_all_spec _ _ _ _ _ Hevs) as (new & -> & Hall).
  exists ad, papers, annotated. cbn [by_paper summary used_config app].
  split_and!; try done.
  - unfold aggregate_metrics. cbn [num_papers_evaluated].
    by eapply count_annotated_evaluated.
  - assert (0 <= annotated); [|lia].
    rewrite <- (count_annotated_evaluated _ _ _ _ _ Hall Hn). unfold len. lia.
Qed.

Lemma main_finished_witness :
  exists ad papers annotated,
    VDict [("validation_papers"%string,
            VDict [("p1"%string,
                    VDict [("automated_extraction"%string,
                            VDict [("a"%string, VStr "x")]);
                           ("ground_truth"%string,
                            VDict [("a"%string, VStr "x")])])])]
    = VDict ad
    /\ dict_get_default ad "validation_papers" (VDict []) = VDict papers
    /\ Forall2 (evaluated_from ascii_builtins default_config) papers
         [("p1"%string,
           Evaluated [("a"%string, Simple (calculate_metrics 1 0 0))]
             (calculate_metrics 1 0 0))]
    /\ aggregate_metrics
         [("p1"%string,
           Evaluated [("a"%string, Simple (calculate_metrics 1 0 0))]
             (calculate_metrics 1 0 0))]
       = aggregate_metrics
           [("p1"%string,
             Evaluated [("a"%string, Simple (calculate_metrics 1 0 0))]
               (calculate_metrics 1 0 0))]
    /\ default_config = default_config
    /\ count_annotated papers = Ok annotated
    /\ num_papers_evaluated
         (aggregate_metrics
            [("p1"%string,
              Evaluated [("a"%string, Simple (calculate_metrics 1 0 0))]
                (calculate_metrics 1 0 0))])
       = annotated
    /\ 1 <= annotated.
Proof.
  apply (main_finished ascii_builtins
           (VDict [("validation_papers"%string,
                    VDict [("p1"%string,
                            VDict [("automated_extraction"%string,
                                    VDict [("a"%string, VStr "x")]);
                                   ("ground_truth"%string,
                                    VDict [("a"%string, VStr "x")])])])])
           default_config
           {| summary := aggregate_metrics
                           [("p1"%string,
                             Evaluated
                               [("a"%string, Simple (calculate_metrics 1 0 0))]
                               (calculate_metrics 1 0 0))];
              by_paper := [("p1"%string,
                            Evaluated
                              [("a"%string, Simple (calculate_metrics 1 0 0))]
                              (calculate_metrics 1 0 0))];
              used_config := default_config |}).
  vm_compute. reflexivity.
Defined.

Lemma count_annotated_none (papers : list (string * value)) :
  Forall (fun p => exists pd, p.2 = VDict pd
                              /\ dict_get pd "ground_truth" = VNone) papers ->
  count_annotated papers = Ok 0.
Proof.
  induction 1 as [|[pid pdata] papers (pd & Hpd & Ht) _ IH]; [done|].
  simpl in Hpd. subst pdata. simpl. cbn [value_get mbind result_bind].
  change (dict_get_default pd "ground_truth" VNone)
    with (dict_get pd "ground_truth").
  rewrite Ht, IH. reflexivity.
Qed.

(** When no paper has a ground truth, because there is no paper or
    because every [ground_truth] is null or missing, [main] exits with
    status 1 before it evaluates anything: what the papers hold as
    automated extraction is not read. *)
Theorem main_exits_without_ground_truth (py : Builtins)
    (ad : list (string * value)) (papers : list (string * value))
    (config : Config) :
  dict_get_default ad "validation_papers" (VDict []) = VDict papers ->
  Forall (fun p => exists pd, p.2 = VDict pd
                              /\ dict_get pd "ground_truth" = VNone) papers ->
  main py (VDict ad) config = Ok (Exited 1).
Proof.
  intros Hvp Hnone. unfold main. cbn [value_get mbind result_bind].
  rewrite Hvp. cbn [py_len mbind result_bind].
  by rewrite (count_annotated_none _ Hnone).
Qed.

Lemma main_exits_without_ground_truth_witness :
  main ascii_builtins
    (VDict [("validation_papers"%string,
             VDict [("p1"%string,
                     VDict [("automated_extraction"%string, VInt 5);
                            ("ground_truth"%string, VNone)]);
                    ("p2"%string, VDict [])])])
    default_config
  = Ok (Exited 1).
Proof.
  apply (main_exits_without_ground_truth ascii_builtins _
           [("p1"%string,
             VDict [("automated_extraction"%string, VInt 5);
                    ("ground_truth"%string, VNone)]);
            ("p2"%string, VDict [])]).
  - reflexivity.
  - repeat constructor; eexists; (split; [reflexivity|]); reflexivity.
Defined.

(** * Properties of the metrics *)

Lemma binary_round_aux_sign (prec emax : Z) (sx : bool) (mx ex : Z)
    (lx : location) :
  0 <= mx ->
  match binary_round_aux prec emax sx mx ex lx with
  | S754_nan => False
  | S754_zero s | S754_infinity s | S754_finite s _ _ => s = sx
  end.
Proof.
  intros H. unfold binary_round_aux.
  pose proof (shr_fexp_nonneg prec emax mx ex lx H) as H1.
  destruct (shr_fexp prec emax mx ex lx) as [mrs' e']. simpl in H1.
  pose proof (shr_fexp_nonneg prec emax _ e' loc_Exact
                (round_nearest_even_nonneg _ (loc_of_shr_record mrs') H1)) as H2.
  destruct (shr_fexp prec emax _ e' loc_Exact) as [mrs'' e'']. simpl in H2.
  destruct (shr_m mrs'') as [|m|m]; [done| |lia].
  by destruct (e'' <=? emax - prec).
Qed.

Lemma ratio_nonneg (n d : Z) :
  0 <= n -> 0 < d -> Float64.leb Float64.zero (Float64.ratio n d) = true.
Proof.
  intros Hn Hd. unfold Float64.ratio.
  destruct n as [|n|n]; [done| |lia].
  pose proof (SFdiv_core_binary_nonneg Float64.prec Float64.emax
                (Z.abs (Zpos n)) 0 d 0 ltac:(lia) Hd) as Hq.
  destruct (SFdiv_core_binary _ _ _ 0 d 0) as [[q e] l]. simpl in Hq.
  pose proof (binary_round_aux_sign Float64.prec Float64.emax
                (Zpos n <? 0) q e l Hq) as Hs.
  destruct (binary_round_aux _ _ _ q e l); try done; by subst.
Qed.

(** The ratios of [calculate_metrics] for counts that are not negative,
    as the counts of the comparator are.  Precision and recall are never a
    NaN and never negative; a denominator of zero gives 0.0 and no
    division; and for [tp = 0] precision, recall and F1 are all 0.0. *)
Theorem calculate_metrics_ratios (tp fp fn : Z) :
  0 <= tp -> 0 <= fp -> 0 <= fn ->
  let m := calculate_metrics tp fp fn in
  Float64.is_nan (precision m) = false
  /\ Float64.is_nan (recall m) = false
  /\ Float64.leb Float64.zero (precision m) = true
  /\ Float64.leb Float64.zero (recall m) = true
  /\ (tp + fp = 0 -> precision m = Float64.zero)
  /\ (tp + fn = 0 -> recall m = Float64.zero)
  /\ (tp = 0 ->
      precision m = Float64.zero /\ recall m = Float64.zero
      /\ f1 m = Float64.zero).
Proof.
  intros Htp Hfp Hfn m.
  destruct (calculate_metrics_not_nan tp fp fn) as [Hp Hr].
  split_and!; try done.
  - unfold m, calculate_metrics. cbn [precision].
    case_match; try done; apply ratio_nonneg; lia.
  - unfold m, calculate_metrics. cbn [recall].
    case_match; try done; apply ratio_nonneg; lia.
  - intros H. unfold m, calculate_metrics. cbn [precision]. by rewrite H.
  - intros H. unfold m, calculate_metrics. cbn [recall]. by rewrite H.
  - intros ->. unfold m, calculate_metrics. cbn [precision recall f1].
    assert (forall d, (if 0 <? 0 + d then Float64.ratio 0 (0 + d)
                       else Float64.zero) = Float64.zero) as Hz.
    { intros d. by destruct (0 <? 0 + d). }
    by rewrite !Hz.
Qed.

Lemma calculate_metrics_ratios_witness :
  let m := calculate_metrics 0 2 3 in
  Float64.is_nan (precision m) = false
  /\ Float64.is_nan (recall m) = false
  /\ Float64.leb Float64.zero (precision m) = true
  /\ Float64.leb Float64.zero (recall m) = true
  /\ (0 + 2 = 0 -> precision m = Float64.zero)
  /\ (0 + 3 = 0 -> recall m = Float64.zero)
  /\ (0 = 0 ->
      precision m = Float64.zero /\ recall m = Float64.zero
      /\ f1 m = Float64.zero).
Proof. apply (calculate_metrics_ratios 0 2 3); lia. Defined.

(** * Missing values and strings *)

(** A field that the automated mapping does not hold, or holds as null,
    is compared as [None].  Against a string or a number of the truth it
    counts as one false positive and one false negative, not as a false
    negative alone; against [True] as one false negative; against [False]
    as a true negative; and against a mapping as the empty mapping.  A
    field that only the automated mapping holds is compared with a null
    truth: it counts as one false positive unless it is null, the empty
    string or the empty list. *)
Theorem missing_value_counts (py : Builtins) (field_name : string)
    (config : Config) :
  (forall s,
      compare_field py VNone (VStr s) field_name config = Ok missed_counts)
  /\ (forall truth t,
        is_number truth = true -> py_float py truth = Ok t ->
        compare_field py VNone truth field_name config = Ok missed_counts)
  /\ compare_field py VNone (VBool true) field_name config
     = Ok {| tp := 0; fp := 0; fn := 1; tn := Some 0 |}
  /\ compare_field py VNone (VBool false) field_name config
     = Ok {| tp := 0; fp := 0; fn := 0; tn := Some 1 |}
  /\ (forall td,
        compare_field py VNone (VDict td) field_name config
        = compare_field py (VDict []) (VDict td) field_name config)
  /\ (forall automated,
        automated <> VNone -> automated <> VStr EmptyString ->
        automated <> VList [] ->
        compare_field py automated VNone field_name config
        = Ok {| tp := 0; fp := 1; fn := 0; tn := None |}).
Proof.
  split_and!; try reflexivity.
  - intros truth t Hnum Ht.
    destruct truth; try discriminate; cbn [compare_field];
      unfold compare_numeric, float_or_none; rewrite Ht; reflexivity.
  - intros automated H1 H2 H3. cbn [compare_field]. unfold compare_none.
    assert (py_eq automated (VStr EmptyString) = false) as ->.
    { destruct automated; try done. simpl. apply bool_decide_false.
      congruence. }
    assert (py_eq automated (VList []) = false) as ->.
    { destruct automated as [| | | | |l|]; try done. by destruct l. }
    by destruct automated.
Qed.

Lemma missing_value_counts_witness :
  compare_field ascii_builtins VNone (VFloat (float_lit "2.5")) "f" default_config
  = Ok missed_counts
  /\ compare_field ascii_builtins (VInt 0) VNone "f" default_config
     = Ok {| tp := 0; fp := 1; fn := 0; tn := None |}.
Proof.
  split.
  - apply (proj1 (proj2 (missing_value_counts ascii_builtins "f" default_config))
             (VFloat (float_lit "2.5")) (float_lit "2.5")); reflexivity.
  - apply (proj2 (proj2 (proj2 (proj2 (proj2
             (missing_value_counts ascii_builtins "f" default_config)))))
             (VInt 0)); discriminate.
Defined.

(** [compare_string] is an equivalence on values, for exact and for
    fuzzy comparison alike. *)
Theorem compare_string_equivalence (py : Builtins) (fuzzy : bool) :
  (forall x, compare_string py x x fuzzy = true)
  /\ (forall x y,
        compare_string py x y fuzzy = compare_string py y x fuzzy)
  /\ (forall x y z,
        compare_string py x y fuzzy = true ->
        compare_string py y z fuzzy = true ->
        compare_string py x z fuzzy = true).
Proof.
  split_and!.
  - intros x. apply compare_string_refl.
  - intros x y. unfold compare_string.
    destruct x, y; try reflexivity; apply bool_decide_ext; split; congruence.
  - intros x y z. unfold compare_string.
    destruct x, y, z; try done;
      rewrite !bool_decide_eq_true; congruence.
Qed.

Lemma compare_string_equivalence_witness :
  compare_string ascii_builtins (VStr "A  b") (VStr "a B ") true = true.
Proof.
  apply (proj2 (proj2 (compare_string_equivalence ascii_builtins true))
           (VStr "A  b") (VStr " a b") (VStr "a B ")); reflexivity.
Defined.

(** * Normalization of strings *)

Lemma string_app_nil (t : string) : String.app EmptyString t = t.
Proof. reflexivity. Qed.

Lemma string_app_cons (c : ascii) (s t : string) :
  String.app (String c s) t = String c (String.app s t).
Proof. reflexivity. Qed.

Lemma string_app_empty_r (s : string) : String.app s EmptyString = s.
Proof.
  induction s as [|c s IH]; [done|]. by rewrite string_app_cons, IH.
Qed.

Lemma rev_app_rev_app (w a b : string) :
  String.rev_app (String.rev_app w a) b = String.rev_app a (String.app w b).
Proof.
  revert a b. induction w as [|c w IH]; intros a b; [done|].
  rewrite string_app_cons. cbn [String.rev_app]. by rewrite IH.
Qed.

Lemma rev_rev (w : string) : String.rev (String.rev w) = w.
Proof.
  unfold String.rev. rewrite rev_app_rev_app. cbn [String.rev_app].
  apply string_app_empty_r.
Qed.

Lemma all_chars_rev_app (P : ascii -> bool) (a b : string) :
  all_chars P (String.rev_app a b) = all_chars P a && all_chars P b.
Proof.
  revert b. induction a as [|c a IH]; intros b; simpl; [done|].
  rewrite IH. simpl. destruct (P c), (all_chars P a); done.
Qed.

Lemma rev_app_not_empty (a b : string) :
  b <> EmptyString -> String.rev_app a b <> EmptyString.
Proof.
  revert b. induction a as [|c a IH]; intros b Hb; simpl; [done|].
  by apply IH.
Qed.

Lemma all_chars_app (P : ascii -> bool) (a b : string) :
  all_chars P (String.app a b) = all_chars P a && all_chars P b.
Proof.
  induction a as [|c a IH]; [done|].
  rewrite string_app_cons. simpl. rewrite IH. by destruct (P c).
Qed.

Lemma all_chars_impl (P Q : ascii -> bool) (s : string) :
  (forall c, P c = true -> Q c = true) ->
  all_chars P s = true -> all_chars Q s = true.
Proof.
  intros HPQ. induction s as [|c s IH]; simpl; [done|].
  intros [Hc Hs]%andb_true_iff. by rewrite (HPQ c Hc), IH.
Qed.

(** [split_go] reads a word that is followed by [s] into its current
    run. *)
Lemma split_go_word (c : ascii) (w : string) (cur : option string)
    (s : string) :
  all_chars (fun c => negb (Str.is_space c)) (String c w) = true ->
  Str.split_go cur (String.app (String c w) s)
  = Str.split_go
      (Some (String.rev_app (String c w) (default EmptyString cur))) s.
Proof.
  revert c cur. induction w as [|c' w IH]; intros c cur Hw;
    rewrite string_app_cons; simpl in Hw;
    apply andb_true_iff in Hw as [Hc Hw]; apply negb_true_iff in Hc;
    cbn [Str.split_go]; rewrite Hc.
  - by rewrite string_app_nil.
  - by rewrite (IH c' _ Hw).
Qed.

(** Splitting the words joined by single spaces gives the words back. *)
Lemma split_join (ws : list string) :
  Forall is_word ws -> Str.split (Str.join " " ws) = ws.
Proof.
  unfold Str.split. induction 1 as [|w ws [Hne Hw] Hws IH]; [done|].
  destruct w as [|c w]; [done|].
  destruct ws as [|w' ws].
  - cbn [Str.join].
    rewrite <- (string_app_empty_r (String c w)) at 1.
    rewrite split_go_word by done. simpl default.
    change (Str.split_go (Some (String.rev_app (String c w) EmptyString))
              EmptyString)
      with [String.rev (String.rev (String c w))].
    by rewrite rev_rev.
  - change (Str.join " " (String c w :: w' :: ws))
      with (String.app (String c w)
              (String " "%char (Str.join " " (w' :: ws)))).
    rewrite split_go_word by done. simpl default.
    change (Str.split_go (Some (String.rev_app (String c w) EmptyString))
              (String " "%char (Str.join " " (w' :: ws))))
      with (String.rev (String.rev (String c w))
              :: Str.split_go None (Str.join " " (w' :: ws))).
    by rewrite rev_rev, IH.
Qed.

(** The words that [split] yields are words, and their characters pass
    every test that the characters of the string pass. *)
Lemma split_go_words (R : ascii -> bool) (s : string) :
  all_chars R s = true ->
  forall cur,
    match cur with
    | Some acc => acc <> EmptyString
                  /\ all_chars (fun c => negb (Str.is_space c)) acc = true
                  /\ all_chars R acc = true
    | None => True
    end ->
    Forall (fun w => is_word w /\ all_chars R w = true) (Str.split_go cur s).
Proof.
  induction s as [|c s IH]; intros Hs cur Hcur; simpl.
  - destruct cur as [acc|]; [|constructor].
    destruct Hcur as (Hne & Hsp & HR).
    constructor; [|constructor]. unfold String.rev, is_word.
    rewrite !all_chars_rev_app, Hsp, HR.
    split_and!; try done. destruct acc; [done|]. simpl.
    by apply rev_app_not_empty.
  - simpl in Hs. apply andb_true_iff in Hs as [Hc Hs].
    destruct (Str.is_space c) eqn:Hsc.
    + destruct cur as [acc|]; [|by apply IH].
      destruct Hcur as (Hne & Hsp & HR).
      constructor; [|by apply IH]. unfold String.rev, is_word.
      rewrite !all_chars_rev_app, Hsp, HR.
      split_and!; try done. destruct acc; [done|]. simpl.
      by apply rev_app_not_empty.
    + apply IH; [done|]. simpl. rewrite Hsc, Hc. simpl.
      destruct cur as [acc|]; simpl; [|done].
      destruct Hcur as (Hne & Hsp & HR). by rewrite Hsp, HR.
Qed.

Lemma lower_char_idempotent (c : ascii) :
  Str.lower_char (Str.lower_char c) = Str.lower_char c.
Proof. destruct c as [[] [] [] [] [] [] [] []]; reflexivity. Qed.

Lemma all_chars_lower (s : string) : all_chars is_lowered (Str.lower s) = true.
Proof.
  induction s as [|c s IH]; simpl; [done|]. rewrite IH.
  unfold is_lowered. by rewrite bool_decide_true by apply lower_char_idempotent.
Qed.

Lemma lower_lowered (s : string) :
  all_chars is_lowered s = true -> Str.lower s = s.
Proof.
  induction s as [|c s IH]; simpl; [done|].
  intros [Hc Hs]%andb_true_iff. apply bool_decide_eq_true in Hc.
  by rewrite Hc, IH.
Qed.

Lemma all_chars_join (P : ascii -> bool) (ws : list string) :
  P " "%char = true ->
  Forall (fun w => all_chars P w = true) ws ->
  all_chars P (Str.join " " ws) = true.
Proof.
  intros Hsp. induction 1 as [|w ws Hw Hws IH]; [done|].
  destruct ws as [|w' ws]; [done|].
  change (Str.join " " (w :: w' :: ws))
    with (String.app w (String " "%char (Str.join " " (w' :: ws)))).
  rewrite all_chars_app, Hw. cbn [andb all_chars]. by rewrite Hsp, IH.
Qed.

Lemma is_ascii_all_chars (s : string) :
  Str.is_ascii s = all_chars (fun c => Str.code c <? 128) s.
Proof. induction s as [|c s IH]; simpl; [done | by rewrite IH]. Qed.

Lemma lower_char_ascii (c : ascii) :
  (Str.code c <? 128) = true -> (Str.code (Str.lower_char c) <? 128) = true.
Proof. destruct c as [[] [] [] [] [] [] [] []]; done. Qed.

Lemma is_ascii_lower (s : string) :
  Str.is_ascii s = true -> Str.is_ascii (Str.lower s) = true.
Proof.
  induction s as [|c s IH]; simpl; [done|].
  intros [Hc Hs]%andb_true_iff. by rewrite lower_char_ascii, IH.
Qed.

Lemma all_chars_and (P Q : ascii -> bool) (s : string) :
  all_chars (fun c => P c && Q c) s = all_chars P s && all_chars Q s.
Proof.
  induction s as [|c s IH]; simpl; [done|]. rewrite IH.
  destruct (P c), (Q c), (all_chars P s); done.
Qed.

(** The fuzzy normalization of an ASCII text is a normal form:
    normalizing it again changes nothing.  It is an ASCII text made of
    words in lower case, separated by single spaces, and the text compares
    equal to its normalization under fuzzy comparison. *)
Theorem normalize_string_idempotent (py : Builtins) (s : string) :
  Str.is_ascii s = true ->
  let n := normalize_string py (VStr s) true in
  Str.is_ascii n = true
  /\ normalize_string py (VStr n) true = n
  /\ (exists ws, n = Str.join " " ws
                 /\ Forall (fun w => is_word w
                                     /\ all_chars is_lowered w = true) ws)
  /\ compare_string py (VStr s) (VStr n) true = true.
Proof.
  intros Hs n.
  pose proof (is_ascii_lower s Hs) as Hls.
  assert (normalize_string py (VStr s) true
          = Str.join " " (Str.split (Str.lower s))) as Hnorm.
  { cbn [normalize_string]. unfold str_lower, str_split. by rewrite Hs, Hls. }
  subst n. rewrite Hnorm.
  assert (all_chars (fun c => is_lowered c && (Str.code c <? 128))
            (Str.lower s) = true) as Hall.
  { by rewrite all_chars_and, all_chars_lower, <- is_ascii_all_chars, Hls. }
  pose proof (split_go_words _ (Str.lower s) Hall None I) as Hws.
  fold (Str.split (Str.lower s)) in Hws.
  set (ws := Str.split (Str.lower s)) in *.
  assert (Forall (fun w => is_word w /\ all_chars is_lowered w = true
                           /\ Str.is_ascii w = true) ws) as Hws'.
  { eapply Forall_impl; [exact Hws|]. intros w [Hw HR].
    rewrite all_chars_and in HR. apply andb_true_iff in HR as [? ?].
    by rewrite is_ascii_all_chars. }
  assert (Str.is_ascii (Str.join " " ws) = true) as Hascii.
  { rewrite is_ascii_all_chars. apply all_chars_join; [done|].
    eapply Forall_impl; [exact Hws'|]. intros w (_ & _ & Hw).
    by rewrite <- is_ascii_all_chars. }
  assert (Str.lower (Str.join " " ws) = Str.join " " ws) as Hlow.
  { apply lower_lowered, all_chars_join; [done|].
    eapply Forall_impl; [exact Hws'|]. by intros w (_ & ? & _). }
  assert (Str.split (Str.join " " ws) = ws) as Hsplit.
  { apply split_join. eapply Forall_impl; [exact Hws'|]. by intros w [? _]. }
  assert (normalize_string py (VStr (Str.join " " ws)) true
          = Str.join " " ws) as Hidem.
  { cbn [normalize_string]. unfold str_lower, str_split.
    by rewrite Hascii, Hlow, Hascii, Hsplit. }
  split_and!.
  - done.
  - done.
  - exists ws. split; [done|].
    eapply Forall_impl; [exact Hws'|]. by intros w (? & ? & _).
  - unfold compare_string. rewrite Hnorm, Hidem. by apply bool_decide_eq_true.
Qed.

Lemma normalize_string_idempotent_witness :
  let n := normalize_string ascii_builtins (VStr "  Apis   MELLIFERA ") true in
  Str.is_ascii n = true
  /\ normalize_string ascii_builtins (VStr n) true = n
  /\ (exists ws, n = Str.join " " ws
                 /\ Forall (fun w => is_word w
                                     /\ all_chars is_lowered w = true) ws)
  /\ compare_string ascii_builtins (VStr "  Apis   MELLIFERA ") (VStr n) true
     = true.
Proof.
  apply (normalize_string_idempotent ascii_builtins "  Apis   MELLIFERA ").
  reflexivity.
Defined.

(** * Properties of the annotation template *)

Lemma dict_set_keys (d : list (string * value)) (k : string) (v : value) :
  NoDup (keys d) ->
  NoDup (keys (Prepare.dict_set d k v))
  /\ forall k', k' ∈ keys (Prepare.dict_set d k v) <-> k' = k \/ k' ∈ keys d.
Proof.
  unfold keys. induction d as [|[k0 v0] d IH]; intros Hnd.
  - simpl. split; [apply NoDup_singleton|].
    intros k'. rewrite list_elem_of_singleton. split; [auto|].
    intros [?|?%elem_of_nil]; done.
  - rewrite fmap_cons in Hnd. cbn [fst] in Hnd.
    apply NoDup_cons in Hnd as [Hk0 Hnd].
    cbn [Prepare.dict_set]. case_bool_decide as Hk.
    + subst k0. rewrite !fmap_cons. cbn [fst].
      split; [by apply NoDup_cons|].
      intros k'. rewrite !elem_of_cons. tauto.
    + destruct (IH Hnd) as [Hnd' Hin]. rewrite !fmap_cons. cbn [fst].
      split.
      * apply NoDup_cons. split; [|done].
        rewrite Hin. intros [?|?]; done.
      * intros k'. rewrite !elem_of_cons, Hin. tauto.
Qed.

Lemma dict_set_lookup (d : list (string * value)) (k k' : string)
    (v : value) :
  assoc k' (Prepare.dict_set d k v)
  = if bool_decide (k' = k) then Some v else assoc k' d.
Proof.
  induction d as [|[k0 v0] d IH]; simpl.
  - repeat case_bool_decide; by simplify_eq.
  - destruct (bool_decide (k0 = k)) eqn:H0; simpl; [|rewrite IH];
      repeat case_bool_decide; simplify_eq; done.
Qed.

Lemma paper_entry_fresh (result entry : value) :
  Prepare.paper_entry result = inr entry ->
  exists r, result = VDict r /\ fresh_entry r entry.
Proof.
  destruct result as [| | | | | |r]; try discriminate.
  intros [= <-]. exists r. split; [done|].
  eexists. split; [reflexivity|]. split; reflexivity.
Qed.

Lemma dict_set_Forall (P : string * value -> Prop)
    (d : list (string * value)) (k : string) (v : value) :
  P (k, v) -> Forall P d -> Forall P (Prepare.dict_set d k v).
Proof.
  intros Hv. induction 1 as [|[k0 v0] d H0 Hd IH]; simpl.
  - by constructor.
  - case_bool_decide; by constructor.
Qed.

Lemma fill_spec (results : value) (sampled_ids : list string) :
  forall papers papers',
    NoDup (keys papers) ->
    Prepare.fill sampled_ids results papers = inr papers' ->
    NoDup (keys papers')
    /\ (forall k, k ∈ keys papers' <-> k ∈ keys papers \/ k ∈ sampled_ids)
    /\ (forall k,
          k ∈ sampled_ids ->
          exists r entry,
            Prepare.getitem results k = inr (VDict r)
            /\ assoc k papers' = Some entry
            /\ fresh_entry r entry)
    /\ (forall k, k ∉ sampled_ids -> assoc k papers' = assoc k papers).
Proof.
  induction sampled_ids as [|paper_id ids IH]; intros papers papers' Hnd H.
  - simpl in H. simplify_eq. split_and!; try done.
    + intros k. split; [auto|]. intros [?|?%elem_of_nil]; done.
    + intros k ?%elem_of_nil. done.
  - cbn [Prepare.fill] in H.
    destruct (Prepare.getitem results paper_id) as [|result] eqn:Hget;
      [discriminate|].
    destruct (Prepare.paper_entry result) as [|entry] eqn:Hentry;
      [discriminate|].
    destruct (paper_entry_fresh _ _ Hentry) as (r & -> & Hfresh).
    destruct (dict_set_keys papers paper_id entry Hnd) as [Hnd1 Hk1].
    destruct (IH _ _ Hnd1 H) as (Hnd' & Hk' & Hin & Hout).
    split_and!.
    + done.
    + intros k. rewrite Hk', Hk1, elem_of_cons. tauto.
    + intros k Hk. destruct (decide (k ∈ ids)) as [Hids|Hids].
      * by apply Hin.
      * apply elem_of_cons in Hk as [->|?]; [|done].
        exists r, entry. split_and!; try done.
        rewrite (Hout _ Hids), dict_set_lookup. by rewrite bool_decide_true.
    + intros k Hk. apply not_elem_of_cons in Hk as [Hne Hk].
      rewrite (Hout _ Hk), dict_set_lookup. by rewrite bool_decide_false.
Qed.

Lemma fill_no_truth (results : value) (sampled_ids : list string) :
  forall papers papers',
    Forall (fun p => exists pd, p.2 = VDict pd
                                /\ dict_get pd "ground_truth" = VNone) papers ->
    Prepare.fill sampled_ids results papers = inr papers' ->
    Forall (fun p => exists pd, p.2 = VDict pd
                                /\ dict_get pd "ground_truth" = VNone) papers'.
Proof.
  induction sampled_ids as [|paper_id ids IH]; intros papers papers' Hall H.
  - simpl in H. by simplify_eq.
  - cbn [Prepare.fill] in H.
    destruct (Prepare.getitem results paper_id) as [|result]; [discriminate|].
    destruct (Prepare.paper_entry result) as [|entry] eqn:Hentry;
      [discriminate|].
    destruct (paper_entry_fresh _ _ Hentry) as (r & -> & pd & -> & _ & Ht).
    eapply IH; [|exact H]. apply dict_set_Forall; [|done].
    by exists pd.
Qed.

Lemma fill_total (d : list (string * value)) (sampled_ids : list string) :
  (forall k, k ∈ sampled_ids -> exists r, assoc k d = Some (VDict r)) ->
  forall papers, exists papers',
    Prepare.fill sampled_ids (VDict d) papers = inr papers'.
Proof.
  induction sampled_ids as [|paper_id ids IH]; intros Hall papers.
  - by eexists.
  - cbn [Prepare.fill Prepare.getitem].
    destruct (Hall paper_id) as [r ->]; [by left|].
    cbn [Prepare.paper_entry]. apply IH.
    intros k Hk. apply Hall. by right.
Qed.

Lemma fill_key_error (results : value) (sampled_ids : list string)
    (key : string) :
  forall papers,
    Prepare.fill sampled_ids results papers = inl (Prepare.KeyError key) ->
    key ∈ sampled_ids
    /\ exists d, results = VDict d /\ assoc key d = None.
Proof.
  induction sampled_ids as [|paper_id ids IH]; intros papers H;
    [discriminate|].
  cbn [Prepare.fill] in H.
  destruct (Prepare.getitem results paper_id) as [e|result] eqn:Hget.
  - simplify_eq. unfold Prepare.getitem in Hget.
    destruct results as [| | | | | |d]; try discriminate.
    destruct (assoc paper_id d) eqn:Hd; simplify_eq.
    split; [by left|]. by exists d.
  - destruct (Prepare.paper_entry result) as [e|entry] eqn:Hentry.
    + simplify_eq. destruct result; discriminate.
    + destruct (IH _ H) as [Hin Hd]. split; [by right | done].
Qed.

(** What [create_annotation_template] returns.  The schema is a mapping;
    the template holds the instructions and, under [validation_papers],
    one entry for every sampled paper and no other, an identifier that is
    sampled twice having one; every sampled paper is a key of the results,
    and its entry holds the extracted data of its result as automated
    extraction and a null [ground_truth]. *)
Theorem create_annotation_template_spec (sampled_ids : list string)
    (results schema template : value) :
  Prepare.create_annotation_template sampled_ids results schema
  = inr template ->
  exists sd papers,
    schema = VDict sd
    /\ template = VDict [("_instructions"%string, Prepare.instructions sd);
                         ("validation_papers"%string, VDict papers)]
    /\ NoDup (keys papers)
    /\ (forall k, k ∈ keys papers <-> k ∈ sampled_ids)
    /\ (forall k,
          k ∈ sampled_ids ->
          exists r entry,
            Prepare.getitem results k = inr (VDict r)
            /\ assoc k papers = Some entry
            /\ fresh_entry r entry).
Proof.
  unfold Prepare.create_annotation_template. intros H.
  destruct schema as [| | | | | |sd]; try discriminate.
  destruct (Prepare.fill sampled_ids results []) as [|papers] eqn:Hfill;
    [discriminate|].
  simplify_eq.
  destruct (fill_spec results sampled_ids [] papers (NoDup_nil_2) Hfill)
    as (Hnd & Hk & Hin & _).
  exists sd, papers. split_and!; try done.
  intros k. rewrite Hk. split; [|auto].
  intros [?%elem_of_nil|?]; done.
Qed.

Lemma create_annotation_template_spec_witness :
  exists sd papers,
    VDict [] = VDict sd
    /\ example_template
       = VDict [("_instructions"%string, Prepare.instructions sd);
                ("validation_papers"%string, VDict papers)]
    /\ NoDup (keys papers)
    /\ (forall k, k ∈ keys papers <-> k ∈ ["p1"%string; "p1"%string])
    /\ (forall k,
          k ∈ ["p1"%string; "p1"%string] ->
          exists r entry,
            Prepare.getitem example_results k = inr (VDict r)
            /\ assoc k papers = Some entry
            /\ fresh_entry r entry).
Proof.
  apply (create_annotation_template_spec ["p1"%string; "p1"%string]
           example_results (VDict [])).
  vm_compute. reflexivity.
Defined.

(** When [create_annotation_template] raises and when it does not.  A
    [KeyError] names a sampled paper that the results, a mapping, do not
    hold.  When the schema is a mapping and the results map every sampled
    paper to a mapping, the template is returned. *)
Theorem create_annotation_template_errors (sampled_ids : list string)
    (results schema : value) :
  (forall key,
     Prepare.create_annotation_template sampled_ids results schema
     = inl (Prepare.KeyError key) ->
     key ∈ sampled_ids /\ exists d, results = VDict d /\ assoc key d = None)
  /\ (forall sd d,
        schema = VDict sd ->
        results = VDict d ->
        (forall k, k ∈ sampled_ids -> exists r, assoc k d = Some (VDict r)) ->
        exists template,
          Prepare.create_annotation_template sampled_ids results schema
          = inr template).
Proof.
  unfold Prepare.create_annotation_template. split.
  - intros key H. destruct schema as [| | | | | |sd]; try discriminate.
    destruct (Prepare.fill sampled_ids results []) as [e|papers] eqn:Hfill;
      [|discriminate].
    simplify_eq. by eapply fill_key_error.
  - intros sd d -> -> Hall.
    destruct (fill_total d sampled_ids Hall []) as [papers ->].
    by eexists.
Qed.

Lemma create_annotation_template_errors_witness :
  ("p2"%string ∈ ["p1"%string; "p2"%string]
   /\ exists d, VDict [("p1"%string, VDict [])] = VDict d
                /\ assoc "p2" d = None)
  /\ exists template,
       Prepare.create_annotation_template ["p1"%string]
         (VDict [("p1"%string, VDict [])]) (VDict [])
       = inr template.
Proof.
  split.
  - apply (proj1 (create_annotation_template_errors
                    ["p1"%string; "p2"%string]
                    (VDict [("p1"%string, VDict [])]) (VDict []))).
    vm_compute. reflexivity.
  - apply (proj2 (create_annotation_template_errors ["p1"%string]
                    (VDict [("p1"%string, VDict [])]) (VDict []))
             [] [("p1"%string, VDict [])] eq_refl eq_refl).
    intros k ->%list_elem_of_singleton. by exists [].
Defined.

(** A template that nobody has annotated is rejected: on what
    [create_annotation_template] returns, whatever was sampled, [main]
    exits with status 1. *)
Theorem fresh_template_rejected (py : Builtins)
    (sampled_ids : list string) (results schema template : value)
    (config : Config) :
  Prepare.create_annotation_template sampled_ids results schema
  = inr template ->
  main py template config = Ok (Exited 1).
Proof.
  unfold Prepare.create_annotation_template. intros H.
  destruct schema as [| | | | | |sd]; try discriminate.
  destruct (Prepare.fill sampled_ids results []) as [|papers] eqn:Hfill;
    [discriminate|].
  simplify_eq.
  pose proof (fill_no_truth _ _ _ _ (Forall_nil_2 _) Hfill) as Hnone.
  unfold main. cbn [value_get mbind result_bind].
  change (dict_get_default _ "validation_papers" (VDict []))
    with (VDict papers).
  cbn [py_len mbind result_bind].
  by rewrite (count_annotated_none _ Hnone).
Qed.

Lemma fresh_template_rejected_witness :
  main ascii_builtins example_template default_config = Ok (Exited 1).
Proof.
  apply (fresh_template_rejected ascii_builtins ["p1"%string; "p1"%string]
           example_results (VDict [])).
  vm_compute. reflexivity.
Defined.
